(** * cerbero packaging layer: package model, resolution engine, RPM backend

    A shallow embedding of [cerbero/packages/package.py],
    [cerbero/packages/rpm.py] and [cerbero/utils/__init__.py], with the
    properties of the packaging specification stated and proved over it.

    Conventions of the embedding:
    - Python [str] is [string]; a [dict] with string keys is a [gmap string],
      and an association list in the order of insertion where the order
      shows (the substitution contexts of the templates); a [set] of
      strings is a [gset string]; a list is a [list].
    - A call that may raise returns [Res]; the exception is the [Err] case.
    - Methods that call each other through the package store take the depth
      of calls the interpreter allows, and raise [RecursionError] beyond it.
    - Code that drives the operating system (archives, the shell, the
      staging tree) is a [Prog]: a finite tree of operations whose answers
      come from the environment.
    - Constants of modules that are imported by the sources but defined
      elsewhere ([PackageType], [Architecture], [Distro], [DistroVersion],
      [FilesProvider.LIBS_CAT]) are the fields of a record [Enums], taken as
      a parameter; collaborators defined elsewhere (cookbook, package store,
      the base classes of the packager) are records of the methods that are
      called on them. *)

From Stdlib Require Import Ascii String.
From stdpp Require Import gmap strings list sorting.

(** ** Exceptions and results *)

Inductive PyError : Type :=
| AttributeError
| KeyError (key : string)
| IndexError
| TypeError
| ValueError
| UnboundLocalError
| OSError
| FatalError (msg : string)
| EmptyPackageError
| PyException (msg : string)
| RecursionError          (* the interpreter's bound on the depth of calls *)
| OutOfSteps.             (* a loop of the model ran out of steps *)

Inductive Res (A : Type) : Type :=
| Ok (a : A)
| Err (e : PyError).
Arguments Ok {A} a.
Arguments Err {A} e.

Global Instance Res_ret : MRet Res := λ A a, Ok a.
Global Instance Res_bind : MBind Res := λ A B f r,
  match r with
  | Ok a => f a
  | Err e => Err e
  end.

(** [for x in l: acc.extend(f(x))], with the first exception ending the loop. *)
Fixpoint mapM_res {A B} (f : A → Res B) (l : list A) : Res (list B) :=
  match l with
  | [] => Ok []
  | x :: l' => y ← f x; ys ← mapM_res f l'; Ok (y :: ys)
  end.

(** Reading an attribute that is only set by an earlier call. *)
Definition attr {A} (o : option A) : Res A :=
  match o with
  | Some a => Ok a
  | None => Err AttributeError
  end.

(** ** Python built-ins on strings *)

Module Py.

(** [bool(s)] *)
Definition truthy (s : string) : bool :=
  match s with
  | EmptyString => false
  | String _ _ => true
  end.

Definition startswith (s p : string) : bool := String.prefix p s.

Definition endswith (s suffix : string) : bool :=
  String.prefix (String.rev suffix) (String.rev s).

(** [s.split(sep)] for a one-character separator. *)
Fixpoint split (sep : ascii) (s : string) : list string :=
  match s with
  | EmptyString => [EmptyString]
  | String c s' =>
      if Ascii.eqb c sep then EmptyString :: split sep s'
      else match split sep s' with
           | w :: ws => String c w :: ws
           | [] => [String c EmptyString]
           end
  end.

(** [sep.join(l)] *)
Definition join (sep : string) (l : list string) : string := String.concat sep l.

(** [sub in s] *)
Fixpoint contains (sub s : string) : bool :=
  String.prefix sub s ||
  match s with
  | EmptyString => false
  | String _ s' => contains sub s'
  end.

(** [s[:-n]] *)
Definition drop_last (n : nat) (s : string) : string :=
  String.substring 0 (String.length s - n) s.

(** [sorted(l)] on strings: the order of [str] is lexicographic on code
    points. *)
Definition sorted (l : list string) : list string := merge_sort String.le l.

(** [x in l] *)
Definition mem (x : string) (l : list string) : bool := bool_decide (x ∈ l).

Definition dquote : string := String "034"%char EmptyString.
Definition newline : string := String "010"%char EmptyString.
Definition backslash : ascii := "092"%char.

(** [d.iteritems()] on a [dict].  The modules of the packaging layer load on
    Python 3 only ([cerbero.utils] defines a coroutine with [async def] and
    imports [pathlib]; [rpm.py] has a keyword-only parameter), and there a
    [dict] has no attribute [iteritems]: the call raises [AttributeError]
    before the loop is entered, whatever the dictionary holds. *)
Definition iteritems {V} (d : gmap string V) : Res (list (string * V)) :=
  Err AttributeError.

End Py.

(** ** The [%] operator of [str] with a [dict] on its right *)

(** The operator as CPython 3 defines it for a format and a dictionary whose
    values are strings: keys, flags, width, precision, length modifier and
    conversion type, read from left to right, the first error ending the
    scan.  Memory is not bounded: a width that the interpreter cannot
    allocate is padded to all the same. *)

Module PyFormat.

(** A [dict] whose keys and values are strings, in the order of
    insertion. *)
Definition Dict : Type := list (string * string).

(** [d.get(key)] *)
Fixpoint dict_get (d : Dict) (key : string) : option string :=
  match d with
  | [] => None
  | (k, v) :: d' => if String.eqb k key then Some v else dict_get d' key
  end.

(** [d[key] = v]: in place for a key of [d], at the end for a new one. *)
Fixpoint dict_set (key v : string) (d : Dict) : Dict :=
  match d with
  | [] => [(key, v)]
  | (k, w) :: d' => if String.eqb k key then (k, v) :: d' else (k, w) :: dict_set key v d'
  end.

(** *** [repr] and [ascii] of a [str] and of a [dict] *)

Definition hex_digit (n : nat) : ascii :=
  nth n (list_ascii_of_string "0123456789abcdef") "0"%char.

(** [\xNN] *)
Definition hex_escape (c : ascii) : string :=
  String Py.backslash
    (String "x" (String (hex_digit (nat_of_ascii c / 16))
                   (String (hex_digit (nat_of_ascii c mod 16)) ""))).

(** [c.isprintable()] for a character above [0x7f]: in the first 256 code
    points all but the controls, the no-break space and the soft hyphen. *)
Definition printable_high (c : ascii) : bool :=
  (161 <=? nat_of_ascii c) && negb (nat_of_ascii c =? 173).

Definition contains_char (c : ascii) (s : string) : bool :=
  existsb (Ascii.eqb c) (list_ascii_of_string s).

(** The quote [repr] puts around [s]: a double quote when [s] has single
    quotes and no double quote. *)
Definition repr_quote (s : string) : ascii :=
  if contains_char "'" s && negb (contains_char "034" s) then "034"%char else "'"%char.

Definition repr_char (ascii_only : bool) (quote c : ascii) : string :=
  if Ascii.eqb c quote || Ascii.eqb c Py.backslash then String Py.backslash (String c "")
  else if Ascii.eqb c "009" then String Py.backslash "t"
  else if Ascii.eqb c "010" then String Py.backslash "n"
  else if Ascii.eqb c "013" then String Py.backslash "r"
  else if (nat_of_ascii c <? 32) || (nat_of_ascii c =? 127) then hex_escape c
  else if nat_of_ascii c <? 127 then String c ""
  else if ascii_only || negb (printable_high c) then hex_escape c
  else String c "".

(** [repr(s)], and [ascii(s)] when [ascii_only]. *)
Definition repr_str (ascii_only : bool) (s : string) : string :=
  let quote := repr_quote s in
  String quote
    (String.concat "" (repr_char ascii_only quote <$> list_ascii_of_string s)
     +:+ String quote "").

(** [repr(d)], and [ascii(d)] when [ascii_only]. *)
Definition repr_dict (ascii_only : bool) (d : Dict) : string :=
  "{" +:+ Py.join ", "
            ((λ kv, repr_str ascii_only kv.1 +:+ ": " +:+ repr_str ascii_only kv.2) <$> d)
  +:+ "}".

(** *** Conversions *)

(** What a conversion specifier says on the layout of a string: the [-]
    flag, the width and the precision.  The other flags act on numbers
    only. *)
Record Conv : Type := {
  ljust : bool;
  width : option N;
  prec : option N
}.

Definition conv0 : Conv := {| ljust := false; width := None; prec := None |}.

(** The argument the next conversion formats: the dictionary itself, or the
    value of the last key looked up. *)
Inductive Arg : Type :=
| Whole
| Value (v : string).

Inductive State : Type :=
| Text                                (* outside a conversion *)
| Percent                             (* after the percent sign *)
| Key (depth : nat) (acc : string)    (* inside the parentheses of a key *)
| Flags (cv : Conv)                   (* among the flags *)
| Width (cv : Conv)                   (* among the digits of the width *)
| Dot (cv : Conv)                     (* after the dot of the precision *)
| Prec (cv : Conv)                    (* among the digits of the precision *)
| Length (cv : Conv).                 (* after a length modifier *)

(** What one character of the format does. *)
Inductive Step : Type :=
| Goto (st : State) (args : Arg) (avail : bool)
| Emit (piece : string) (args : Arg) (avail : bool)
| Raise (e : PyError).

Definition is_digit (c : ascii) : bool :=
  (48 <=? nat_of_ascii c) && (nat_of_ascii c <=? 57).

Definition digit (c : ascii) : N := N.of_nat (nat_of_ascii c - 48).

Definition spaces (n : N) : string := string_of_list_ascii (replicate (N.to_nat n) " "%char).

(** The string of a conversion, cut to the precision when [cut] and padded
    to the width. *)
Definition layout (cv : Conv) (cut : bool) (s : string) : string :=
  let s := match prec cv with
           | Some p => if cut then String.substring 0 (N.to_nat p) s else s
           | None => s
           end in
  match width cv with
  | Some w =>
      let len := N.of_nat (String.length s) in
      if (w <=? len)%N then s
      else if ljust cv then s +:+ spaces (w - len) else spaces (w - len) +:+ s
  | None => s
  end.

(** The conversion type.  The argument is taken before the type is looked
    at; it is a string or the dictionary, which no numeric conversion
    accepts. *)
Definition convert (d : Dict) (cv : Conv) (args : Arg) (avail : bool) (c : ascii) : Step :=
  if negb avail then Raise TypeError
  else if Ascii.eqb c "s" then
    Emit (layout cv true (match args with Value v => v | Whole => repr_dict false d end))
      args false
  else if Ascii.eqb c "r" then
    Emit (layout cv true (match args with
                          | Value v => repr_str false v
                          | Whole => repr_dict false d
                          end))
      args false
  else if Ascii.eqb c "a" then
    Emit (layout cv true (match args with
                          | Value v => repr_str true v
                          | Whole => repr_dict true d
                          end))
      args false
  else if Ascii.eqb c "c" then
    match args with
    | Value (String x "") => Emit (layout cv false (String x "")) args false
    | _ => Raise TypeError
    end
  else if contains_char c "diuoxXeEfFgG" then Raise TypeError
  else Raise ValueError.

(** After the precision: one length modifier is skipped. *)
Definition after_prec (d : Dict) (cv : Conv) (args : Arg) (avail : bool) (c : ascii) : Step :=
  if contains_char c "hlL" then Goto (Length cv) args avail
  else convert d cv args avail c.

(** After the width: a dot opens the precision. *)
Definition after_width (d : Dict) (cv : Conv) (args : Arg) (avail : bool) (c : ascii)
    : Step :=
  if Ascii.eqb c "." then
    Goto (Dot {| ljust := ljust cv; width := width cv; prec := Some 0%N |}) args avail
  else after_prec d cv args avail c.

(** After the flags: a star asks for an integer argument, which neither a
    string nor the dictionary is. *)
Definition after_flags (d : Dict) (cv : Conv) (args : Arg) (avail : bool) (c : ascii)
    : Step :=
  if Ascii.eqb c "*" then Raise TypeError
  else if is_digit c then
    Goto (Width {| ljust := ljust cv; width := Some (digit c); prec := prec cv |}) args avail
  else after_width d cv args avail c.

(** The greatest width ([PY_SSIZE_T_MAX] where a size has 64 bits) and the
    greatest precision ([INT_MAX]). *)
Definition max_width : N := 9223372036854775807.
Definition max_prec : N := 2147483647.

Definition step (d : Dict) (st : State) (args : Arg) (avail : bool) (c : ascii) : Step :=
  match st with
  | Text =>
      if Ascii.eqb c "%" then Goto Percent args avail
      else Emit (String c "") args avail
  | Percent =>
      if Ascii.eqb c "%" then Emit "%" args avail
      else if Ascii.eqb c "(" then Goto (Key 0 "") args avail
      else if contains_char c "-+ #0" then
        Goto (Flags {| ljust := Ascii.eqb c "-"; width := None; prec := None |}) args avail
      else after_flags d conv0 args avail c
  | Key depth acc =>
      if Ascii.eqb c ")" then
        match depth with
        | 0 =>
            match dict_get d acc with
            | Some v => Goto (Flags conv0) (Value v) true
            | None => Raise (KeyError acc)
            end
        | S depth' => Goto (Key depth' (acc +:+ String c "")) args avail
        end
      else if Ascii.eqb c "(" then Goto (Key (S depth) (acc +:+ String c "")) args avail
      else Goto (Key depth (acc +:+ String c "")) args avail
  | Flags cv =>
      if contains_char c "-+ #0" then
        Goto (Flags {| ljust := ljust cv || Ascii.eqb c "-"; width := width cv;
                       prec := prec cv |}) args avail
      else after_flags d cv args avail c
  | Width cv =>
      if is_digit c then
        let w := (default 0 (width cv) * 10 + digit c)%N in
        if (max_width <? w)%N then Raise ValueError
        else Goto (Width {| ljust := ljust cv; width := Some w; prec := prec cv |}) args avail
      else after_width d cv args avail c
  | Dot cv =>
      if Ascii.eqb c "*" then Raise TypeError
      else if is_digit c then
        Goto (Prec {| ljust := ljust cv; width := width cv; prec := Some (digit c) |})
          args avail
      else after_prec d cv args avail c
  | Prec cv =>
      if is_digit c then
        let p := (default 0 (prec cv) * 10 + digit c)%N in
        if (max_prec <? p)%N then Raise ValueError
        else Goto (Prec {| ljust := ljust cv; width := width cv; prec := Some p |}) args avail
      else after_prec d cv args avail c
  | Length cv => convert d cv args avail c
  end.

(** The rest of the result from a state of the scan; a format that ends
    inside a conversion is incomplete. *)
Fixpoint format_from (d : Dict) (st : State) (args : Arg) (avail : bool) (s : string)
    : Res string :=
  match s with
  | EmptyString =>
      match st with
      | Text => Ok EmptyString
      | _ => Err ValueError
      end
  | String c s' =>
      match step d st args avail c with
      | Goto st' args' avail' => format_from d st' args' avail' s'
      | Emit piece args' avail' =>
          rest ← format_from d Text args' avail' s';
          Ok (piece +:+ rest)
      | Raise e => Err e
      end
  end.

(** [template % d] *)
Definition format (template : string) (d : Dict) : Res string :=
  format_from d Text Whole true template.

(** *** Templates of literal text and [%(key)s] fields *)

(** A piece of such a template: a literal character, or the field of a
    key. *)
Inductive Segment : Type :=
| Lit (c : ascii)
| Field (key : string).

Inductive Plain : Type :=
| PText
| PPercent
| PKey (acc : string)
| PConv (key : string).

(** The pieces of a template whose conversions are the doubled percent sign
    and [%(key)s] with a key without parentheses; [None] for another
    template. *)
Fixpoint segments_from (st : Plain) (s : string) : option (list Segment) :=
  match s with
  | EmptyString =>
      match st with
      | PText => Some []
      | _ => None
      end
  | String c s' =>
      match st with
      | PText =>
          if Ascii.eqb c "%" then segments_from PPercent s'
          else cons (Lit c) <$> segments_from PText s'
      | PPercent =>
          if Ascii.eqb c "%" then cons (Lit c) <$> segments_from PText s'
          else if Ascii.eqb c "(" then segments_from (PKey EmptyString) s'
          else None
      | PKey acc =>
          if Ascii.eqb c ")" then segments_from (PConv acc) s'
          else if Ascii.eqb c "(" then None
          else segments_from (PKey (acc +:+ String c EmptyString)) s'
      | PConv key =>
          if Ascii.eqb c "s" then cons (Field key) <$> segments_from PText s'
          else None
      end
  end.

Definition segments (template : string) : option (list Segment) :=
  segments_from PText template.

Definition render_segment (d : Dict) (seg : Segment) : Res string :=
  match seg with
  | Lit c => Ok (String c EmptyString)
  | Field key =>
      match dict_get d key with
      | Some v => Ok v
      | None => Err (KeyError key)
      end
  end.

(** What [%] makes of the pieces, from left to right. *)
Fixpoint render (d : Dict) (segs : list Segment) : Res string :=
  match segs with
  | [] => Ok EmptyString
  | seg :: segs' =>
      a ← render_segment d seg;
      b ← render d segs';
      Ok (a +:+ b)
  end.

(** [template % x] for a string [x] and a template whose conversions are a
    doubled percent sign and one [%s], as all the one-argument templates of
    the packagers are. *)
Fixpoint format1 (template x : string) : string :=
  match template with
  | EmptyString => EmptyString
  | String c t' =>
      if Ascii.eqb c "%" then
        match t' with
        | String d t'' =>
            if Ascii.eqb d "s" then x +:+ format1 t'' x
            else if Ascii.eqb d "%" then String d (format1 t'' x)
            else String c (String d (format1 t'' x))
        | EmptyString => String c EmptyString
        end
      else String c (format1 t' x)
  end.

End PyFormat.

(** ** posixpath *)

Module PosixPath.

Definition isabs (p : string) : bool := Py.startswith p "/".

(** [os.path.join(a, b)] *)
Definition join (a b : string) : string :=
  if Py.startswith b "/" then b
  else if negb (Py.truthy a) || Py.endswith a "/" then a +:+ b
  else a +:+ "/" +:+ b.

(** One step of the loop of [normpath] over the components. *)
Definition normpath_step (initial_slashes : nat) (new_comps : list string)
    (comp : string) : list string :=
  if bool_decide (comp = "") || bool_decide (comp = ".") then new_comps
  else if negb (bool_decide (comp = ".."))
          || (bool_decide (initial_slashes = 0) && bool_decide (new_comps = []))
          || (negb (bool_decide (new_comps = []))
              && bool_decide (last new_comps = Some ".."))
       then new_comps ++ [comp]
       else removelast new_comps.

Definition normpath (path : string) : string :=
  if negb (Py.truthy path) then "."
  else
    let initial_slashes :=
      if Py.startswith path "/" then
        if Py.startswith path "//" && negb (Py.startswith path "///") then 2 else 1
      else 0 in
    let comps := Py.split "/" path in
    let new_comps := fold_left (normpath_step initial_slashes) comps [] in
    let path := Py.join "/" new_comps in
    let path := Py.join "" (replicate initial_slashes "/") +:+ path in
    if Py.truthy path then path else ".".

(** [os.path.abspath(path)], in a process whose working directory is [cwd]. *)
Definition abspath (cwd path : string) : string :=
  normpath (if isabs path then path else join cwd path).

(** [os.path.commonprefix([a, b])]: the longest common prefix, character
    by character. *)
Fixpoint commonprefix (a b : string) : string :=
  match a, b with
  | String c a', String d b' =>
      if Ascii.eqb c d then String c (commonprefix a' b') else EmptyString
  | _, _ => EmptyString
  end.

(** [os.path.split(p)[1]] *)
Definition split_tail (p : string) : string :=
  default EmptyString (last (Py.split "/" p)).

(** The components of an absolute, normalised path. *)
Definition components (p : string) : list string :=
  filter (λ c, c ≠ EmptyString) (Py.split "/" p).

(** [s.rstrip('/')] *)
Definition rstrip_slash (s : string) : string :=
  let fix drop (r : string) : string :=
    match r with
    | String c r' => if Ascii.eqb c "/" then drop r' else r
    | EmptyString => EmptyString
    end in
  String.rev (drop (String.rev s)).

(** [os.path.dirname(p)] *)
Definition dirname (p : string) : string :=
  let parts := Py.split "/" p in
  let head :=
    match parts with
    | [] | [_] => EmptyString
    | _ => Py.join "/" (removelast parts) +:+ "/"
    end in
  if Py.truthy head && Py.truthy (rstrip_slash head) then rstrip_slash head else head.

End PosixPath.

(** ** Constants and collaborators defined outside the sources *)

(** The constants the sources import from [cerbero.packages], [cerbero.enums],
    [cerbero.config] and [cerbero.build.filesprovider].  All of them are
    strings in Python; the code compares them with [==], concatenates
    [PackageType] values to names and tests them for truth. *)
Record Enums : Type := {
  RUNTIME : string;      (* PackageType.RUNTIME *)
  DEVEL : string;        (* PackageType.DEVEL *)
  LIBS_CAT : string;     (* FilesProvider.LIBS_CAT *)
  X86 : string;          (* Architecture.X86 *)
  X86_64 : string;       (* Architecture.X86_64 *)
  REDHAT : string;       (* Distro.REDHAT *)
  FEDORA_26 : string;    (* DistroVersion.FEDORA_26 *)
  REDHAT_7 : string      (* DistroVersion.REDHAT_7 *)
}.

(** The values the constants have in the cerbero distribution; used for the
    concrete runs below. *)
Definition cerbero_enums : Enums := {|
  RUNTIME := "";
  DEVEL := "-devel";
  LIBS_CAT := "libs";
  X86 := "x86";
  X86_64 := "x86_64";
  REDHAT := "redhat";
  FEDORA_26 := "fedora_26";
  REDHAT_7 := "redhat_7"
|}.

(** The fields of the build configuration that the packaging layer reads. *)
Record Config : Type := {
  target_platform : string;
  target_distro : string;
  target_distro_version : string;
  target_arch : string;
  distro : string;
  distro_version : string;
  install_dir : string;
  sources : string;
  home_dir : string
}.

(** Recipe provider (cookbook), through the interface the package model
    calls. *)
Module Recipe.
Record t : Type := {
  dist_files_list : list string;
  devel_files_list : list string;
  files_list_by_categories : list string → list string;
  files_list : list string;
  libraries : list string
}.
End Recipe.

Record CookBook : Type := {
  get_recipe : string → Recipe.t;
  list_recipe_deps : string → list Recipe.t
}.

(** Package store, through the interface the package model calls; [D] is the
    type of package descriptors.  [get_package_deps] is called with a package
    name and the [recursive] flag by [MetaPackage], and with a package object
    (and the default [recursive=False]) by [App]. *)
Record Store (D : Type) : Type := {
  get_package : string → option D;
  get_package_deps : string → bool → list D;
  get_package_deps_of : D → list D
}.
Arguments get_package {D} _ _.
Arguments get_package_deps {D} _ _ _.
Arguments get_package_deps_of {D} _ _.

(** ** cerbero.utils *)

Module Utils.

(** [remove_list_duplicates(seq)]: the comprehension keeps [x] when it is not
    in [seen], and adds it to [seen] as it keeps it. *)
Fixpoint remove_list_duplicates_from (seen : gset string) (seq : list string) : list string :=
  match seq with
  | [] => []
  | x :: seq' =>
      if decide (x ∈ seen) then remove_list_duplicates_from seen seq'
      else x :: remove_list_duplicates_from ({[x]} ∪ seen) seq'
  end.

Definition remove_list_duplicates (seq : list string) : list string :=
  remove_list_duplicates_from ∅ seq.

(** [_ = gettext.gettext]: no message catalog is bound by the sources, and
    [gettext] then returns its argument. *)
Definition gettext (msg : string) : string := msg.

End Utils.

(** ** cerbero.packages.package *)

(** A license of [cerbero.enums.License], as far as the packagers read it. *)
Record License : Type := {
  acronym : string;
  pretty_name : string
}.

(** *** class PackageBase *)

Module PackageBase.

(** The stored fields of a descriptor that the modelled methods read, and
    the mode set by [__init__] and [set_mode]. *)
Record t : Type := {
  name : string;
  shortdesc : string;
  longdesc : string;
  version : string;
  uuid : option string;
  license : License;
  vendor : string;
  url : string;
  sys_deps : gmap string (list string);
  sys_deps_devel : gmap string (list string);
  resources_preinstall : option string;
  resources_postinstall : option string;
  resources_postremove : option string;
  file_ : string;                 (* __file__ *)
  config : Config;
  package_mode : string
}.

(** The stored fields: everything but the mode. *)
Definition stored (self : t) : t :=
  {| name := name self; shortdesc := shortdesc self; longdesc := longdesc self;
     version := version self; uuid := uuid self; license := license self;
     vendor := vendor self; url := url self; sys_deps := sys_deps self;
     sys_deps_devel := sys_deps_devel self;
     resources_preinstall := resources_preinstall self;
     resources_postinstall := resources_postinstall self;
     resources_postremove := resources_postremove self;
     file_ := file_ self; config := config self; package_mode := EmptyString |}.

(** [self.package_mode = package_type] *)
Definition set_mode (self : t) (package_type : string) : t :=
  {| name := name self; shortdesc := shortdesc self; longdesc := longdesc self;
     version := version self; uuid := uuid self; license := license self;
     vendor := vendor self; url := url self; sys_deps := sys_deps self;
     sys_deps_devel := sys_deps_devel self;
     resources_preinstall := resources_preinstall self;
     resources_postinstall := resources_postinstall self;
     resources_postremove := resources_postremove self;
     file_ := file_ self; config := config self; package_mode := package_type |}.

Definition package_dir (self : t) : string := PosixPath.dirname (file_ self).

Definition relative_path (cwd : string) (self : t) (path : string) : string :=
  PosixPath.abspath cwd (PosixPath.join (package_dir self) path).

Section Modes.
Context (K : Enums).

(** [get_sys_deps(package_mode=None)] *)
Definition get_sys_deps (self : t) (package_mode : option string) : Res (list string) :=
  (* package_mode = package_mode or self.package_mode *)
  let package_mode :=
    match package_mode with
    | Some m => if Py.truthy m then m else PackageBase.package_mode self
    | None => PackageBase.package_mode self
    end in
  let sys_deps : option (gmap string (list string)) :=
    if bool_decide (package_mode = RUNTIME K) then Some (sys_deps self) else None in
  let sys_deps :=
    if bool_decide (package_mode = DEVEL K) then Some (sys_deps_devel self) else sys_deps in
  match sys_deps with
  | None => Err UnboundLocalError
  | Some sys_deps =>
      match sys_deps !! target_distro_version (config self) with
      | Some deps => Ok deps
      | None =>
          match sys_deps !! target_distro (config self) with
          | Some deps => Ok deps
          | None => Ok []
          end
      end
  end.

(** [__getattribute__(name)] at the names it treats specially. *)

Definition getattribute_resources (cwd : string) (self : t) (attr : option string) : option string :=
  relative_path cwd self <$> attr.

Definition getattribute_name (self : t) : string :=
  name self +:+ package_mode self.

Definition getattribute_shortdesc (self : t) : string :=
  if bool_decide (package_mode self = DEVEL K)
  then shortdesc self +:+ " (Development Files)"
  else shortdesc self.

Definition getattribute_uuid (self : t) : Res (option string) :=
  if bool_decide (package_mode self = DEVEL K) then
    match uuid self with
    | None => Ok None
    | Some EmptyString => Err IndexError
    | Some (String c rest) =>
        if negb (Ascii.eqb c "0") then Ok (Some (String "0" rest))
        else Ok (Some (String "1" rest))
    end
  else Ok (uuid self).

End Modes.

End PackageBase.

(** *** class Package *)

Module Package.

Record t : Type := {
  base : PackageBase.t;
  deps : list string;
  files : list string;
  platform_files : gmap string (list string);
  files_devel : list string;
  platform_files_devel : gmap string (list string);
  (* set by load_files *)
  _files : option (list string);
  _files_devel : option (list string);
  (* set by _parse_files *)
  _recipes_files : option (gmap string (list string));
  _recipes_files_devel : option (gmap string (list string))
}.

(** The dictionary built by one loop of [_parse_files]: for each entry [r],
    [l = r.split(':')] and [d[l[0]] = l[1:]]; a later entry of the same
    recipe replaces an earlier one. *)
Definition parse_entries (entries : list string) : gmap string (list string) :=
  fold_left
    (λ d r, let l := Py.split ":" r in <[default EmptyString (head l) := tail l]> d)
    entries ∅.

Definition _parse_files (self : t) : Res t :=
  fs ← attr (_files self);
  fds ← attr (_files_devel self);
  Ok {| base := base self; deps := deps self; files := files self;
        platform_files := platform_files self; files_devel := files_devel self;
        platform_files_devel := platform_files_devel self;
        _files := _files self; _files_devel := _files_devel self;
        _recipes_files := Some (parse_entries fs);
        _recipes_files_devel := Some (parse_entries fds) |}.

Definition load_files (self : t) : Res t :=
  let platform := target_platform (PackageBase.config (base self)) in
  _parse_files
    {| base := base self; deps := deps self; files := files self;
       platform_files := platform_files self; files_devel := files_devel self;
       platform_files_devel := platform_files_devel self;
       _files := Some (files self ++ default [] (platform_files self !! platform));
       _files_devel :=
         Some (files_devel self ++ default [] (platform_files_devel self !! platform));
       _recipes_files := _recipes_files self;
       _recipes_files_devel := _recipes_files_devel self |}.

(** [x.split(':')[0]] *)
Definition recipe_of_entry (x : string) : string :=
  default EmptyString (head (Py.split ":" x)).

Section Methods.
Context (K : Enums) (cookbook : CookBook).
Context {D : Type} (store : Store D).
(** [p.recipes_dependencies()] on a package object of any class. *)
Context (dispatch : D → Res (list string)).

Definition recipes_dependencies (self : t) : Res (list string) :=
  fs ← attr (_files self);
  fds ← attr (_files_devel self);
  let deps0 := (recipe_of_entry <$> fs) ++ (recipe_of_entry <$> fds) in
  more ← mapM_res (λ name, p ← attr (get_package store name); dispatch p) (deps self);
  Ok (deps0 ++ concat more).

(** The loops below are written over [d.iteritems()], the Python 2 spelling
    of [d.items()]; see [Py.iteritems].  What each loop does with the items
    is a definition of its own. *)

(** The body of the loop of [files_list] for one item of [_recipes_files]. *)
Definition files_list_item (item : string * list string) : list string :=
  let '(recipe_name, categories) := item in
  let recipe := get_recipe cookbook recipe_name in
  if length categories =? 0 then Recipe.dist_files_list recipe
  else Recipe.files_list_by_categories recipe categories.

(** The loop of [files_list] and its [return sorted(files)], over the
    items it is given. *)
Definition files_list_over (items : list (string * list string)) : list string :=
  Py.sorted (concat (files_list_item <$> items)).

Definition files_list (self : t) : Res (list string) :=
  rf ← attr (_recipes_files self);
  items ← Py.iteritems rf;
  Ok (files_list_over items).

(** The bodies of the two loops of [devel_files_list]. *)
Definition devel_files_list_runtime_item (item : string * list string) : list string :=
  let '(recipe, categories) := item in
  if (length categories =? 0) || Py.mem (LIBS_CAT K) categories
  then Recipe.devel_files_list (get_recipe cookbook recipe)
  else [].

Definition devel_files_list_devel_item (item : string * list string) : list string :=
  let '(recipe, categories) := item in
  let recipe := get_recipe cookbook recipe in
  match categories with
  | [] => Recipe.devel_files_list recipe
  | _ => Recipe.files_list_by_categories recipe categories
  end.

(** The two loops of [devel_files_list] and its [return sorted(files)],
    over the items they are given. *)
Definition devel_files_list_over (items items_devel : list (string * list string))
    : list string :=
  Py.sorted (concat (devel_files_list_runtime_item <$> items)
             ++ concat (devel_files_list_devel_item <$> items_devel)).

Definition devel_files_list (self : t) : Res (list string) :=
  rf ← attr (_recipes_files self);
  items ← Py.iteritems rf;
  rfd ← attr (_recipes_files_devel self);
  items_devel ← Py.iteritems rfd;
  Ok (devel_files_list_over items items_devel).

Definition all_files_list (self : t) : Res (list string) :=
  files ← files_list self;
  devel ← devel_files_list self;
  Ok (Py.sorted (files ++ devel)).

End Methods.

End Package.

(** *** class AppExtensionPackage(Package) *)

Module AppExtensionPackage.

Definition recipes_dependencies (self : Package.t) : list string :=
  Package.recipe_of_entry <$> Package.files self.

End AppExtensionPackage.

(** *** class MetaPackage, and its subclasses SDKPackage and InstallerPackage *)

Module MetaPackage.

Record t : Type := {
  base : PackageBase.t;
  packages : list string;
  platform_packages : gmap string (list string)
}.

Section Methods.
Context (K : Enums) (cookbook : CookBook).
Context {D : Type} (store : Store D).
Context (dispatch : D → Res (list string)).
(** [_list_files] applies the functions of class [Package] to every child,
    whatever its class.  [as_package] gives the attributes of an instance
    of [Package]; [dispatch_files_list] and [dispatch_devel_files_list] are
    [child.files_list()] and [child.devel_files_list()] on a package object
    of any class. *)
Context (as_package : D → option Package.t).
Context (dispatch_files_list dispatch_devel_files_list : D → Res (list string)).

Definition recipes_dependencies (self : t) : Res (list string) :=
  let children := get_package_deps store (PackageBase.getattribute_name (base self)) true in
  deps ← mapM_res dispatch children;
  Ok (Utils.remove_list_duplicates (concat deps)).

Definition _list_files (func : D → Res (list string)) (self : t) : Res (list string) :=
  let children := get_package_deps store (PackageBase.getattribute_name (base self)) false in
  files ← mapM_res func children;
  Ok (Py.sorted (concat files)).

(** [Package.files_list(package)] and [Package.devel_files_list(package)]:
    the bodies read [package._recipes_files], which only an instance of
    [Package] has. *)
Definition Package_files_list (package : D) : Res (list string) :=
  p ← attr (as_package package);
  Package.files_list cookbook p.

Definition Package_devel_files_list (package : D) : Res (list string) :=
  p ← attr (as_package package);
  Package.devel_files_list K cookbook p.

(** [Package.all_files_list(package)]: the body calls [files_list] and
    [devel_files_list] on [package], the methods of its own class. *)
Definition Package_all_files_list (package : D) : Res (list string) :=
  files ← dispatch_files_list package;
  devel ← dispatch_devel_files_list package;
  Ok (Py.sorted (files ++ devel)).

Definition files_list : t → Res (list string) :=
  _list_files Package_files_list.

Definition devel_files_list : t → Res (list string) :=
  _list_files Package_devel_files_list.

Definition all_files_list : t → Res (list string) :=
  _list_files Package_all_files_list.

End Methods.

End MetaPackage.

(** *** class App *)

Module App.

Record t : Type := {
  base : PackageBase.t;
  app_recipe : option string;
  embed_deps : bool;
  deps : list string;
  (* the attribute platform_deps, when the package file defines it *)
  platform_deps : option (gmap string (list string))
}.

(** [__getattribute__('deps')]: a copy of the list, extended with the
    entry of [platform_deps] for the target platform. *)
Definition getattribute_deps (self : t) : list string :=
  deps self ++
  match platform_deps self with
  | Some platform_attr =>
      default [] (platform_attr !! target_platform (PackageBase.config (base self)))
  | None => []
  end.

(** [list(set(l))]: the elements of [l] without repetition; Python leaves
    their order unspecified, and nothing below depends on it. *)
Definition list_set (l : list string) : list string :=
  elements (list_to_set l : gset string).

(** [for package in packages_deps: packages_deps.extend(f(package))]: the
    loop visits the elements it appends.  [steps] bounds the number of
    iterations; the loop of the source has no bound. *)
Fixpoint extend_while_iterating {D} (steps : nat) (f : D → list D)
    (visited pending : list D) : Res (list D) :=
  match pending with
  | [] => Ok visited
  | package :: pending' =>
      match steps with
      | 0 => Err OutOfSteps
      | S steps' =>
          extend_while_iterating steps' f (visited ++ [package]) (pending' ++ f package)
      end
  end.

Section Methods.
Context (cookbook : CookBook).
Context {D : Type} `{EqDecision D} (store : Store D).
(** [p.recipes_dependencies()] and [p.files_list()] on a package object of
    any class. *)
Context (dispatch_recipes_dependencies : D → Res (list string)).
Context (dispatch_files_list : D → Res (list string)).

Definition recipes_dependencies (self : t) : Res (list string) :=
  deps ← mapM_res
    (λ dep, package ← attr (get_package store dep); dispatch_recipes_dependencies package)
    (getattribute_deps self);
  let deps := concat deps ++ option_list (app_recipe self) in
  Ok (list_set deps).

(** [self._app_recipe], looked up in the cookbook by [__init__]; the
    cookbook has no recipe for [None]. *)
Definition _app_recipe (self : t) : Res Recipe.t :=
  match app_recipe self with
  | Some r => Ok (get_recipe cookbook r)
  | None => Err (KeyError "None")
  end.

Definition files_list (steps : nat) (self : t) : Res (list string) :=
  embedded ←
    (if embed_deps self then
       packages_deps ← mapM_res (λ x, attr (get_package store x)) (getattribute_deps self);
       packages_deps ← extend_while_iterating steps (get_package_deps_of store) [] packages_deps;
       (* list(set(packages_deps)), on package objects *)
       let packages_deps := remove_dups packages_deps in
       files ← mapM_res dispatch_files_list packages_deps;
       recipes ← match app_recipe self with
                 | Some r => Ok (list_recipe_deps cookbook r)
                 | None => Err (KeyError "None")
                 end;
       Ok (concat files ++ concat (Recipe.libraries <$> recipes))
     else Ok []);
  app ← _app_recipe self;
  Ok (Py.sorted (embedded ++ Recipe.files_list app)).

Definition devel_files_list (self : t) : list string := [].

Definition all_files_list (steps : nat) (self : t) : Res (list string) :=
  files_list steps self.

End Methods.

End App.

(** *** Package objects and method dispatch *)

(** A package object of the store: an instance of one of the classes.
    [SDKPackage] and [InstallerPackage] inherit the methods modelled here
    from [MetaPackage]. *)
Inductive Descriptor : Type :=
| IsPackage (p : Package.t)
| IsAppExtensionPackage (p : Package.t) (app_package : option string)
| IsMetaPackage (m : MetaPackage.t)
| IsApp (a : App.t).

Global Instance Config_eq_dec : EqDecision Config.
Proof. solve_decision. Defined.
Global Instance License_eq_dec : EqDecision License.
Proof. solve_decision. Defined.
Global Instance PackageBase_eq_dec : EqDecision PackageBase.t.
Proof. solve_decision. Defined.
Global Instance Package_eq_dec : EqDecision Package.t.
Proof. solve_decision. Defined.
Global Instance MetaPackage_eq_dec : EqDecision MetaPackage.t.
Proof. solve_decision. Defined.
Global Instance App_eq_dec : EqDecision App.t.
Proof. solve_decision. Defined.
Global Instance Descriptor_eq_dec : EqDecision Descriptor.
Proof. solve_decision. Defined.

(** [isinstance(d, Package)] *)
Definition as_package (d : Descriptor) : option Package.t :=
  match d with
  | IsPackage p | IsAppExtensionPackage p _ => Some p
  | _ => None
  end.

Section Dispatch.
Context (K : Enums) (cookbook : CookBook) (store : Store Descriptor).

(** [d.recipes_dependencies()].  [depth] is the depth of calls the
    interpreter allows; the methods call each other through the store. *)
Fixpoint recipes_dependencies (depth : nat) (d : Descriptor) : Res (list string) :=
  match depth with
  | 0 => Err RecursionError
  | S depth' =>
      match d with
      | IsPackage p =>
          Package.recipes_dependencies store (recipes_dependencies depth') p
      | IsAppExtensionPackage p _ =>
          Ok (AppExtensionPackage.recipes_dependencies p)
      | IsMetaPackage m =>
          MetaPackage.recipes_dependencies store (recipes_dependencies depth') m
      | IsApp a =>
          App.recipes_dependencies store (recipes_dependencies depth') a
      end
  end.

(** [d.files_list()] *)
Fixpoint files_list (depth : nat) (d : Descriptor) : Res (list string) :=
  match d with
  | IsPackage p | IsAppExtensionPackage p _ => Package.files_list cookbook p
  | IsMetaPackage m => MetaPackage.files_list cookbook store as_package m
  | IsApp a =>
      match depth with
      | 0 => Err RecursionError
      | S depth' => App.files_list cookbook store (files_list depth') depth' a
      end
  end.

(** [d.devel_files_list()] *)
Definition devel_files_list (d : Descriptor) : Res (list string) :=
  match d with
  | IsPackage p | IsAppExtensionPackage p _ => Package.devel_files_list K cookbook p
  | IsMetaPackage m => MetaPackage.devel_files_list K cookbook store as_package m
  | IsApp a => Ok (App.devel_files_list a)
  end.

(** [d.all_files_list()] *)
Definition all_files_list (depth : nat) (d : Descriptor) : Res (list string) :=
  match d with
  | IsPackage p | IsAppExtensionPackage p _ => Package.all_files_list K cookbook p
  | IsMetaPackage m =>
      MetaPackage.all_files_list store (files_list depth) devel_files_list m
  | IsApp a =>
      match depth with
      | 0 => Err RecursionError
      | S depth' => App.all_files_list cookbook store (files_list depth') depth' a
      end
  end.

End Dispatch.

(** ** Programs over the operating system *)

(** The operations the RPM packager performs on its environment; the index
    is the type of the answer.  A member of an archive is represented by its
    name. *)
Inductive Op : Type → Type :=
| Mkdtemp (dir : string) : Op string                         (* tempfile.mkdtemp(dir=...) *)
| Mkdir (path : string) : Op unit                            (* os.mkdir *)
| TarOpen (tarball mode : string) : Op unit                  (* tarfile.open *)
| TarGetMembers (tarball : string) : Op (list string)        (* tar.getmembers() *)
| TarExtractAll (tarball path : string) : Op unit            (* tar.extractall(path) *)
| TarAdd (tarball path arcname : string) : Op unit           (* tar.add *)
| OsRemove (path : string) : Op unit                         (* os.remove *)
| Rmtree (path : string) : Op unit                           (* shutil.rmtree *)
| PreBuild (root_path : string) : Op unit                    (* self.package.pre_build *)
| ShellCall (cmd : string) : Op unit                         (* shell.call *)
| ListDir (path : string) : Op (list string)                 (* os.listdir *)
| PathExists (path : string) : Op bool                       (* os.path.exists *)
| Move (src dst : string) : Op unit.                         (* shutil.move *)

(** A program: it returns, raises, or performs an operation and goes on with
    the answer. *)
Inductive Prog (A : Type) : Type :=
| Ret (a : A)
| Throw (e : PyError)
| Do {X : Type} (op : Op X) (k : X → Prog A).
Arguments Ret {A} a.
Arguments Throw {A} e.
Arguments Do {A X} op k.

Fixpoint Prog_bind_def {A B} (f : A → Prog B) (p : Prog A) : Prog B :=
  match p with
  | Ret a => f a
  | Throw e => Throw e
  | Do op k => Do op (λ x, Prog_bind_def f (k x))
  end.

Global Instance Prog_ret : MRet Prog := λ A a, Ret a.
Global Instance Prog_bind : MBind Prog := λ A B f p, Prog_bind_def f p.

Definition call {X} (op : Op X) : Prog X := Do op Ret.

Definition lift {A} (r : Res A) : Prog A :=
  match r with
  | Ok a => Ret a
  | Err e => Throw e
  end.

(** [for x in l: body], threading the variables the body assigns. *)
Fixpoint for_each {A S} (l : list A) (body : A → S → Prog S) (s : S) : Prog S :=
  match l with
  | [] => Ret s
  | x :: l' => s' ← body x s; for_each l' body s'
  end.

(** Running a program in an environment [W] that answers the operations. *)
Fixpoint run {W A} (answer : ∀ X, Op X → W → Res X * W) (p : Prog A) (w : W) : Res A * W :=
  match p with
  | Ret a => (Ok a, w)
  | Throw e => (Err e, w)
  | Do op k =>
      match answer _ op w with
      | (Ok x, w') => run answer (k x) w'
      | (Err e, w') => (Err e, w')
      end
  end.

(** The operations a program performs before it ends, in a given
    environment: the trace of [run]. *)
Inductive Event : Type :=
| Performed {X : Type} (op : Op X).

Fixpoint trace {W A} (answer : ∀ X, Op X → W → Res X * W) (p : Prog A) (w : W) : list Event :=
  match p with
  | Ret _ | Throw _ => []
  | Do op k =>
      Performed op ::
      match answer _ op w with
      | (Ok x, w') => trace answer (k x) w'
      | (Err _, _) => []
      end
  end.

(** The directories a program lists before it ends, each with the names
    [os.listdir] answers, in the order of the calls. *)
Definition listing_of {X : Type} (op : Op X) : X → list (string * list string) :=
  match op in Op X return X → list (string * list string) with
  | ListDir path => λ names, [(path, names)]
  | _ => λ _, []
  end.

Fixpoint listings {W A} (answer : ∀ X, Op X → W → Res X * W) (p : Prog A) (w : W)
    : list (string * list string) :=
  match p with
  | Ret _ | Throw _ => []
  | Do op k =>
      match answer _ op w with
      | (Ok x, w') => listing_of op x ++ listings answer (k x) w'
      | (Err _, _) => []
      end
  end.

(** ** cerbero.packages.rpm *)

Module RPMPackager.

Definition SPEC_TPL : string :=
"
%%define _topdir %(topdir)s
%%define _package_name %(package_name)s
%%undefine _debugsource_packages
%%undefine _debuginfo_subpackages

Name:           %(p_prefix)s%(name)s
Version:        %(version)s
Release:        1
Summary:        %(summary)s
Source:         %(source)s
Group:          Applications/Internet
License:        %(licenses)s
Prefix:         %(prefix)s
Packager:       %(packager)s
Vendor:         %(vendor)s
%(url)s
%(requires)s
%(provides_conflicts_obsoletes)s

%%description
%(description)s

%(devel_package)s

%%prep
%%setup -n %%{_package_name}

%%build

%%install
mkdir -p $RPM_BUILD_ROOT/%%{prefix}
cp -r $RPM_BUILD_DIR/%%{_package_name}/* $RPM_BUILD_ROOT/%%{prefix}

# Workaround to remove full source dir paths from debuginfo packages
# (tested in Fedora 16/17).
#
# What happens is that rpmbuild invokes find-debuginfo.sh which in turn
# calls debugedit passing $RPM_BUILD_DIR as the " +:+ Py.dquote +:+
"base-dir" +:+ Py.dquote +:+
" param (-b) value.
# debugedit then removes the " +:+ Py.dquote +:+
"base-dir" +:+ Py.dquote +:+
" path from debug information.
#
# Normally packages are built inside $RPM_BUILD_DIR, thus resulting in proper
# debuginfo packages, but as we are building our recipes at $sources_dir and
# only including binaries here directly, no path would be removed and debuginfo
# packages containing full paths to source files would be used.
#
# Setting RPM_BUILD_DIR to $sources_dir should do the trick, setting here and
# hoping for the best.
export RPM_BUILD_DIR=%(sources_dir)s

%%clean
rm -rf $RPM_BUILD_ROOT

%(scripts)s

%%files
%(files)s

%(devel_files)s
".

Definition DEVEL_PACKAGE_TPL : string :=
"
%%package devel
%(requires)s
Summary: %(summary)s
%(provides_conflicts_obsoletes)s

%%description devel
%(description)s
".

Definition META_SPEC_TPL : string :=
"
%%define _topdir %(topdir)s
%%define _package_name %(package_name)s

Name:           %(p_prefix)s%(name)s
Version:        %(version)s
Release:        1
Summary:        %(summary)s
Group:          Applications/Internet
License:        %(licenses)s
Packager:       %(packager)s
Vendor:         %(vendor)s
%(url)s

%(requires)s

%%description
%(description)s

%(devel_package)s

%%prep

%%build

%%install

%%clean
rm -rf $RPM_BUILD_ROOT

%%files

%(devel_files)s
".

(** The one-argument templates.  [PRE_TPL], [POST_TPL] and [POSTUN_TPL] are
    joined to the scripts with [str.format] and go through [%] with them. *)
Definition REQUIRE_TPL : string := "Requires: %s" +:+ Py.newline.
Definition DEVEL_TPL : string := "%%files devel " +:+ Py.newline +:+ "%s".
Definition URL_TPL : string := "URL: %s" +:+ Py.newline.
Definition PRE_TPL : string := "%%pre" +:+ Py.newline.
Definition POST_TPL : string := "%%post" +:+ Py.newline.
Definition POSTUN_TPL : string := "%%postun" +:+ Py.newline.

(** The methods [RPMPackager] inherits from [LinuxPackager] and
    [PackagerBase] and calls on itself; their classes are outside the
    sources.  [sorted_set] is [sorted(list(set(l)))] on licenses. *)
Record LinuxPackager : Type := {
  get_requires : string → string → Res (list string);
  get_meta_requires : string → string → Res (list string * list string * list string);
  recipes_licenses : Res (list License);
  sorted_set : list License → list License
}.

(** An attribute of the package object that the packager indexes by distro
    and by package type, as the class or the package file leaves it: not
    defined at all, a string (the class has [conflicts = '']), or a
    dictionary of dictionaries of lists. *)
Inductive Relations : Type :=
| Undefined
| Str (s : string)
| ByDistro (d : gmap string (gmap string (list string))).

(** The packager, with the attributes of [self.package] that the packagers
    set on the package object or that package files define. *)
Record t : Type := {
  config : Config;
  package : Descriptor;
  build_meta_package : bool;
  provides : Relations;
  conflicts : Relations;
  replaces_obsoletes : Relations;
  has_runtime_package : option bool;
  has_devel_package : option bool;
  devel : bool;
  install_dir : string;
  package_prefix : string;
  full_package_name : string;
  packager : string;
  (* set by prepare *)
  _spec_str : option string;
  spec_path : option string
}.

Definition base_of (d : Descriptor) : PackageBase.t :=
  match d with
  | IsPackage p | IsAppExtensionPackage p _ => Package.base p
  | IsMetaPackage m => MetaPackage.base m
  | IsApp a => App.base a
  end.

(** The assignments of [prepare] to [self] and [self.package]. *)
Definition prepared (self : t) (has_runtime has_devel : bool) (spec_str path : string) : t :=
  {| config := config self; package := package self;
     build_meta_package := build_meta_package self;
     provides := provides self; conflicts := conflicts self;
     replaces_obsoletes := replaces_obsoletes self;
     has_runtime_package := Some has_runtime;
     has_devel_package := Some has_devel;
     devel := devel self; install_dir := install_dir self;
     package_prefix := package_prefix self;
     full_package_name := full_package_name self; packager := packager self;
     _spec_str := Some spec_str; spec_path := Some path |}.

(** [self.package.attribute[k1][k2]]: a string is indexed by integers
    only. *)
Definition lookup2 (d : Relations) (k1 k2 : string) : Res (list string) :=
  match d with
  | Undefined => Err AttributeError
  | Str _ => Err TypeError
  | ByDistro d =>
      match d !! k1 with
      | None => Err (KeyError k1)
      | Some d1 =>
          match d1 !! k2 with
          | None => Err (KeyError k2)
          | Some v => Ok v
          end
      end
  end.

Section Methods.
Context (K : Enums) (cookbook : CookBook) (store : Store Descriptor) (depth : nat).
Context (linux : LinuxPackager).
(** The working directory of the process, for [os.path.abspath]. *)
Context (cwd : string).

(** Modelled from the spec: [PackagerBase.files_list(package_type)], the
    method of cerbero/packages/packager.py that hands the resolved file list
    of the package to the backends.  It resolves the devel or the runtime
    file list of the package by its mode and signals a package with zero
    files as the empty-package condition. *)
Definition PackagerBase_files_list (self : t) (package_type : string) : Res (list string) :=
  files ← (if bool_decide (package_type = DEVEL K)
           then devel_files_list K cookbook store (package self)
           else files_list cookbook store depth (package self));
  match files with
  | [] => Err EmptyPackageError
  | _ => Ok files
  end.

Definition create_tree (self : t) (tmpdir : option string) : Prog (string * string * string) :=
  tmpdir ←
    match tmpdir with
    | None =>
        tmpdir ← call (Mkdtemp (home_dir (config self)));
        _ ← for_each ["BUILD"; "SOURCES"; "RPMS"; "SRPMS"; "SPECS"]
              (λ d _, call (Mkdir (PosixPath.join tmpdir d))) ();
        Ret tmpdir
    | Some tmpdir => Ret tmpdir
    end;
  Ret (tmpdir, PosixPath.join tmpdir "RPMS", PosixPath.join tmpdir "SOURCES").

Definition is_within_directory (directory target : string) : bool :=
  let abs_directory := PosixPath.abspath cwd directory in
  let abs_target := PosixPath.abspath cwd target in
  let prefix := PosixPath.commonprefix abs_directory abs_target in
  bool_decide (prefix = abs_directory).

(** The loop of [safe_extract] over the members. *)
Fixpoint check_members (path : string) (members : list string) : Res unit :=
  match members with
  | [] => Ok ()
  | member :: members' =>
      let member_path := PosixPath.join path member in
      if negb (is_within_directory path member_path)
      then Err (PyException "Attempted Path Traversal in Tar File")
      else check_members path members'
  end.

Definition safe_extract (tar path : string) : Prog unit :=
  members ← call (TarGetMembers tar);
  _ ← lift (check_members path members);
  call (TarExtractAll tar path).

Definition setup_source (self : t) (tarball tmpdir packagedir srcdir : string) : Prog string :=
  _ ← call (TarOpen tarball "r:bz2");
  _ ← safe_extract tarball srcdir;
  _ ← call (OsRemove tarball);
  let root_path := PosixPath.join srcdir (full_package_name self) in
  _ ← call (PreBuild root_path);
  let tarname := PosixPath.split_tail tarball in
  let tarname := if Py.endswith tarname ".bz2" then Py.drop_last 4 tarname else tarname in
  _ ← call (TarOpen (PosixPath.join srcdir tarname) "w");
  _ ← call (TarAdd (PosixPath.join srcdir tarname) root_path (full_package_name self));
  _ ← call (Rmtree root_path);
  Ret tarname.

Definition _get_meta_requires (self : t) (package_type : string) : Res string :=
  let devel_suffix := if bool_decide (package_type = DEVEL K) then "-devel" else "" in
  '(requires, recommends, suggests) ← get_meta_requires linux package_type devel_suffix;
  Ok (Py.join "" (PyFormat.format1 REQUIRE_TPL <$> (requires ++ recommends))).

Definition _get_requires (self : t) (package_type : string) : Res string :=
  let devel_suffix := if bool_decide (package_type = DEVEL K) then "-devel" else "" in
  deps ← get_requires linux package_type devel_suffix;
  Ok (fold_left (λ x y, x +:+ PyFormat.format1 REQUIRE_TPL y) deps "").

Definition _files_string_list (self : t) (package_type : string) : Res string :=
  if build_meta_package self then Ok ""
  else
    files ← PackagerBase_files_list self package_type;
    let files :=
      fold_left
        (λ files f,
           let files := if Py.mem (f +:+ "c") files then files else files ++ [f +:+ "c"] in
           if Py.mem (f +:+ "o") files then files else files ++ [f +:+ "o"])
        (filter (λ x, Py.endswith x ".py" = true) files) files in
    Ok (Py.join Py.newline (PosixPath.join "%{prefix}" <$> files)).

Definition _devel_package_and_files (self : t) : Res (string * string) :=
  let pname := PackageBase.getattribute_name (base_of (package self)) in
  let summary := PyFormat.format1 "Development files for %s" pname in
  requires ← (if build_meta_package self
              then _get_meta_requires self (DEVEL K)
              else _get_requires self (DEVEL K));
  more ← lookup2 (provides self) (REDHAT K) (DEVEL K);
  let provides := (package_prefix self +:+ pname +:+ "-devel") :: more in
  conflicts ← lookup2 (conflicts self) (REDHAT K) (DEVEL K);
  obsoletes ← lookup2 (replaces_obsoletes self) (REDHAT K) (DEVEL K);
  let pco := PyFormat.format1 "Provides: %s" (Py.join ", " provides) in
  let pco := match conflicts with
             | [] => pco
             | _ => pco +:+ PyFormat.format1 (Py.newline +:+ "Conflicts: %s") (Py.join ", " conflicts)
             end in
  let pco := match obsoletes with
             | [] => pco
             | _ => pco +:+ PyFormat.format1 (Py.newline +:+ "Obsoletes: %s") (Py.join ", " obsoletes)
             end in
  let args : PyFormat.Dict :=
    [("summary", summary); ("description", summary); ("requires", requires);
     ("name", pname); ("p_prefix", package_prefix self);
     ("provides_conflicts_obsoletes", pco)] in
  devel ← match _files_string_list self (DEVEL K) with
          | Ok files => Ok (PyFormat.format1 DEVEL_TPL files)
          | Err EmptyPackageError => Ok ""
          | Err e => Err e
          end;
  devel_package ← PyFormat.format DEVEL_PACKAGE_TPL args;
  Ok (devel_package, devel).

Definition prepare (fs : gmap string string) (self : t)
    (tarname tmpdir packagedir srcdir : string) : Res (t * gmap string string) :=
  let pkg := base_of (package self) in
  runtime_files ← match _files_string_list self (RUNTIME K) with
                  | Err EmptyPackageError => Ok ""
                  | r => r
                  end;
  let runtime_files :=
    if Py.mem (install_dir self) ["/usr"; "/usr/local"] then runtime_files
    else runtime_files +:+ Py.newline +:+ PosixPath.join (install_dir self) "" in
  let has_runtime_package := Py.truthy runtime_files || build_meta_package self in
  '(devel_package, devel_files) ←
    (if devel self then _devel_package_and_files self else Ok ("", ""));
  '(template, requires, has_devel_package) ←
    (if build_meta_package self then
       requires ← _get_meta_requires self (RUNTIME K);
       Ok (META_SPEC_TPL, requires, true)
     else
       requires ← _get_requires self (RUNTIME K);
       Ok (SPEC_TPL, requires, Py.truthy devel_files));
  licenses ←
    (if build_meta_package self then Ok [PackageBase.license pkg]
     else
       more ← recipes_licenses linux;
       Ok (sorted_set linux (PackageBase.license pkg :: more)));
  let template_dict : PyFormat.Dict :=
    [("name", PackageBase.getattribute_name pkg);
     ("p_prefix", package_prefix self);
     ("version", PackageBase.version pkg);
     ("package_name", full_package_name self);
     ("summary", PackageBase.getattribute_shortdesc K pkg);
     ("description",
      if negb (bool_decide (PackageBase.longdesc pkg = "default"))
         && Py.truthy (PackageBase.longdesc pkg)
      then PackageBase.longdesc pkg
      else PackageBase.getattribute_shortdesc K pkg);
     ("licenses", Py.join " and " (acronym <$> licenses));
     ("packager", packager self);
     ("vendor", PackageBase.vendor pkg);
     ("url",
      if negb (bool_decide (PackageBase.url pkg = "default"))
      then PyFormat.format1 URL_TPL (PackageBase.url pkg) else "");
     ("requires", requires);
     ("prefix", install_dir self);
     ("source", tarname);
     ("topdir", tmpdir);
     ("devel_package", devel_package);
     ("devel_files", devel_files);
     ("files", runtime_files);
     ("sources_dir", sources (config self))] in
  provides ← lookup2 (provides self) (REDHAT K) (RUNTIME K);
  conflicts ← lookup2 (conflicts self) (REDHAT K) (RUNTIME K);
  obsoletes ← lookup2 (replaces_obsoletes self) (REDHAT K) (RUNTIME K);
  let pco := "" in
  let pco := match provides with
             | [] => pco
             | _ => pco +:+ PyFormat.format1 "Provides: %s" (Py.join ", " provides)
             end in
  let pco := match conflicts with
             | [] => pco
             | _ => pco +:+ PyFormat.format1 (Py.newline +:+ "Conflicts: %s") (Py.join ", " conflicts)
             end in
  let pco := match obsoletes with
             | [] => pco
             | _ => pco +:+ PyFormat.format1 (Py.newline +:+ "Obsoletes: %s") (Py.join ", " obsoletes)
             end in
  let template_dict := PyFormat.dict_set "provides_conflicts_obsoletes" pco template_dict in
  (* one script: the header and the text of the resource file, when it exists *)
  let script (header : string) (resource : option string) (scripts : string) : Res string :=
    match PackageBase.getattribute_resources cwd pkg resource with
    | None => Err TypeError
    | Some path =>
        match fs !! path with
        | Some text => Ok (scripts +:+ header +:+ text +:+ Py.newline)
        | None => Ok scripts
        end
    end in
  scripts ← script PRE_TPL (PackageBase.resources_preinstall pkg) "";
  scripts ← script POST_TPL (PackageBase.resources_postinstall pkg) scripts;
  scripts ← script POSTUN_TPL (PackageBase.resources_postremove pkg) scripts;
  scripts ← PyFormat.format scripts template_dict;
  let template_dict := PyFormat.dict_set "scripts" scripts template_dict in
  spec_str ← PyFormat.format template template_dict;
  let path :=
    PosixPath.join tmpdir (PyFormat.format1 "%s.spec" (PackageBase.getattribute_name pkg)) in
  Ok (prepared self has_runtime_package has_devel_package spec_str path,
      <[path := spec_str]> fs).

Definition _rpmbuild_support_nodebuginfo (self : t) : bool :=
  if negb (bool_decide (distro (config self) = REDHAT K)) then false
  else if Py.contains "fedora" (distro_version (config self))
          && String.ltb (FEDORA_26 K) (distro_version (config self)) then true
  else if Py.contains "redhat" (distro_version (config self))
          && String.ltb (REDHAT_7 K) (distro_version (config self)) then true
  else false.

(** The target triple of [build], or its fatal error. *)
Definition build_target (self : t) : Res string :=
  if bool_decide (target_arch (config self) = X86 K) then Ok "i686-redhat-linux"
  else if bool_decide (target_arch (config self) = X86_64 K) then Ok "x86_64-redhat-linux"
  else Err (FatalError
              (PyFormat.format1 (Utils.gettext "Architecture %s not supported")
                 (target_arch (config self)))).

(** ['rpmbuild -bb %s --buildroot %s/buildroot --target %s %s' % (...)] *)
Definition rpmbuild_command (extra_options tmpdir target spec_path : string) : string :=
  "rpmbuild -bb " +:+ extra_options +:+ " --buildroot " +:+ tmpdir
  +:+ "/buildroot --target " +:+ target +:+ " " +:+ spec_path.

Definition build (self : t) (output_dir tarname tmpdir packagedir srcdir : string)
    : Prog (list string) :=
  target ← lift (build_target self);
  let extra_options := if _rpmbuild_support_nodebuginfo self then "--nodebuginfo" else "" in
  spec_path ← lift (attr (spec_path self));
  _ ← call (ShellCall (rpmbuild_command extra_options tmpdir target spec_path));
  ds ← call (ListDir packagedir);
  for_each ds
    (λ d paths,
       fs ← call (ListDir (PosixPath.join packagedir d));
       for_each fs
         (λ f paths,
            let out_path := PosixPath.join output_dir f in
            e ← call (PathExists out_path);
            _ ← (if e : bool then call (OsRemove out_path) else Ret ());
            _ ← call (Move (PosixPath.join (PosixPath.join packagedir d) f) output_dir);
            Ret (paths ++ [out_path]))
         paths)
    [].

End Methods.

End RPMPackager.

(** ** More Python built-ins on strings *)

Module PyStr.

Definition backslash : ascii := "092"%char.

(** [s[n]] *)
Definition index (s : string) (n : nat) : Res ascii :=
  match String.get n s with
  | Some c => Ok c
  | None => Err IndexError
  end.

(** [s[n:]] *)
Fixpoint drop (n : nat) (s : string) : string :=
  match n, s with
  | 0, _ => s
  | S n', String _ s' => drop n' s'
  | S _, EmptyString => EmptyString
  end.

(** [s.replace(old, new)] for a one-character [old]. *)
Fixpoint replace_char (old : ascii) (new s : string) : string :=
  match s with
  | EmptyString => EmptyString
  | String c s' =>
      if Ascii.eqb c old then new +:+ replace_char old new s'
      else String c (replace_char old new s')
  end.

(** [s.replace(old, new)] for a non-empty [old]: the occurrences are taken
    from left to right and do not overlap; [skip] counts the characters of
    an occurrence that are still to be passed. *)
Fixpoint replace_from (skip : nat) (old new s : string) : string :=
  match s with
  | EmptyString => EmptyString
  | String c s' =>
      match skip with
      | S skip' => replace_from skip' old new s'
      | 0 =>
          if String.prefix old s
          then new +:+ replace_from (String.length old - 1) old new s'
          else String c (replace_from 0 old new s')
      end
  end.

(** [s.replace(old, new)]; with an empty [old], [new] goes before every
    character and at the end. *)
Definition replace (old new s : string) : string :=
  match old with
  | EmptyString =>
      (fix between (s : string) : string :=
         match s with
         | EmptyString => new
         | String c s' => new +:+ String c (between s')
         end) s
  | _ => replace_from 0 old new s
  end.

(** [c.isupper()], [c.lower()] and [c.upper()] on an ASCII character. *)
Definition isupper (c : ascii) : bool :=
  (65 <=? nat_of_ascii c) && (nat_of_ascii c <=? 90).

Definition islower (c : ascii) : bool :=
  (97 <=? nat_of_ascii c) && (nat_of_ascii c <=? 122).

Definition lower (c : ascii) : ascii :=
  if isupper c then ascii_of_nat (nat_of_ascii c + 32) else c.

Definition upper (c : ascii) : ascii :=
  if islower c then ascii_of_nat (nat_of_ascii c - 32) else c.

End PyStr.

(** ** cerbero.utils: paths *)

Module UtilsPath.

Definition to_winpath (path : string) : Res string :=
  path ← (if Py.startswith path "/" then
            c ← PyStr.index path 1;
            Ok (String c ":" +:+ PyStr.drop 2 path)
          else Ok path);
  Ok (PyStr.replace_char "/" (String PyStr.backslash "") path).

Definition to_unixpath (path : string) : Res string :=
  c1 ← PyStr.index path 1;
  if Ascii.eqb c1 ":" then
    c0 ← PyStr.index path 0;
    Ok ("/" +:+ String c0 "" +:+ PyStr.drop 2 path)
  else Ok path.

Definition swap_case (drive_letter : ascii) : ascii :=
  if PyStr.isupper drive_letter then PyStr.lower drive_letter
  else PyStr.upper drive_letter.

Definition to_odd_cased_unixpath (path : string) : Res string :=
  c1 ← PyStr.index path 1;
  if Ascii.eqb c1 ":" then
    drive_letter ← PyStr.index path 0;
    to_unixpath (String (swap_case drive_letter) "" +:+ PyStr.drop 1 path)
  else
    c0 ← PyStr.index path 0;
    if Ascii.eqb c0 "/" then
      drive_letter ← PyStr.index path 1;
      Ok (String c0 "" +:+ String (swap_case drive_letter) "" +:+ PyStr.drop 2 path)
    else Ok path.

Definition to_winepath (path : string) : string :=
  "z:" +:+ String PyStr.backslash ""
  +:+ PyStr.replace_char "/" (String PyStr.backslash (String PyStr.backslash "")) path.

Definition fix_winpath (path : string) : string :=
  PyStr.replace_char PyStr.backslash "/" path.

(** [replace_prefix(prefix, string, replacement)]: the list of the ways of
    writing the prefix is built first, then the replacements are made in its
    order. *)
Definition replace_prefix (prefix text replacement : string) : Res string :=
  p2 ← to_unixpath prefix;
  p3 ← to_winpath prefix;
  let p4 := to_winepath prefix in
  p5 ← to_odd_cased_unixpath prefix;
  let p6 := PosixPath.normpath prefix in
  Ok (fold_left (λ text p, PyStr.replace p replacement text)
        [prefix; p2; p3; p4; p5; p6] text).

End UtilsPath.

(** ** cerbero.packages.package: the registry key of a meta-package *)

Module MetaPackageWix.

(** [self.set_mode(package_type)] on a meta-package. *)
Definition set_mode (self : MetaPackage.t) (package_type : string) : MetaPackage.t :=
  {| MetaPackage.base := PackageBase.set_mode (MetaPackage.base self) package_type;
     MetaPackage.packages := MetaPackage.packages self;
     MetaPackage.platform_packages := MetaPackage.platform_packages self |}.

(** [MetaPackage.get_wix_registry_key()]: the key, and the object as the
    method leaves it.  The method switches to the runtime mode to read the
    short description, and back. *)
Definition get_wix_registry_key (K : Enums) (self : MetaPackage.t) : string * MetaPackage.t :=
  let package_type := PackageBase.package_mode (MetaPackage.base self) in
  let self := set_mode self (RUNTIME K) in
  let name :=
    PyStr.replace_char " " "" (PackageBase.getattribute_shortdesc K (MetaPackage.base self)) in
  let self := set_mode self package_type in
  ("Software" +:+ String PyStr.backslash ""
     +:+ PackageBase.getattribute_name (MetaPackage.base self)
     +:+ String PyStr.backslash ""
     +:+ target_arch (PackageBase.config (MetaPackage.base self)),
   self).

End MetaPackageWix.

(** ** The placeholders of a format string *)

Module PyFormatKeys.

(** The keys of the fields of a template of literal text and [%(key)s]
    fields, in order. *)
Fixpoint fields (segs : list PyFormat.Segment) : list string :=
  match segs with
  | [] => []
  | PyFormat.Lit _ :: segs' => fields segs'
  | PyFormat.Field key :: segs' => key :: fields segs'
  end.

(** The keys [template % d] looks up in [d], for such a template. *)
Definition placeholders (template : string) : option (list string) :=
  fields <$> PyFormat.segments template.

End PyFormatKeys.

(** ** What the specification says, in its own words *)

(** §4.1: the entry of a dependency map for the exact distro-version if
    present, otherwise its entry for the distro if present, otherwise an
    empty list. *)
Definition sys_deps_entry (cfg : Config) (m : gmap string (list string)) : list string :=
  match m !! target_distro_version cfg with
  | Some deps => deps
  | None => default [] (m !! target_distro cfg)
  end.

(** §4.1: the dependency map that corresponds to a mode. *)
Definition sys_deps_of_mode (K : Enums) (p : PackageBase.t) (mode : string)
    : gmap string (list string) :=
  if bool_decide (mode = DEVEL K) then PackageBase.sys_deps_devel p
  else PackageBase.sys_deps p.

(** §4.1: the three mode-dependent values, as read. *)
Definition mode_dependent_reads (K : Enums) (p : PackageBase.t)
    : string * string * Res (option string) :=
  (PackageBase.getattribute_name p,
   PackageBase.getattribute_shortdesc K p,
   PackageBase.getattribute_uuid K p).

(** §4.5: a resolved destination stays within the target directory when the
    components of the directory are the first components of the
    destination. *)
Definition stays_within (cwd directory target : string) : bool :=
  bool_decide (PosixPath.components (PosixPath.abspath cwd directory)
               `prefix_of` PosixPath.components (PosixPath.abspath cwd target)).

(** §4.3, first occurrence wins: the elements of [l] at the positions where
    they occur for the first time, in the order of [l]. *)
Definition first_occurrences (l : list string) : list string :=
  concat (imap (λ i x, if decide (x ∈ take i l) then [] else [x]) l).

(** §4.2: an entry is [recipe[:category...]]; the first token is the recipe
    name and the remaining tokens are the category set. *)
Definition parse_entry (r : string) : string * list string :=
  (Package.recipe_of_entry r, tail (Py.split ":" r)).

(** §4.2: for an entry whose category set is empty, the full distribution
    file list of the recipe; otherwise only the files of the named
    categories. *)
Definition selected_files (cookbook : CookBook) (entry : string * list string) : list string :=
  match entry.2 with
  | [] => Recipe.dist_files_list (get_recipe cookbook entry.1)
  | categories => Recipe.files_list_by_categories (get_recipe cookbook entry.1) categories
  end.

(** §4.2, devel inclusion rule: the devel files of the recipe of a runtime
    entry, when the category set of the entry is empty or contains the
    libraries category; nothing otherwise. *)
Definition runtime_entry_devel_files (K : Enums) (cookbook : CookBook)
    (entry : string * list string) : list string :=
  if bool_decide (entry.2 = [] ∨ LIBS_CAT K ∈ entry.2)
  then Recipe.devel_files_list (get_recipe cookbook entry.1)
  else [].

(** §4.2: for a devel entry, the full devel file list of the recipe when
    the category set is empty; otherwise the files of the named
    categories. *)
Definition devel_entry_files (cookbook : CookBook) (entry : string * list string) : list string :=
  match entry.2 with
  | [] => Recipe.devel_files_list (get_recipe cookbook entry.1)
  | categories => Recipe.files_list_by_categories (get_recipe cookbook entry.1) categories
  end.

(** The effective entries of [load_files]: the common list, then the list
    of the target platform. *)
Definition effective_files (p : Package.t) : list string :=
  Package.files p
  ++ default [] (Package.platform_files p
                   !! target_platform (PackageBase.config (Package.base p))).

Definition effective_files_devel (p : Package.t) : list string :=
  Package.files_devel p
  ++ default [] (Package.platform_files_devel p
                   !! target_platform (PackageBase.config (Package.base p))).

Fixpoint has_char (c : ascii) (s : string) : bool :=
  match s with
  | EmptyString => false
  | String d s' => Ascii.eqb c d || has_char c s'
  end.

(** ** A small environment to run programs in *)

(** Archives on disk, by path, with the names of their members; the files
    written by extraction; the commands run. *)
Record World : Type := {
  archives : gmap string (list string);
  written : list string;
  commands : list string
}.

(** The answers of the environment.  [tar.extractall(path)] writes every
    member [m] at [os.path.join(path, m.name)]. *)
Definition answer (X : Type) (op : Op X) (w : World) : Res X * World :=
  match op in Op X return Res X * World with
  | Mkdtemp dir => (Ok (PosixPath.join dir "tmp0"), w)
  | TarOpen tarball mode =>
      if bool_decide (mode = "w") then (Ok (), w)
      else match archives w !! tarball with
           | Some _ => (Ok (), w)
           | None => (Err OSError, w)
           end
  | TarGetMembers tarball =>
      match archives w !! tarball with
      | Some members => (Ok members, w)
      | None => (Err OSError, w)
      end
  | TarExtractAll tarball path =>
      match archives w !! tarball with
      | Some members =>
          (Ok (), {| archives := archives w;
                     written := written w ++ (PosixPath.join path <$> members);
                     commands := commands w |})
      | None => (Err OSError, w)
      end
  | OsRemove path =>
      (Ok (), {| archives := delete path (archives w);
                 written := written w; commands := commands w |})
  | ShellCall cmd =>
      (Ok (), {| archives := archives w; written := written w;
                 commands := commands w ++ [cmd] |})
  | ListDir _ => (Ok [], w)
  | PathExists path => (Ok (bool_decide (path ∈ written w)), w)
  | Mkdir _ | TarAdd _ _ _ | Rmtree _ | PreBuild _ | Move _ _ => (Ok (), w)
  end.

(** ** Sample data for the concrete runs *)

Definition fedora_config : Config := {|
  target_platform := "linux";
  target_distro := "redhat";
  target_distro_version := "fedora_31";
  target_arch := "x86_64";
  distro := "redhat";
  distro_version := "fedora_31";
  install_dir := "/opt/gst";
  sources := "/home/user/cerbero/sources";
  home_dir := "/home/user/cerbero"
|}.

Definition gst_base_with (mode longdesc : string) : PackageBase.t := {|
  PackageBase.name := "gstreamer-core";
  PackageBase.shortdesc := "GStreamer core";
  PackageBase.longdesc := longdesc;
  PackageBase.version := "1.0";
  PackageBase.uuid := Some "d09b1f5c-2b3c-4b0e-8a0a-000000000001";
  PackageBase.license := {| acronym := "LGPLv2+"; pretty_name := "LGPL" |};
  PackageBase.vendor := "GStreamer Project";
  PackageBase.url := "http://gstreamer.freedesktop.org";
  PackageBase.sys_deps := {[ "redhat" := ["glib2"] ]};
  PackageBase.sys_deps_devel := {[ "redhat" := ["glib2-devel"] ]};
  PackageBase.resources_preinstall := Some "preinstall";
  PackageBase.resources_postinstall := Some "postinstall";
  PackageBase.resources_postremove := Some "postremove";
  PackageBase.file_ := "/home/user/cerbero/packages/gstreamer-core.package";
  PackageBase.config := fedora_config;
  PackageBase.package_mode := mode
|}.

Definition gst_base (mode : string) : PackageBase.t := gst_base_with mode "default".

Definition with_target_arch (cfg : Config) (arch : string) : Config :=
  {| target_platform := target_platform cfg; target_distro := target_distro cfg;
     target_distro_version := target_distro_version cfg; target_arch := arch;
     distro := distro cfg; distro_version := distro_version cfg;
     install_dir := install_dir cfg; sources := sources cfg;
     home_dir := home_dir cfg |}.

Definition gst_package : Package.t := {|
  Package.base := gst_base "";
  Package.deps := [];
  Package.files := ["gstreamer:libs:bins"; "glib"];
  Package.platform_files := ∅;
  Package.files_devel := ["gstreamer:devel"];
  Package.platform_files_devel := ∅;
  Package._files := None;
  Package._files_devel := None;
  Package._recipes_files := None;
  Package._recipes_files_devel := None
|}.

Definition redhat_relations : RPMPackager.Relations :=
  RPMPackager.ByDistro {[ "redhat" := {[ "" := []; "-devel" := [] ]} ]}.

Definition gst_packager (cfg : Config) (d : Descriptor) : RPMPackager.t := {|
  RPMPackager.config := cfg;
  RPMPackager.package := d;
  RPMPackager.build_meta_package := false;
  RPMPackager.provides := redhat_relations;
  RPMPackager.conflicts := redhat_relations;
  RPMPackager.replaces_obsoletes := redhat_relations;
  RPMPackager.has_runtime_package := None;
  RPMPackager.has_devel_package := None;
  RPMPackager.devel := true;
  RPMPackager.install_dir := "/opt/gst";
  RPMPackager.package_prefix := "cerbero-";
  RPMPackager.full_package_name := "gstreamer-core-1.0";
  RPMPackager.packager := "cerbero";
  RPMPackager._spec_str := None;
  RPMPackager.spec_path := Some "/tmp/build/gstreamer-core.spec"
|}.

(** The staging tree of the run below. *)
Definition staged_world : World := {|
  archives := {[ "/tmp/out/gstreamer-core-1.0.tar.bz2" :=
                   ["gstreamer-core-1.0/bin/gst-launch-1.0"; "../SOURCES.old/passwd"] ]};
  written := [];
  commands := []
|}.

(** A package after [load_files()]. *)
Definition loaded (p : Package.t) : Package.t :=
  match Package.load_files p with
  | Ok p' => p'
  | Err _ => p
  end.

Definition plugins_package : Package.t := {|
  Package.base := gst_base "";
  Package.deps := ["gstreamer-core"];
  Package.files := ["gst-plugins-base"; "glib:libs"];
  Package.platform_files := {[ "linux" := ["gst-plugins-good:plugins_sys"] ]};
  Package.files_devel := [];
  Package.platform_files_devel := ∅;
  Package._files := None;
  Package._files_devel := None;
  Package._recipes_files := None;
  Package._recipes_files_devel := None
|}.

Definition sdk_metapackage : MetaPackage.t := {|
  MetaPackage.base := gst_base "";
  MetaPackage.packages := ["gstreamer-core"; "gst-plugins"];
  MetaPackage.platform_packages := ∅
|}.

Definition gst_store : Store Descriptor := {|
  get_package := λ name,
    if bool_decide (name = "gstreamer-core") then Some (IsPackage (loaded gst_package))
    else if bool_decide (name = "gst-plugins") then Some (IsPackage (loaded plugins_package))
    else None;
  get_package_deps := λ name recursive,
    if bool_decide (name = "gstreamer-core")
    then [IsPackage (loaded gst_package); IsPackage (loaded plugins_package)]
    else [];
  get_package_deps_of := λ d, []
|}.

Definition player_app (embed : bool) : App.t := {|
  App.base := gst_base "";
  App.app_recipe := Some "player";
  App.embed_deps := embed;
  App.deps := ["gstreamer-core"];
  App.platform_deps := None
|}.

Definition with_embed_deps (a : App.t) (embed : bool) : App.t := {|
  App.base := App.base a;
  App.app_recipe := App.app_recipe a;
  App.embed_deps := embed;
  App.deps := App.deps a;
  App.platform_deps := App.platform_deps a
|}.

Definition gst_cookbook : CookBook := {|
  get_recipe := λ name, {|
    Recipe.dist_files_list := ["lib/lib" +:+ name +:+ ".so"; "bin/" +:+ name];
    Recipe.devel_files_list := ["include/" +:+ name +:+ ".h"];
    Recipe.files_list_by_categories := λ categories, (λ c, c +:+ "/" +:+ name) <$> categories;
    Recipe.files_list := ["lib/lib" +:+ name +:+ ".so"; "bin/" +:+ name];
    Recipe.libraries := ["lib/lib" +:+ name +:+ ".so"]
  |};
  list_recipe_deps := λ name, []
|}.

Definition gst_linux : RPMPackager.LinuxPackager := {|
  RPMPackager.get_requires := λ package_type devel_suffix, Ok ["glib2" +:+ devel_suffix];
  RPMPackager.get_meta_requires := λ package_type devel_suffix, Ok ([], [], []);
  RPMPackager.recipes_licenses := Ok [];
  RPMPackager.sorted_set := λ l, l
|}.

(** The package of the examples of the specification. *)
Definition recipes_package : Package.t := {|
  Package.base := gst_base "";
  Package.deps := [];
  Package.files := ["recipeA"; "recipeB:tools"];
  Package.platform_files := ∅;
  Package.files_devel := [];
  Package.platform_files_devel := ∅;
  Package._files := None;
  Package._files_devel := None;
  Package._recipes_files := None;
  Package._recipes_files_devel := None
|}.

(** The packager of an application that embeds nothing, and [prepare] on
    it in an empty staging tree. *)
Definition player_packager : RPMPackager.t :=
  gst_packager fedora_config (IsApp (player_app false)).

Definition prepare_player : Res (RPMPackager.t * gmap string string) :=
  RPMPackager.prepare cerbero_enums gst_cookbook gst_store 3 gst_linux "/" ∅
    player_packager "player-1.0.tar" "/tmp/build" "/tmp/build/RPMS" "/tmp/build/SOURCES".

Definition prepared_player : RPMPackager.t * gmap string string :=
  match prepare_player with
  | Ok r => r
  | Err _ => (player_packager, ∅)
  end.

(** The packager of a meta-package, built as a meta-package. *)
Definition sdk_packager : RPMPackager.t := {|
  RPMPackager.config := fedora_config;
  RPMPackager.package := IsMetaPackage sdk_metapackage;
  RPMPackager.build_meta_package := true;
  RPMPackager.provides := redhat_relations;
  RPMPackager.conflicts := redhat_relations;
  RPMPackager.replaces_obsoletes := redhat_relations;
  RPMPackager.has_runtime_package := None;
  RPMPackager.has_devel_package := None;
  RPMPackager.devel := true;
  RPMPackager.install_dir := "/usr";
  RPMPackager.package_prefix := "cerbero-";
  RPMPackager.full_package_name := "gstreamer-sdk-1.0";
  RPMPackager.packager := "cerbero";
  RPMPackager._spec_str := None;
  RPMPackager.spec_path := None
|}.

Definition prepare_sdk : Res (RPMPackager.t * gmap string string) :=
  RPMPackager.prepare cerbero_enums gst_cookbook gst_store 3 gst_linux "/" ∅
    sdk_packager "sdk-1.0.tar" "/tmp/build" "/tmp/build/RPMS" "/tmp/build/SOURCES".

Definition prepared_sdk : RPMPackager.t * gmap string string :=
  match prepare_sdk with
  | Ok r => r
  | Err _ => (sdk_packager, ∅)
  end.

(** A meta-package of applications: the store gives the player as the one
    package of the suite. *)
Definition suite_metapackage : MetaPackage.t := {|
  MetaPackage.base := gst_base_with "" "A suite of applications";
  MetaPackage.packages := ["player"];
  MetaPackage.platform_packages := ∅
|}.

Definition suite_store : Store Descriptor := {|
  get_package := λ name,
    if bool_decide (name = "player") then Some (IsApp (player_app false)) else None;
  get_package_deps := λ name recursive,
    if bool_decide (name = "gstreamer-core") then [IsApp (player_app false)] else [];
  get_package_deps_of := λ d, []
|}.

(** ** More sample data: packages that depend on each other *)

Definition with_deps (p : Package.t) (deps : list string) : Package.t := {|
  Package.base := Package.base p;
  Package.deps := deps;
  Package.files := Package.files p;
  Package.platform_files := Package.platform_files p;
  Package.files_devel := Package.files_devel p;
  Package.platform_files_devel := Package.platform_files_devel p;
  Package._files := Package._files p;
  Package._files_devel := Package._files_devel p;
  Package._recipes_files := Package._recipes_files p;
  Package._recipes_files_devel := Package._recipes_files_devel p
|}.

(** The core package asks for the plugins package, which asks for the core
    package. *)
Definition looping_core : Package.t := with_deps (loaded gst_package) ["gst-plugins"].
Definition looping_plugins : Package.t := loaded plugins_package.

Definition looping_store : Store Descriptor := {|
  get_package := λ name,
    if bool_decide (name = "gstreamer-core") then Some (IsPackage looping_core)
    else if bool_decide (name = "gst-plugins") then Some (IsPackage looping_plugins)
    else None;
  get_package_deps := λ name recursive, [];
  get_package_deps_of := λ d,
    if bool_decide (d = IsPackage looping_core) then [IsPackage looping_plugins]
    else if bool_decide (d = IsPackage looping_plugins) then [IsPackage looping_core]
    else []
|}.

(** ** More sample data: a staging tree and the output of rpmbuild *)

(** An archive with a member that leaves the source directory. *)
Definition escaping_world : World := {|
  archives := {[ "/tmp/out/gstreamer-core-1.0.tar.bz2" :=
                   ["gstreamer-core-1.0/bin/gst-launch-1.0"; "../../etc/passwd"] ]};
  written := [];
  commands := []
|}.

(** The environment above, after rpmbuild has left two packages in the
    directory of the architecture. *)
Definition answer_after_rpmbuild (X : Type) (op : Op X) (w : World) : Res X * World :=
  match op in Op X return Res X * World with
  | ListDir path =>
      if bool_decide (path = "/tmp/build/RPMS") then (Ok ["x86_64"], w)
      else if bool_decide (path = "/tmp/build/RPMS/x86_64")
      then (Ok ["gstreamer-core-1.0-1.x86_64.rpm"; "gstreamer-core-devel-1.0-1.x86_64.rpm"], w)
      else (Ok [], w)
  | op => answer _ op w
  end.

(** An application with Python modules among the files of its recipe. *)
Definition python_cookbook : CookBook := {|
  get_recipe := λ name, {|
    Recipe.dist_files_list := [];
    Recipe.devel_files_list := [];
    Recipe.files_list_by_categories := λ categories, [];
    Recipe.files_list :=
      ["lib/python/" +:+ name +:+ ".py"; "lib/python/" +:+ name +:+ ".pyc"; "bin/" +:+ name];
    Recipe.libraries := []
  |};
  list_recipe_deps := λ name, []
|}.

Definition python_app : App.t := {|
  App.base := gst_base "";
  App.app_recipe := Some "gi";
  App.embed_deps := false;
  App.deps := [];
  App.platform_deps := None
|}.

(** ** Facts on results and strings *)

Lemma bind_Ok_inv {A B} (r : Res A) (f : A → Res B) (b : B) :
  r ≫= f = Ok b → ∃ a, r = Ok a ∧ f a = Ok b.
Proof. destruct r as [a|e]; simpl; [eauto | discriminate]. Qed.

Tactic Notation "inv_bind" hyp(H) "as" ident(a) ident(Ha) :=
  apply bind_Ok_inv in H; destruct H as (a & Ha & H).

Example split_entry : Py.split ":" "recipeB:tools:libs" = ["recipeB"; "tools"; "libs"].
Proof. reflexivity. Qed.

Example split_no_sep : Py.split ":" "recipeA" = ["recipeA"].
Proof. reflexivity. Qed.

Example normpath_dotdot :
  PosixPath.normpath "/tmp/build/SOURCES/../../etc/passwd" = "/tmp/etc/passwd".
Proof. reflexivity. Qed.

Example sorted_strings :
  Py.sorted ["lib/b.so"; "bin/a"; "lib/a.so"] = ["bin/a"; "lib/a.so"; "lib/b.so"].
Proof. vm_compute. reflexivity. Qed.

Example dirname_of_package_file :
  PackageBase.package_dir (gst_base "") = "/home/user/cerbero/packages".
Proof. reflexivity. Qed.

(** ** Mode-dependent identity (§4.1) *)

Lemma set_mode_stored (p : PackageBase.t) (mode : string) :
  PackageBase.stored (PackageBase.set_mode p mode) = PackageBase.stored p.
Proof. reflexivity. Qed.

Lemma set_mode_same (p : PackageBase.t) :
  PackageBase.set_mode p (PackageBase.package_mode p) = p.
Proof. by destruct p. Qed.

Lemma set_mode_twice (p : PackageBase.t) (m1 m2 : string) :
  PackageBase.set_mode (PackageBase.set_mode p m1) m2 = PackageBase.set_mode p m2.
Proof. reflexivity. Qed.

(** C2: switching the mode of a descriptor to DEVEL and back to RUNTIME,
    that is, from the RUNTIME mode [__init__] leaves it in, by
    [set_mode(DEVEL)] and then [set_mode(RUNTIME)], makes the reads of
    [name], [shortdesc] and [uuid] equal to the reads before the two calls,
    whatever the stored values; and neither call changes a stored field. *)
Theorem mode_round_trip_from_runtime (K : Enums) (p : PackageBase.t) :
  PackageBase.package_mode p = RUNTIME K →
  let p1 := PackageBase.set_mode p (DEVEL K) in
  let p2 := PackageBase.set_mode p1 (RUNTIME K) in
  mode_dependent_reads K p2 = mode_dependent_reads K p
  ∧ PackageBase.stored p1 = PackageBase.stored p
  ∧ PackageBase.stored p2 = PackageBase.stored p.
Proof.
  intros Hmode p1 p2. subst p1 p2.
  split; [| split; [apply set_mode_stored |]].
  - by rewrite set_mode_twice, <- Hmode, set_mode_same.
  - by rewrite !set_mode_stored.
Qed.

Lemma mode_round_trip_from_runtime_witness :
  let K := cerbero_enums in
  let p := gst_base "" in
  mode_dependent_reads K
    (PackageBase.set_mode (PackageBase.set_mode p (DEVEL K)) (RUNTIME K))
  = mode_dependent_reads K p.
Proof.
  intros K p.
  exact (proj1 (mode_round_trip_from_runtime K p eq_refl)).
Defined.

(** ** System dependencies (§4.1) *)

Lemma get_sys_deps_effective_mode (K : Enums) (p : PackageBase.t) (mode : string) :
  RUNTIME K ≠ DEVEL K →
  mode = RUNTIME K ∨ mode = DEVEL K →
  PackageBase.get_sys_deps K (PackageBase.set_mode p mode) None
  = Ok (sys_deps_entry (PackageBase.config p) (sys_deps_of_mode K p mode)).
Proof.
  intros Hne Hmode.
  unfold PackageBase.get_sys_deps, sys_deps_entry, sys_deps_of_mode. simpl.
  destruct Hmode as [-> | ->].
  - rewrite (bool_decide_true (RUNTIME K = RUNTIME K)) by done.
    rewrite (bool_decide_false (RUNTIME K = DEVEL K)) by done.
    destruct (_ !! target_distro_version _); [done |].
    by destruct (_ !! target_distro _).
  - rewrite (bool_decide_true (DEVEL K = DEVEL K)) by done.
    destruct (_ !! target_distro_version _); [done |].
    by destruct (_ !! target_distro _).
Qed.

(** C8 (code defect): in the cerbero distribution the RUNTIME marker is the
    empty string, and the first statement of [get_sys_deps],
    [package_mode = package_mode or self.package_mode], then takes the
    argument RUNTIME for no argument.  On a descriptor that is in DEVEL
    mode, [get_sys_deps(RUNTIME)] returns the entry of the devel map, not
    the entry of the runtime map the claim promises; the sibling call
    [get_sys_deps(DEVEL)] on a descriptor in RUNTIME mode does select by its
    argument. *)
Theorem get_sys_deps_runtime_on_devel_descriptor :
  let K := cerbero_enums in
  let p := gst_base (DEVEL K) in
  PackageBase.get_sys_deps K p (Some (RUNTIME K)) = Ok ["glib2-devel"]
  ∧ sys_deps_entry (PackageBase.config p) (sys_deps_of_mode K p (RUNTIME K)) = ["glib2"]
  ∧ PackageBase.get_sys_deps K p (Some (RUNTIME K))
    ≠ Ok (sys_deps_entry (PackageBase.config p) (sys_deps_of_mode K p (RUNTIME K)))
  ∧ PackageBase.get_sys_deps K (gst_base (RUNTIME K)) (Some (DEVEL K)) = Ok ["glib2-devel"].
Proof. vm_compute. repeat split. discriminate. Qed.

(** Where the argument passes the first statement: for two distinct
    markers, a mode argument that is a non-empty string or is the mode the
    descriptor is in selects the map of that mode, and the call returns its
    entry for the exact target distro-version if present, otherwise its
    entry for the target distro if present, otherwise an empty list. *)
Lemma get_sys_deps_selects_mode (K : Enums) (p : PackageBase.t) (mode : string) :
  RUNTIME K ≠ DEVEL K →
  mode = RUNTIME K ∨ mode = DEVEL K →
  Py.truthy mode = true ∨ PackageBase.package_mode p = mode →
  PackageBase.get_sys_deps K p (Some mode)
  = Ok (sys_deps_entry (PackageBase.config p) (sys_deps_of_mode K p mode)).
Proof.
  intros Hne Hmode Huse.
  assert (PackageBase.get_sys_deps K p (Some mode)
          = PackageBase.get_sys_deps K (PackageBase.set_mode p mode) None) as ->.
  { unfold PackageBase.get_sys_deps. simpl.
    destruct Huse as [Ht | <-]; [by rewrite Ht |].
    by destruct (Py.truthy _). }
  by apply get_sys_deps_effective_mode.
Qed.

Example get_sys_deps_devel_on_runtime_descriptor :
  let K := cerbero_enums in
  PackageBase.get_sys_deps K (gst_base (RUNTIME K)) (Some (DEVEL K)) = Ok ["glib2-devel"].
Proof.
  intros K.
  exact (get_sys_deps_selects_mode K (gst_base (RUNTIME K)) (DEVEL K)
           ltac:(discriminate) (or_intror eq_refl) (or_introl eq_refl)).
Qed.
(** ** The build stage of the RPM backend (§4.5, stage 4) *)

Lemma build_unsupported_architecture (K : Enums) (self : RPMPackager.t)
    (output_dir tarname tmpdir packagedir srcdir : string) :
  let arch := target_arch (RPMPackager.config self) in
  arch ≠ X86 K → arch ≠ X86_64 K →
  RPMPackager.build K self output_dir tarname tmpdir packagedir srcdir
  = Throw (FatalError ("Architecture " +:+ arch +:+ " not supported")).
Proof.
  intros arch H32 H64. unfold RPMPackager.build, RPMPackager.build_target.
  fold arch. by rewrite !bool_decide_false by done.
Qed.

Lemma build_supported_architecture (K : Enums) (self : RPMPackager.t)
    (output_dir tarname tmpdir packagedir srcdir target spec : string) :
  RPMPackager.build_target K self = Ok target →
  RPMPackager.spec_path self = Some spec →
  ∃ extra_options k,
    RPMPackager.build K self output_dir tarname tmpdir packagedir srcdir
    = Do (ShellCall ("rpmbuild -bb " +:+ extra_options +:+ " --buildroot " +:+ tmpdir
                     +:+ "/buildroot --target " +:+ target +:+ " " +:+ spec)) k.
Proof.
  intros Ht Hs. unfold RPMPackager.build. rewrite Ht, Hs. simpl.
  by eexists _, _.
Qed.

(** C9: for every target architecture other than X86 and X86_64, [build]
    raises the fatal error whose message names the architecture, as its
    first step: it performs no operation, so the native tool is not run.
    For X86 the target is [i686-redhat-linux] and for X86_64 (a constant
    distinct from X86) it is [x86_64-redhat-linux]: on a prepared packager
    the first operation of [build] is the call of rpmbuild with that
    target. *)
Theorem build_target_by_architecture (K : Enums) (self : RPMPackager.t)
    (output_dir tarname tmpdir packagedir srcdir : string) :
  let arch := target_arch (RPMPackager.config self) in
  let run_build := RPMPackager.build K self output_dir tarname tmpdir packagedir srcdir in
  let rpmbuild_first (target : string) :=
    ∀ spec, RPMPackager.spec_path self = Some spec →
      ∃ extra_options k,
        run_build
        = Do (ShellCall ("rpmbuild -bb " +:+ extra_options +:+ " --buildroot " +:+ tmpdir
                         +:+ "/buildroot --target " +:+ target +:+ " " +:+ spec)) k in
  (arch ≠ X86 K → arch ≠ X86_64 K →
     run_build = Throw (FatalError ("Architecture " +:+ arch +:+ " not supported"))
     ∧ ∀ (W : Type) (env : ∀ X, Op X → W → Res X * W) (w : W), trace env run_build w = [])
  ∧ (arch = X86 K →
       RPMPackager.build_target K self = Ok "i686-redhat-linux"
       ∧ rpmbuild_first "i686-redhat-linux")
  ∧ (arch = X86_64 K → X86 K ≠ X86_64 K →
       RPMPackager.build_target K self = Ok "x86_64-redhat-linux"
       ∧ rpmbuild_first "x86_64-redhat-linux").
Proof.
  intros arch run_build rpmbuild_first. subst run_build rpmbuild_first.
  split; [| split].
  - intros H32 H64.
    rewrite (build_unsupported_architecture K self) by done.
    by split.
  - intros H32.
    assert (RPMPackager.build_target K self = Ok "i686-redhat-linux") as Ht.
    { unfold RPMPackager.build_target. fold arch. by rewrite bool_decide_true. }
    split; [done |]. intros spec Hs.
    by apply build_supported_architecture.
  - intros H64 Hne.
    assert (RPMPackager.build_target K self = Ok "x86_64-redhat-linux") as Ht.
    { unfold RPMPackager.build_target. fold arch.
      rewrite bool_decide_false by congruence. by rewrite bool_decide_true. }
    split; [done |]. intros spec Hs.
    by apply build_supported_architecture.
Qed.

Lemma build_target_by_architecture_witness :
  let K := cerbero_enums in
  let arm := gst_packager (with_target_arch fedora_config "armv7") (IsPackage gst_package) in
  let x86 := gst_packager (with_target_arch fedora_config "x86") (IsPackage gst_package) in
  let x64 := gst_packager fedora_config (IsPackage gst_package) in
  RPMPackager.build K arm "/out" "t.tar" "/tmp/build" "/tmp/build/RPMS" "/tmp/build/SOURCES"
  = Throw (FatalError "Architecture armv7 not supported")
  ∧ RPMPackager.build_target K x86 = Ok "i686-redhat-linux"
  ∧ RPMPackager.build_target K x64 = Ok "x86_64-redhat-linux".
Proof.
  intros K arm x86 x64. split; [| split].
  - apply (build_target_by_architecture K arm "/out" "t.tar" "/tmp/build"
             "/tmp/build/RPMS" "/tmp/build/SOURCES"); discriminate.
  - apply (build_target_by_architecture K x86 "/out" "t.tar" "/tmp/build"
             "/tmp/build/RPMS" "/tmp/build/SOURCES"). reflexivity.
  - apply (build_target_by_architecture K x64 "/out" "t.tar" "/tmp/build"
             "/tmp/build/RPMS" "/tmp/build/SOURCES"); [reflexivity | discriminate].
Defined.

Example build_runs_rpmbuild_for_x86_64 :
  commands (snd (run answer
    (RPMPackager.build cerbero_enums (gst_packager fedora_config (IsPackage gst_package))
       "/out" "t.tar" "/tmp/build" "/tmp/build/RPMS" "/tmp/build/SOURCES")
    {| archives := ∅; written := []; commands := [] |}))
  = ["rpmbuild -bb --nodebuginfo --buildroot /tmp/build/buildroot --target x86_64-redhat-linux /tmp/build/gstreamer-core.spec"].
Proof. vm_compute. reflexivity. Qed.

(** ** Applications (§3, §4.2) *)

(** C10: for every App package, whatever its mode and its [embed_deps],
    [devel_files_list()] returns the empty list and [all_files_list()]
    returns exactly what [files_list()] returns (its list or its error). *)
Theorem app_devel_and_all_files (K : Enums) (cookbook : CookBook)
    (store : Store Descriptor) (depth : nat) (a : App.t) :
  devel_files_list K cookbook store (IsApp a) = Ok []
  ∧ all_files_list K cookbook store depth (IsApp a)
    = files_list cookbook store depth (IsApp a).
Proof.
  split; [reflexivity |].
  destruct depth as [| depth']; reflexivity.
Qed.

(** ** The source stage of the RPM backend (§4.5, stage 2) *)

(** Validation comes before extraction: when a member is refused,
    [safe_extract] asks for the members and performs nothing else. *)
Lemma safe_extract_refusal_writes_nothing (cwd tar path : string) :
  ∃ k, RPMPackager.safe_extract cwd tar path = Do (TarGetMembers tar) k
       ∧ ∀ members e,
           RPMPackager.check_members cwd path members = Err e → k members = Throw e.
Proof.
  eexists. split; [reflexivity |].
  intros members e He. simpl. by rewrite He.
Qed.

Lemma check_members_Ok (cwd path : string) (members : list string) :
  RPMPackager.check_members cwd path members = Ok ()
  ↔ Forall
      (λ m, RPMPackager.is_within_directory cwd path (PosixPath.join path m) = true)
      members.
Proof.
  induction members as [| m members IH]; simpl.
  - split; [constructor | done].
  - destruct (RPMPackager.is_within_directory _ _ _) eqn:Hin; simpl.
    + rewrite IH. split; [by constructor | by inversion 1].
    + split; [done | inversion 1; congruence].
Qed.

(** C1 fails on the code: [is_within_directory] compares the two absolute
    paths with [os.path.commonprefix], character by character, and so takes
    a sibling of the source directory whose name starts with the name of the
    source directory for a path inside it.  The member
    [../SOURCES.old/passwd] resolves to [/tmp/build/SOURCES.old/passwd],
    outside [/tmp/build/SOURCES]; [setup_source] raises nothing and extracts
    every member, that one too. *)
Theorem setup_source_extracts_sibling_escape :
  let K := cerbero_enums in
  let self := gst_packager fedora_config (IsPackage gst_package) in
  let srcdir := "/tmp/build/SOURCES" in
  let member := "../SOURCES.old/passwd" in
  PosixPath.abspath "/" (PosixPath.join srcdir member) = "/tmp/build/SOURCES.old/passwd"
  ∧ stays_within "/" srcdir (PosixPath.join srcdir member) = false
  ∧ RPMPackager.is_within_directory "/" srcdir (PosixPath.join srcdir member) = true
  ∧ ∃ w, run answer
           (RPMPackager.setup_source "/" self "/tmp/out/gstreamer-core-1.0.tar.bz2"
              "/tmp/build" "/tmp/build/RPMS" srcdir)
           staged_world
         = (Ok "gstreamer-core-1.0.tar", w)
         ∧ written w = ["/tmp/build/SOURCES/gstreamer-core-1.0/bin/gst-launch-1.0";
                        "/tmp/build/SOURCES/../SOURCES.old/passwd"].
Proof.
  intros K self srcdir member.
  split; [by vm_compute |]. split; [by vm_compute |]. split; [by vm_compute |].
  eexists. split; vm_compute; reflexivity.
Qed.

(** The example of the specification is refused in this staging tree. *)
Example setup_source_refuses_etc_passwd :
  RPMPackager.check_members "/" "/tmp/build/SOURCES"
    ["gstreamer-core-1.0/bin/gst-launch-1.0"; "../../etc/passwd"]
  = Err (PyException "Attempted Path Traversal in Tar File").
Proof. vm_compute. reflexivity. Qed.

(** ** Removing duplicates (§4.3) *)

Lemma remove_list_duplicates_from_elem (seen : gset string) (seq : list string) (x : string) :
  x ∈ Utils.remove_list_duplicates_from seen seq ↔ x ∈ seq ∧ x ∉ seen.
Proof.
  revert seen. induction seq as [| y seq IH]; intros seen; simpl.
  - rewrite elem_of_nil. tauto.
  - destruct (decide (y ∈ seen)) as [Hin | Hnin].
    + rewrite IH, elem_of_cons. split; [tauto |].
      intros [[-> | Hx] Hs]; [done | tauto].
    + rewrite !elem_of_cons, IH, not_elem_of_union, elem_of_singleton.
      destruct (decide (x = y)) as [-> | Hne]; tauto.
Qed.

Lemma remove_list_duplicates_from_NoDup (seen : gset string) (seq : list string) :
  NoDup (Utils.remove_list_duplicates_from seen seq).
Proof.
  revert seen. induction seq as [| y seq IH]; intros seen; simpl.
  - constructor.
  - destruct (decide (y ∈ seen)) as [Hin | Hnin]; [apply IH |].
    constructor; [| apply IH].
    rewrite remove_list_duplicates_from_elem, not_elem_of_union, elem_of_singleton.
    tauto.
Qed.

Lemma remove_list_duplicates_from_first (pre seq : list string) :
  Utils.remove_list_duplicates_from (list_to_set pre) seq
  = concat (imap (λ i x, if decide (x ∈ pre ++ take i seq) then [] else [x]) seq).
Proof.
  revert pre. induction seq as [| y seq IH]; intros pre; [reflexivity |].
  simpl. rewrite app_nil_r.
  destruct (decide (y ∈ list_to_set pre)) as [Hin | Hnin];
    destruct (decide (y ∈ pre)) as [Hin' | Hnin'];
    try (exfalso; rewrite elem_of_list_to_set in *; tauto).
  - rewrite IH. simpl. f_equal. apply imap_ext. intros i x _. simpl.
    apply decide_ext. rewrite !elem_of_app, elem_of_cons.
    split; [tauto |]. intros [Hx | [-> | Hx]]; tauto.
  - simpl. f_equal.
    replace ({[y]} ∪ list_to_set pre : gset string)
      with (list_to_set (pre ++ [y]) : gset string).
    + rewrite IH. f_equal. apply imap_ext. intros i x _. simpl.
      by rewrite <- app_assoc.
    + rewrite list_to_set_app_L. simpl.
      rewrite (right_id_L ∅ (∪)). apply (comm_L (∪)).
Qed.

Lemma remove_list_duplicates_first_occurrences (seq : list string) :
  Utils.remove_list_duplicates seq = first_occurrences seq.
Proof. apply (remove_list_duplicates_from_first []). Qed.

Lemma remove_list_duplicates_NoDup (seq : list string) :
  NoDup (Utils.remove_list_duplicates seq).
Proof. apply remove_list_duplicates_from_NoDup. Qed.

Lemma remove_list_duplicates_elem (seq : list string) (x : string) :
  x ∈ Utils.remove_list_duplicates seq ↔ x ∈ seq.
Proof.
  unfold Utils.remove_list_duplicates.
  rewrite remove_list_duplicates_from_elem, elem_of_empty. tauto.
Qed.

Example remove_list_duplicates_keeps_first :
  Utils.remove_list_duplicates ["glib"; "gstreamer"; "glib"; "orc"; "gstreamer"]
  = ["glib"; "gstreamer"; "orc"].
Proof. vm_compute. reflexivity. Qed.

(** ** Recipe dependencies (§4.3) *)

Lemma elem_of_concat {A} (x : A) (ls : list (list A)) :
  x ∈ concat ls ↔ ∃ l, l ∈ ls ∧ x ∈ l.
Proof.
  induction ls as [| l ls IH]; simpl.
  - rewrite elem_of_nil. split; [done |]. intros (l & Hl & _). by apply elem_of_nil in Hl.
  - rewrite elem_of_app, IH. split.
    + intros [Hx | (l' & Hl' & Hx)]; [exists l | exists l'];
        rewrite elem_of_cons; auto.
    + intros (l' & Hl' & Hx). apply elem_of_cons in Hl' as [-> | Hl']; eauto.
Qed.

(** C6: for every MetaPackage whose resolved children return their recipe
    dependencies, [recipes_dependencies()] returns the concatenation of the
    children's lists with duplicates removed, keeping the first occurrence
    of each element: every recipe name of a child appears exactly once, in
    first-seen order. *)
Theorem metapackage_recipes_dependencies (store : Store Descriptor) (depth : nat)
    (m : MetaPackage.t) (children_deps : list (list string)) :
  mapM_res (recipes_dependencies store depth)
    (get_package_deps store (PackageBase.getattribute_name (MetaPackage.base m)) true)
  = Ok children_deps →
  ∃ deps,
    recipes_dependencies store (S depth) (IsMetaPackage m) = Ok deps
    ∧ deps = first_occurrences (concat children_deps)
    ∧ NoDup deps
    ∧ ∀ x, x ∈ deps ↔ ∃ child_deps, child_deps ∈ children_deps ∧ x ∈ child_deps.
Proof.
  intros Hchildren.
  exists (Utils.remove_list_duplicates (concat children_deps)).
  split; [| split; [| split]].
  - simpl. unfold MetaPackage.recipes_dependencies. by rewrite Hchildren.
  - apply remove_list_duplicates_first_occurrences.
  - apply remove_list_duplicates_NoDup.
  - intros x. by rewrite remove_list_duplicates_elem, elem_of_concat.
Qed.

Lemma metapackage_recipes_dependencies_witness :
  ∃ deps,
    recipes_dependencies gst_store 3 (IsMetaPackage sdk_metapackage) = Ok deps
    ∧ deps = first_occurrences
               (concat [["gstreamer"; "glib"; "gstreamer"];
                        ["gst-plugins-base"; "glib"; "gst-plugins-good";
                         "gstreamer"; "glib"; "gstreamer"]])
    ∧ NoDup deps
    ∧ ∀ x, x ∈ deps ↔
        ∃ child_deps,
          child_deps ∈ [["gstreamer"; "glib"; "gstreamer"];
                        ["gst-plugins-base"; "glib"; "gst-plugins-good";
                         "gstreamer"; "glib"; "gstreamer"]]
          ∧ x ∈ child_deps.
Proof.
  apply (metapackage_recipes_dependencies gst_store 2 sdk_metapackage).
  vm_compute. reflexivity.
Defined.

Example sdk_recipes_dependencies :
  recipes_dependencies gst_store 3 (IsMetaPackage sdk_metapackage)
  = Ok ["gstreamer"; "glib"; "gst-plugins-base"; "gst-plugins-good"].
Proof. vm_compute. reflexivity. Qed.

(** C3, as stated, fails when [embed_deps] is false: [recipes_dependencies]
    never reads [embed_deps], and returns the recipes of the dependency
    packages next to the recipe of the application. *)
Lemma app_recipes_dependencies_without_embedding :
  ∃ deps,
    recipes_dependencies gst_store 3 (IsApp (player_app false)) = Ok deps
    ∧ "glib" ∈ deps ∧ "gstreamer" ∈ deps
    ∧ deps ≠ ["player"].
Proof.
  eexists. split; [vm_compute; reflexivity |].
  split; [| split]; [| | discriminate]; rewrite !elem_of_cons; tauto.
Qed.

(** C3 (amended): for every App package whose dependency packages resolve
    and return their recipe dependencies, [recipes_dependencies()] returns,
    whether [embed_deps] is true or false, the union of the recipe
    dependencies of all the dependency packages plus the recipe of the
    application (when one is set), each name once, in no particular
    order. *)
Theorem app_recipes_dependencies (store : Store Descriptor) (depth : nat)
    (a : App.t) (children_deps : list (list string)) :
  mapM_res
    (λ dep, package ← attr (get_package store dep); recipes_dependencies store depth package)
    (App.getattribute_deps a)
  = Ok children_deps →
  ∃ deps,
    (∀ embed, recipes_dependencies store (S depth) (IsApp (with_embed_deps a embed)) = Ok deps)
    ∧ recipes_dependencies store (S depth) (IsApp a) = Ok deps
    ∧ NoDup deps
    ∧ ∀ x, x ∈ deps ↔
        (∃ child_deps, child_deps ∈ children_deps ∧ x ∈ child_deps)
        ∨ App.app_recipe a = Some x.
Proof.
  intros Hchildren.
  exists (App.list_set (concat children_deps ++ option_list (App.app_recipe a))).
  split; [| split; [| split]].
  - intros embed. simpl. unfold App.recipes_dependencies.
    change (App.getattribute_deps (with_embed_deps a embed)) with (App.getattribute_deps a).
    by rewrite Hchildren.
  - simpl. unfold App.recipes_dependencies. by rewrite Hchildren.
  - unfold App.list_set. apply NoDup_elements.
  - intros x. unfold App.list_set.
    rewrite elem_of_elements, elem_of_list_to_set, elem_of_app, elem_of_concat.
    destruct (App.app_recipe a) as [r |]; simpl.
    + rewrite elem_of_cons, elem_of_nil.
      split; [intros [? | [-> | []]]; auto | intros [? | [= ->]]; auto].
    + rewrite elem_of_nil. split; intros [? | ?]; auto; done.
Qed.

Lemma app_recipes_dependencies_witness :
  ∃ deps,
    recipes_dependencies gst_store 3 (IsApp (player_app true)) = Ok deps
    ∧ NoDup deps
    ∧ ∀ x, x ∈ deps ↔
        (∃ child_deps, child_deps ∈ [["gstreamer"; "glib"; "gstreamer"]] ∧ x ∈ child_deps)
        ∨ Some "player" = Some x.
Proof.
  destruct (app_recipes_dependencies gst_store 2 (player_app true)
              [["gstreamer"; "glib"; "gstreamer"]] eq_refl)
    as (deps & _ & Hdeps & Hnodup & Helem).
  exists deps. split; [exact Hdeps | split; [exact Hnodup | exact Helem]].
Defined.

(** ** File and category resolution (§4.2) *)

Lemma load_files_Ok (p : Package.t) :
  ∃ p',
    Package.load_files p = Ok p'
    ∧ Package._files p' = Some (effective_files p)
    ∧ Package._files_devel p' = Some (effective_files_devel p)
    ∧ Package._recipes_files p' = Some (Package.parse_entries (effective_files p))
    ∧ Package._recipes_files_devel p'
      = Some (Package.parse_entries (effective_files_devel p)).
Proof. eexists. repeat split. Qed.

Lemma files_list_item_selected (cookbook : CookBook) (entry : string * list string) :
  Package.files_list_item cookbook entry = selected_files cookbook entry.
Proof. by destruct entry as [r [| c cs]]. Qed.

Lemma devel_runtime_item_rule (K : Enums) (cookbook : CookBook)
    (entry : string * list string) :
  Package.devel_files_list_runtime_item K cookbook entry
  = runtime_entry_devel_files K cookbook entry.
Proof.
  destruct entry as [r cats].
  unfold Package.devel_files_list_runtime_item, runtime_entry_devel_files, Py.mem. simpl.
  destruct cats as [| c cs]; simpl.
  - reflexivity.
  - case_bool_decide as H1; case_bool_decide as H2; try done; exfalso.
    + apply H2. by right.
    + destruct H2 as [H2 | H2]; done.
Qed.

Lemma devel_item_rule (cookbook : CookBook) (entry : string * list string) :
  Package.devel_files_list_devel_item cookbook entry = devel_entry_files cookbook entry.
Proof. by destruct entry as [r [| c cs]]. Qed.

Lemma sorted_Sorted (l : list string) : Sorted String.le (Py.sorted l).
Proof. apply (Sorted_merge_sort String.le). Qed.

Lemma sorted_Permutation (l : list string) : Py.sorted l ≡ₚ l.
Proof. apply (merge_sort_Permutation String.le). Qed.

(** [sorted] returns the one sorted arrangement of its argument. *)
Lemma sorted_unique (l l' : list string) :
  Sorted String.le l' → l' ≡ₚ l → l' = Py.sorted l.
Proof.
  intros Hs Hp. apply (Sorted_unique String.le); [done | apply sorted_Sorted |].
  by rewrite Hp, sorted_Permutation.
Qed.

(** The dictionary of [_parse_files] has one item per entry when no two
    entries name the same recipe. *)
Lemma parse_entries_from (entries : list string) (d : gmap string (list string)) :
  NoDup (Package.recipe_of_entry <$> entries) →
  (∀ r, r ∈ entries → d !! Package.recipe_of_entry r = None) →
  map_to_list
    (fold_left
       (λ d r, let l := Py.split ":" r in <[default EmptyString (head l) := tail l]> d)
       entries d)
  ≡ₚ map_to_list d ++ (parse_entry <$> entries).
Proof.
  revert d. induction entries as [| r entries IH]; intros d Hnd Hfresh; simpl.
  - by rewrite app_nil_r.
  - rewrite fmap_cons in Hnd. apply NoDup_cons in Hnd as [Hr Hnd].
    rewrite IH; [| done |].
    + rewrite map_to_list_insert by (apply Hfresh; left).
      by rewrite <- Permutation_middle.
    + intros r' Hr'. rewrite lookup_insert_ne; [apply Hfresh; by right |].
      intros Heq. apply Hr. apply list_elem_of_fmap. exists r'. split; [| done].
      by rewrite <- Heq.
Qed.

Lemma parse_entries_distinct (entries : list string) :
  NoDup (Package.recipe_of_entry <$> entries) →
  map_to_list (Package.parse_entries entries) ≡ₚ parse_entry <$> entries.
Proof.
  intros Hnd. unfold Package.parse_entries.
  rewrite parse_entries_from; [by rewrite map_to_list_empty | done |].
  intros r _. apply lookup_empty.
Qed.

(** [dict.iteritems] is missing on the interpreter that loads the module,
    so the two methods raise on every instance of [Package], before and
    after [load_files()]. *)
Lemma Package_files_list_raises (cookbook : CookBook) (p : Package.t) :
  Package.files_list cookbook p = Err AttributeError.
Proof. unfold Package.files_list. by destruct (Package._recipes_files p). Qed.

Lemma Package_devel_files_list_raises (K : Enums) (cookbook : CookBook) (p : Package.t) :
  Package.devel_files_list K cookbook p = Err AttributeError.
Proof. unfold Package.devel_files_list. by destruct (Package._recipes_files p). Qed.

(** C4 (code defect): for every Package, once [load_files()] has run,
    [files_list()] raises [AttributeError] where the claim has it return the
    sorted file list: the loop is written over [dict.iteritems()], which the
    dictionaries of [_parse_files] do not have on Python 3.  The body of the
    method does attempt what the claim says: over the items of the parsed
    dictionary (one per entry when no two entries name the same recipe) the
    loop and the final [sorted] give, for each item, the full distribution
    file list of the recipe when the category set is empty and the files of
    the named categories otherwise, sorted. *)
Theorem package_files_list_raises (cookbook : CookBook) (p : Package.t) :
  ∃ p' parsed,
    Package.load_files p = Ok p'
    ∧ Package._recipes_files p' = Some parsed
    ∧ Package.files_list cookbook p' = Err AttributeError
    ∧ (NoDup (Package.recipe_of_entry <$> effective_files p) →
       map_to_list parsed ≡ₚ parse_entry <$> effective_files p)
    ∧ Package.files_list_over cookbook (map_to_list parsed)
      = Py.sorted (concat (selected_files cookbook <$> map_to_list parsed)).
Proof.
  destruct (load_files_Ok p) as (p' & Hload & _ & _ & Hrf & _).
  exists p', (Package.parse_entries (effective_files p)).
  split; [exact Hload |]. split; [exact Hrf |].
  split; [apply Package_files_list_raises |].
  split; [apply parse_entries_distinct |].
  unfold Package.files_list_over. do 2 f_equal.
  apply list_fmap_ext. intros _ entry _. apply files_list_item_selected.
Qed.

(** The example of the specification: the entries [recipeA] and
    [recipeB:tools]. *)
Example files_list_recipeA_recipeB_tools :
  let p := loaded recipes_package in
  Package._recipes_files p = Some {[ "recipeA" := []; "recipeB" := ["tools"] ]}
  ∧ Package.files_list gst_cookbook p = Err AttributeError
  ∧ Package.files_list_over gst_cookbook [("recipeA", []); ("recipeB", ["tools"])]
    = ["bin/recipeA"; "lib/librecipeA.so"; "tools/recipeB"].
Proof. split; [| split]; vm_compute; reflexivity. Qed.

(** C5 (code defect): for every Package, once [load_files()] has run,
    [devel_files_list()] raises [AttributeError] where the claim has it
    return the devel files: its two loops are written over
    [dict.iteritems()] too, the defect of C4.  The body does attempt what
    the claim says: over the items of the two parsed dictionaries, a runtime
    entry contributes the devel files of its recipe exactly when its
    category set is empty or contains the libraries category, and nothing
    otherwise. *)
Theorem package_devel_files_list_raises (K : Enums) (cookbook : CookBook) (p : Package.t) :
  ∃ p' runtime devel,
    Package.load_files p = Ok p'
    ∧ Package._recipes_files p' = Some runtime
    ∧ Package._recipes_files_devel p' = Some devel
    ∧ Package.devel_files_list K cookbook p' = Err AttributeError
    ∧ Package.devel_files_list_over K cookbook (map_to_list runtime) (map_to_list devel)
      = Py.sorted
          (concat (runtime_entry_devel_files K cookbook <$> map_to_list runtime)
           ++ concat (devel_entry_files cookbook <$> map_to_list devel)).
Proof.
  destruct (load_files_Ok p) as (p' & Hload & _ & _ & Hrf & Hrfd).
  exists p', (Package.parse_entries (effective_files p)),
    (Package.parse_entries (effective_files_devel p)).
  split; [exact Hload |]. split; [exact Hrf |]. split; [exact Hrfd |].
  split; [apply Package_devel_files_list_raises |].
  unfold Package.devel_files_list_over.
  assert (∀ l, Package.devel_files_list_runtime_item K cookbook <$> l
               = runtime_entry_devel_files K cookbook <$> l) as ->.
  { intros l. apply list_fmap_ext. intros _ entry _. apply devel_runtime_item_rule. }
  assert (∀ l, Package.devel_files_list_devel_item cookbook <$> l
               = devel_entry_files cookbook <$> l) as ->.
  { intros l. apply list_fmap_ext. intros _ entry _. apply devel_item_rule. }
  reflexivity.
Qed.

(** The example of the specification: the entry [recipeA:tools] contributes
    no devel file, the entry [recipeA] those of the recipe. *)
Example devel_files_list_recipeA_tools :
  Package.devel_files_list cerbero_enums gst_cookbook (loaded recipes_package)
  = Err AttributeError
  ∧ Package.devel_files_list_over cerbero_enums gst_cookbook [("recipeA", ["tools"])] [] = []
  ∧ Package.devel_files_list_over cerbero_enums gst_cookbook [("recipeA", [])] []
    = ["include/recipeA.h"].
Proof. split; [| split]; vm_compute; reflexivity. Qed.

(** ** Facts on strings *)

Lemma append_cons (c : ascii) (s t : string) : String c s +:+ t = String c (s +:+ t).
Proof. reflexivity. Qed.

Lemma append_nil_r (s : string) : s +:+ "" = s.
Proof. induction s as [| c s IH]; [done |]. by rewrite append_cons, IH. Qed.

Lemma append_assoc (a b c : string) : (a +:+ b) +:+ c = a +:+ (b +:+ c).
Proof. induction a as [| x a IH]; [done |]. by rewrite !append_cons, IH. Qed.

Lemma prefix_nil (s : string) : String.prefix "" s = true.
Proof. by destruct s. Qed.

(** ** The prepare stage of the RPM backend (§4.5, stage 3) *)

Lemma format1_DEVEL_TPL (listing : string) :
  PyFormat.format1 RPMPackager.DEVEL_TPL listing
  = "%files devel " +:+ Py.newline +:+ listing.
Proof.
  transitivity ("%files devel " +:+ Py.newline +:+ (listing +:+ "")); [reflexivity |].
  by rewrite append_nil_r.
Qed.

(** Every file list of an instance of [Package] or of its subclass
    [AppExtensionPackage] raises. *)
Lemma Package_lists_raise (K : Enums) (cookbook : CookBook) (store : Store Descriptor)
    (depth : nat) (d : Descriptor) (p : Package.t) :
  as_package d = Some p →
  files_list cookbook store depth d = Err AttributeError
  ∧ devel_files_list K cookbook store d = Err AttributeError.
Proof.
  intros Hd. destruct d; try discriminate.
  all: split; [destruct depth; apply Package_files_list_raises |].
  all: apply Package_devel_files_list_raises.
Qed.

(** What [_devel_package_and_files] does with the listing of the devel
    files, when it has one: the block that [%files devel] opens for a
    listing, nothing for an empty package. *)
Lemma devel_package_and_files_slot (K : Enums) (cookbook : CookBook)
    (store : Store Descriptor) (depth : nat) (linux : RPMPackager.LinuxPackager)
    (self : RPMPackager.t) (devel_package devel_files : string) :
  RPMPackager._devel_package_and_files K cookbook store depth linux self
  = Ok (devel_package, devel_files) →
  match RPMPackager._files_string_list K cookbook store depth self (DEVEL K) with
  | Ok listing => devel_files = "%files devel " +:+ Py.newline +:+ listing
  | Err e => e = EmptyPackageError ∧ devel_files = ""
  end.
Proof.
  intros Hdev. unfold RPMPackager._devel_package_and_files in Hdev.
  inv_bind Hdev as requires _H. inv_bind Hdev as more _H'. clear _H _H'.
  inv_bind Hdev as conflicts _H. inv_bind Hdev as obsoletes _H'. clear _H _H'.
  inv_bind Hdev as devel Hdevel. inv_bind Hdev as package_text _H. clear _H.
  injection Hdev as _ <-.
  destruct (RPMPackager._files_string_list K cookbook store depth self (DEVEL K))
    as [listing | e].
  - injection Hdevel as <-. apply format1_DEVEL_TPL.
  - destruct e; try discriminate. by injection Hdevel as <-.
Qed.

(** C7 (code defect): for a package of class [Package] (or of its
    subclass [AppExtensionPackage]) prepared as a package that is not a
    meta-package, [prepare] raises [AttributeError] and renders no document,
    where the claim has the document hold one [%files devel] block for the
    devel files of the package: the first thing [prepare] does is to list
    the files of the package, and the file lists of a [Package] raise at
    [dict.iteritems()], the defect of C4 and C5.  The devel file list of the
    package cannot be resolved either. *)
Theorem prepare_raises_on_package (K : Enums) (cookbook : CookBook)
    (store : Store Descriptor) (depth : nat) (linux : RPMPackager.LinuxPackager)
    (cwd : string) (fs : gmap string string) (self : RPMPackager.t)
    (tarname tmpdir packagedir srcdir : string) (p : Package.t) :
  as_package (RPMPackager.package self) = Some p →
  RPMPackager.build_meta_package self = false →
  devel_files_list K cookbook store (RPMPackager.package self) = Err AttributeError
  ∧ RPMPackager.prepare K cookbook store depth linux cwd fs self
      tarname tmpdir packagedir srcdir
    = Err AttributeError.
Proof.
  intros Hpackage Hmeta.
  destruct (Package_lists_raise K cookbook store depth _ p Hpackage) as [Hfiles Hdevel].
  split; [exact Hdevel |].
  assert (RPMPackager._files_string_list K cookbook store depth self (RUNTIME K)
          = Err AttributeError) as Hlisting.
  { unfold RPMPackager._files_string_list, RPMPackager.PackagerBase_files_list.
    rewrite Hmeta. by case_bool_decide; rewrite ?Hdevel, ?Hfiles. }
  unfold RPMPackager.prepare. by rewrite Hlisting.
Qed.

Lemma prepare_raises_on_package_witness :
  devel_files_list cerbero_enums gst_cookbook gst_store (IsPackage (loaded gst_package))
  = Err AttributeError
  ∧ RPMPackager.prepare cerbero_enums gst_cookbook gst_store 3 gst_linux "/" ∅
      (gst_packager fedora_config (IsPackage (loaded gst_package)))
      "gstreamer-core-1.0.tar" "/tmp/build" "/tmp/build/RPMS" "/tmp/build/SOURCES"
    = Err AttributeError.
Proof.
  apply (prepare_raises_on_package cerbero_enums gst_cookbook gst_store 3 gst_linux "/" ∅
           (gst_packager fedora_config (IsPackage (loaded gst_package)))
           "gstreamer-core-1.0.tar" "/tmp/build" "/tmp/build/RPMS" "/tmp/build/SOURCES"
           (loaded gst_package)); reflexivity.
Defined.

(** The package of the run above has a devel entry, and the loops of
    [devel_files_list] would list a devel file for it. *)
Example gst_package_devel_entries :
  Package._recipes_files_devel (loaded gst_package) = Some {[ "gstreamer" := ["devel"] ]}
  ∧ Package.devel_files_list_over cerbero_enums gst_cookbook
      [("glib", []); ("gstreamer", ["libs"; "bins"])] [("gstreamer", ["devel"])]
    = ["devel/gstreamer"; "include/glib.h"; "include/gstreamer.h"].
Proof. split; vm_compute; reflexivity. Qed.

(** Where [prepare] returns, on an application, which has no devel file: the
    document has no [%files devel] block. *)
Example player_spec_has_no_devel_block :
  (Py.contains "%files devel" <$> RPMPackager._spec_str prepared_player.1) = Some false.
Proof. vm_compute. reflexivity. Qed.

(** ** Paths between their Unix and Windows spellings *)

Local Arguments Ascii.eqb : simpl never.

Lemma append_nil_l (s : string) : "" +:+ s = s.
Proof. reflexivity. Qed.

Lemma has_char_app (c : ascii) (a b : string) :
  has_char c (a +:+ b) = has_char c a || has_char c b.
Proof.
  induction a as [| d a IH]; [reflexivity |].
  rewrite append_cons. simpl. rewrite IH. by rewrite orb_assoc.
Qed.

Lemma replace_char_removes (old : ascii) (new s : string) :
  has_char old new = false → has_char old (PyStr.replace_char old new s) = false.
Proof.
  intros Hnew. induction s as [| c s IH]; [reflexivity |]. simpl.
  destruct (Ascii.eqb c old) eqn:Hc.
  - by rewrite has_char_app, Hnew, IH.
  - simpl. rewrite IH, orb_false_r.
    rewrite Ascii.eqb_sym. exact Hc.
Qed.

Lemma replace_char_absent (old : ascii) (new s : string) :
  has_char old s = false → PyStr.replace_char old new s = s.
Proof.
  induction s as [| c s IH]; [reflexivity |]. simpl.
  intros [Hc Hs]%orb_false_iff. rewrite Ascii.eqb_sym, Hc. by rewrite IH.
Qed.

Lemma fix_winpath_after_replace (s : string) :
  has_char PyStr.backslash s = false →
  UtilsPath.fix_winpath (PyStr.replace_char "/" (String PyStr.backslash "") s) = s.
Proof.
  unfold UtilsPath.fix_winpath.
  induction s as [| c s IH]; [reflexivity |]. simpl.
  intros [Hc Hs]%orb_false_iff.
  destruct (Ascii.eqb c "/") eqn:Hslash.
  - apply Ascii.eqb_eq in Hslash as ->.
    rewrite append_cons, append_nil_l. simpl.
    rewrite ?Ascii.eqb_refl, append_cons, append_nil_l. f_equal. by apply IH.
  - simpl. rewrite Ascii.eqb_sym, Hc. f_equal. by apply IH.
Qed.

(** X1.  A Unix path of at least two characters that has no backslash comes
    back from its Windows spelling: [to_winpath] returns, and [fix_winpath]
    followed by [to_unixpath] gives the path again. *)
Theorem winpath_round_trip (path : string) :
  Py.startswith path "/" = true →
  2 ≤ String.length path →
  has_char PyStr.backslash path = false →
  ∃ w, UtilsPath.to_winpath path = Ok w
       ∧ UtilsPath.to_unixpath (UtilsPath.fix_winpath w) = Ok path.
Proof.
  intros Hs Hlen Hb.
  destruct path as [| s [| c rest]]; [simpl in Hlen; lia.. |].
  unfold UtilsPath.to_winpath. rewrite Hs.
  unfold Py.startswith in Hs. cbn [String.prefix] in Hs.
  destruct (ascii_dec "/" s) as [<- |]; [| done].
  cbn [has_char] in Hb.
  apply orb_false_iff in Hb as [_ Hb]. apply orb_false_iff in Hb as [Hc Hrest].
  eexists. split; [reflexivity |].
  change (String c ":" +:+ PyStr.drop 2 (String "/" (String c rest)))
    with (String c (String ":" rest)).
  rewrite fix_winpath_after_replace; [reflexivity |].
  cbn [has_char]. by rewrite Hc, Hrest.
Qed.

Lemma winpath_round_trip_witness :
  ∃ w, UtilsPath.to_winpath "/c/gstreamer/1.0" = Ok w
       ∧ UtilsPath.to_unixpath (UtilsPath.fix_winpath w) = Ok "/c/gstreamer/1.0".
Proof.
  apply (winpath_round_trip "/c/gstreamer/1.0"); [reflexivity | simpl; lia | reflexivity].
Defined.

(** X2.  [to_winpath] raises only on the path that is a single slash, where
    it reads [path[1]]; a path it returns has no slash left. *)
Theorem to_winpath_result (path : string) :
  match UtilsPath.to_winpath path with
  | Ok w => has_char "/" w = false
  | Err e => e = IndexError ∧ path = "/"
  end.
Proof.
  unfold UtilsPath.to_winpath, Py.startswith.
  destruct path as [| s path]; [reflexivity |].
  cbn [String.prefix]. destruct (ascii_dec "/" s) as [<- | Hs].
  - rewrite prefix_nil. destruct path as [| c rest]; [done |].
    by apply (replace_char_removes "/" _ (String c ":" +:+ rest)).
  - by apply (replace_char_removes "/" _ (String s path)).
Qed.

(** X3.  [fix_winpath] leaves no backslash, and a second application changes
    nothing. *)
Theorem fix_winpath_idempotent (path : string) :
  has_char PyStr.backslash (UtilsPath.fix_winpath path) = false
  ∧ UtilsPath.fix_winpath (UtilsPath.fix_winpath path) = UtilsPath.fix_winpath path.
Proof.
  assert (has_char PyStr.backslash (UtilsPath.fix_winpath path) = false) as H
    by by apply replace_char_removes.
  split; [exact H |]. by apply replace_char_absent.
Qed.

Lemma swap_case_involutive (c : ascii) :
  UtilsPath.swap_case (UtilsPath.swap_case c) = c.
Proof. by destruct c as [[] [] [] [] [] [] [] []]. Qed.

Lemma swap_case_colon (c : ascii) :
  Ascii.eqb (UtilsPath.swap_case c) ":" = Ascii.eqb c ":".
Proof. by destruct c as [[] [] [] [] [] [] [] []]. Qed.

(** X4.  On a Unix path whose drive letter is an ASCII character other than
    a colon, [to_odd_cased_unixpath] returns, and applied to its own result
    it gives the path back. *)
Theorem to_odd_cased_unixpath_twice (drive_letter : ascii) (rest : string) :
  nat_of_ascii drive_letter < 128 →
  drive_letter ≠ ":"%char →
  let path := String "/" (String drive_letter rest) in
  ∃ odd, UtilsPath.to_odd_cased_unixpath path = Ok odd
         ∧ UtilsPath.to_odd_cased_unixpath odd = Ok path.
Proof.
  intros _ Hc path. subst path.
  apply Ascii.eqb_neq in Hc.
  unfold UtilsPath.to_odd_cased_unixpath. simpl. rewrite Hc. simpl.
  eexists. split; [reflexivity |].
  simpl. rewrite swap_case_colon, Hc. simpl.
  by rewrite swap_case_involutive.
Qed.

Lemma to_odd_cased_unixpath_twice_witness :
  ∃ odd, UtilsPath.to_odd_cased_unixpath "/c/gstreamer" = Ok odd
         ∧ UtilsPath.to_odd_cased_unixpath odd = Ok "/c/gstreamer".
Proof.
  apply (to_odd_cased_unixpath_twice "c" "/gstreamer"); [vm_compute; lia | discriminate].
Defined.

Lemma to_unixpath_Ok (a b : ascii) (rest : string) :
  ∃ p, UtilsPath.to_unixpath (String a (String b rest)) = Ok p.
Proof.
  unfold UtilsPath.to_unixpath. simpl. destruct (Ascii.eqb b ":"); simpl; eauto.
Qed.

(** X5.  [replace_prefix] returns for every prefix of two characters or
    more, and raises [IndexError] on a shorter one, whatever the text: the
    spellings of the prefix are computed before any replacement, and
    [to_unixpath] reads [prefix[1]]. *)
Theorem replace_prefix_needs_two_characters (prefix text replacement : string) :
  match UtilsPath.replace_prefix prefix text replacement with
  | Ok _ => 2 ≤ String.length prefix
  | Err e => e = IndexError ∧ String.length prefix < 2
  end.
Proof.
  destruct prefix as [| a [| b rest]]; [simpl; split; [done | lia].. |].
  unfold UtilsPath.replace_prefix.
  destruct (to_unixpath_Ok a b rest) as [p2 ->]. simpl.
  assert (∃ p3, UtilsPath.to_winpath (String a (String b rest)) = Ok p3) as [p3 ->].
  { unfold UtilsPath.to_winpath, Py.startswith. cbn [String.prefix].
    destruct (ascii_dec "/" a); rewrite ?prefix_nil; simpl; eauto. }
  simpl.
  assert (∃ p5, UtilsPath.to_odd_cased_unixpath (String a (String b rest)) = Ok p5)
    as [p5 ->].
  { unfold UtilsPath.to_odd_cased_unixpath. simpl.
    destruct (Ascii.eqb b ":"); simpl.
    - rewrite append_cons. apply to_unixpath_Ok.
    - destruct (Ascii.eqb a "/"); simpl; eauto. }
  simpl. lia.
Qed.

Example replace_prefix_spellings :
  UtilsPath.replace_prefix "/c/gst" "PATH=/c/gst/bin;c:/gst;/C/gst/lib" "{PREFIX}"
  = Ok "PATH={PREFIX}/bin;c:/gst;{PREFIX}/lib".
Proof. vm_compute. reflexivity. Qed.

(** ** Removing duplicates, again *)

Lemma remove_list_duplicates_from_NoDup_id (seen : gset string) (seq : list string) :
  NoDup seq → (∀ x, x ∈ seq → x ∉ seen) →
  Utils.remove_list_duplicates_from seen seq = seq.
Proof.
  revert seen. induction seq as [| y seq IH]; intros seen Hnd Hseen; [reflexivity |].
  simpl. apply NoDup_cons in Hnd as [Hy Hnd].
  destruct (decide (y ∈ seen)) as [Hin | _].
  - exfalso. apply (Hseen y); [left | done].
  - f_equal. apply IH; [done |].
    intros x Hx. rewrite not_elem_of_union, elem_of_singleton. split.
    + intros ->. done.
    + apply Hseen. by right.
Qed.

(** X6.  [remove_list_duplicates] applied twice is the same as applied
    once, and the lists it returns unchanged are the lists without
    repetitions. *)
Theorem remove_list_duplicates_idempotent (seq : list string) :
  Utils.remove_list_duplicates (Utils.remove_list_duplicates seq)
  = Utils.remove_list_duplicates seq
  ∧ (Utils.remove_list_duplicates seq = seq ↔ NoDup seq).
Proof.
  assert (∀ l, NoDup l → Utils.remove_list_duplicates l = l) as H.
  { intros l Hl. apply remove_list_duplicates_from_NoDup_id; [done |].
    intros x _. apply not_elem_of_empty. }
  split; [apply H, remove_list_duplicates_NoDup |].
  split; [| apply H]. intros <-. apply remove_list_duplicates_NoDup.
Qed.

(** ** Mode-dependent identity, again *)

Lemma append_inj_l (a b c : string) : a +:+ b = a +:+ c → b = c.
Proof.
  induction a as [| x a IH]; [done |].
  rewrite !append_cons. intros [= H]. by apply IH.
Qed.

(** X7.  The names a descriptor reads in two modes are equal only when the
    modes are: the name of the development package never collides with the
    name of the runtime package. *)
Theorem getattribute_name_separates_modes (p : PackageBase.t) (m1 m2 : string) :
  PackageBase.getattribute_name (PackageBase.set_mode p m1)
  = PackageBase.getattribute_name (PackageBase.set_mode p m2)
  ↔ m1 = m2.
Proof.
  unfold PackageBase.getattribute_name. simpl.
  split; [apply append_inj_l | by intros ->].
Qed.

(** X8.  With distinct mode markers and a stored uuid that is not empty,
    the uuid read in DEVEL mode differs from the stored one, which is the
    uuid read in RUNTIME mode, in its first character and nowhere else. *)
Theorem getattribute_uuid_separates_modes (K : Enums) (p : PackageBase.t)
    (c : ascii) (rest : string) :
  RUNTIME K ≠ DEVEL K →
  PackageBase.uuid p = Some (String c rest) →
  PackageBase.getattribute_uuid K (PackageBase.set_mode p (RUNTIME K))
  = Ok (Some (String c rest))
  ∧ ∃ c', PackageBase.getattribute_uuid K (PackageBase.set_mode p (DEVEL K))
          = Ok (Some (String c' rest))
          ∧ c' ≠ c.
Proof.
  intros Hne Hu. unfold PackageBase.getattribute_uuid. simpl.
  rewrite bool_decide_false by done. rewrite bool_decide_true by done.
  rewrite Hu. split; [done |].
  destruct (Ascii.eqb_spec c "0") as [-> | Hc]; simpl;
    eexists; (split; [reflexivity |]); [discriminate | congruence].
Qed.

Lemma getattribute_uuid_separates_modes_witness :
  PackageBase.getattribute_uuid cerbero_enums (gst_base "")
  = Ok (Some "d09b1f5c-2b3c-4b0e-8a0a-000000000001")
  ∧ ∃ c', PackageBase.getattribute_uuid cerbero_enums (gst_base "-devel")
          = Ok (Some (String c' "09b1f5c-2b3c-4b0e-8a0a-000000000001"))
          ∧ c' ≠ "d"%char.
Proof.
  apply (getattribute_uuid_separates_modes cerbero_enums (gst_base "") "d"
           "09b1f5c-2b3c-4b0e-8a0a-000000000001"); [discriminate | reflexivity].
Defined.

(** X9.  [get_sys_deps] raises exactly when the mode it settles on (the
    argument, or the mode of the descriptor when the argument is None or
    empty) is neither RUNTIME nor DEVEL, and then it raises
    [UnboundLocalError]: no branch assigns the local [sys_deps]. *)
Theorem get_sys_deps_unknown_mode (K : Enums) (p : PackageBase.t)
    (package_mode : option string) :
  let mode :=
    match package_mode with
    | Some m => if Py.truthy m then m else PackageBase.package_mode p
    | None => PackageBase.package_mode p
    end in
  match PackageBase.get_sys_deps K p package_mode with
  | Ok _ => mode = RUNTIME K ∨ mode = DEVEL K
  | Err e => e = UnboundLocalError ∧ mode ≠ RUNTIME K ∧ mode ≠ DEVEL K
  end.
Proof.
  intros mode. unfold PackageBase.get_sys_deps. fold mode.
  repeat case_bool_decide; repeat case_match; simplify_eq; auto.
Qed.

(** X10.  The registry key of a meta-package carries the name as read in the
    mode of the call, and the method leaves the object as it found it: the
    mode it switches to for the short description is switched back. *)
Theorem metapackage_get_wix_registry_key (K : Enums) (self : MetaPackage.t) :
  MetaPackageWix.get_wix_registry_key K self
  = ("Software" +:+ String PyStr.backslash ""
       +:+ PackageBase.name (MetaPackage.base self)
       +:+ PackageBase.package_mode (MetaPackage.base self)
       +:+ String PyStr.backslash ""
       +:+ target_arch (PackageBase.config (MetaPackage.base self)),
     self).
Proof.
  unfold MetaPackageWix.get_wix_registry_key, MetaPackageWix.set_mode. simpl.
  rewrite set_mode_twice, set_mode_same.
  unfold PackageBase.getattribute_name. rewrite !append_assoc.
  by destruct self.
Qed.

(** ** Entries and file lists, again *)

Lemma parse_entries_fold_lookup (entries : list string) (d : gmap string (list string))
    (name : string) :
  fold_left
    (λ d r, let l := Py.split ":" r in <[default EmptyString (head l) := tail l]> d)
    entries d !! name
  = match last (filter (λ r, Package.recipe_of_entry r = name) entries) with
    | Some r => Some (tail (Py.split ":" r))
    | None => d !! name
    end.
Proof.
  revert d. induction entries as [| r entries IH]; intros d; [reflexivity |].
  cbn [fold_left]. rewrite IH. rewrite filter_cons.
  fold (Package.recipe_of_entry r).
  destruct (decide (Package.recipe_of_entry r = name)) as [Hr | Hr].
  - rewrite last_cons.
    destruct (last (filter _ entries)); [done |].
    by rewrite Hr, lookup_insert_eq.
  - destruct (last (filter _ entries)); [done |].
    by rewrite lookup_insert_ne.
Qed.

(** X12.  The dictionary of [_parse_files] maps a recipe name to the
    categories of the last entry that names the recipe, and has no key for a
    recipe that no entry names: a later entry of a recipe replaces an
    earlier one. *)
Theorem parse_entries_last_entry_wins (entries : list string) (name : string) :
  Package.parse_entries entries !! name
  = (λ r, tail (Py.split ":" r))
    <$> last (filter (λ r, Package.recipe_of_entry r = name) entries).
Proof.
  unfold Package.parse_entries. rewrite parse_entries_fold_lookup.
  by destruct (last _).
Qed.

Example parse_entries_repeated_recipe :
  Package.parse_entries ["gstreamer:libs"; "glib"; "gstreamer:bins:lang"] !! "gstreamer"
  = Some ["bins"; "lang"].
Proof. vm_compute. reflexivity. Qed.

Lemma parse_entries_key (entries : list string) (name : string) :
  is_Some (Package.parse_entries entries !! name) →
  name ∈ Package.recipe_of_entry <$> entries.
Proof.
  unfold Package.parse_entries. rewrite parse_entries_fold_lookup.
  destruct (last (filter _ entries)) as [r |] eqn:Hlast;
    [intros _ | by rewrite lookup_empty; intros [? ?]].
  apply last_Some_elem_of, list_elem_of_filter in Hlast as [<- Hr].
  by apply list_elem_of_fmap_2.
Qed.

(** X11.  After [load_files], every recipe that has a key in one of the two
    dictionaries of [_parse_files], and so every recipe whose files
    [files_list] and [devel_files_list] gather, is among the recipes
    [recipes_dependencies] returns. *)
Theorem recipes_dependencies_cover_files (store : Store Descriptor) (depth : nat)
    (p p' : Package.t) (deps : list string) :
  Package.load_files p = Ok p' →
  recipes_dependencies store depth (IsPackage p') = Ok deps →
  ∃ runtime devel,
    Package._recipes_files p' = Some runtime
    ∧ Package._recipes_files_devel p' = Some devel
    ∧ ∀ name, is_Some (runtime !! name) ∨ is_Some (devel !! name) → name ∈ deps.
Proof.
  intros Hload Hdeps.
  destruct (load_files_Ok p) as (q & Hq & Hfiles & Hfiles_devel & Hrf & Hrfd).
  rewrite Hload in Hq. injection Hq as <-.
  eexists _, _. split; [exact Hrf |]. split; [exact Hrfd |].
  destruct depth as [| depth]; [done |].
  cbn [recipes_dependencies] in Hdeps. unfold Package.recipes_dependencies in Hdeps.
  rewrite Hfiles, Hfiles_devel in Hdeps. cbn [attr mbind Res_bind] in Hdeps.
  inv_bind Hdeps as more Hmore. injection Hdeps as <-.
  intros name [Hname%parse_entries_key | Hname%parse_entries_key];
    rewrite !elem_of_app; auto.
Qed.

Lemma recipes_dependencies_cover_files_witness :
  ∃ runtime devel,
    Package._recipes_files (loaded gst_package) = Some runtime
    ∧ Package._recipes_files_devel (loaded gst_package) = Some devel
    ∧ ∀ name, is_Some (runtime !! name) ∨ is_Some (devel !! name) →
        name ∈ ["gstreamer"; "glib"; "gstreamer"].
Proof.
  apply (recipes_dependencies_cover_files gst_store 3 gst_package (loaded gst_package));
    vm_compute; reflexivity.
Defined.

(** ** The order of the entries *)

Lemma filter_recipe_at_most_one (entries : list string) (name : string) :
  NoDup (Package.recipe_of_entry <$> entries) →
  length (filter (λ r, Package.recipe_of_entry r = name) entries) ≤ 1.
Proof.
  induction entries as [| r entries IH]; [simpl; lia |].
  rewrite fmap_cons, NoDup_cons. intros [Hr Hnd]. rewrite filter_cons.
  destruct (decide (Package.recipe_of_entry r = name)) as [Hname | _]; [| by apply IH].
  destruct (filter _ entries) as [| x rest] eqn:Hfilter; [simpl; lia |].
  exfalso. apply Hr.
  assert (x ∈ filter (λ r, Package.recipe_of_entry r = name) entries) as Hx
    by (rewrite Hfilter; by left).
  apply list_elem_of_filter in Hx as [Hxname Hx].
  rewrite Hname, <- Hxname. by apply list_elem_of_fmap_2.
Qed.

(** X26.  When no two entries name the same recipe, the dictionary of
    [_parse_files] does not depend on the order of the entries. *)
Theorem parse_entries_order (entries entries' : list string) :
  NoDup (Package.recipe_of_entry <$> entries) →
  entries ≡ₚ entries' →
  Package.parse_entries entries = Package.parse_entries entries'.
Proof.
  intros Hnd Hperm. apply map_eq. intros name.
  unfold Package.parse_entries. rewrite !parse_entries_fold_lookup.
  pose proof (filter_recipe_at_most_one entries name Hnd) as Hlen.
  assert (filter (λ r, Package.recipe_of_entry r = name) entries
          ≡ₚ filter (λ r, Package.recipe_of_entry r = name) entries') as Hf
    by by rewrite Hperm.
  destruct (filter _ entries) as [| x [| y rest]]; [| | simpl in Hlen; lia].
  - by apply Permutation_nil_l in Hf as <-.
  - symmetry in Hf. by apply Permutation_singleton_r in Hf as ->.
Qed.

Lemma parse_entries_order_witness :
  Package.parse_entries ["gstreamer:libs:bins"; "glib"]
  = Package.parse_entries ["glib"; "gstreamer:libs:bins"].
Proof.
  apply parse_entries_order; [| apply perm_swap].
  vm_compute. repeat constructor; rewrite ?elem_of_cons, ?elem_of_nil; intuition discriminate.
Defined.

(** ** The three file lists of a package object *)

Lemma sorted_fixes_sorted (l : list string) : Sorted String.le l → Py.sorted l = l.
Proof. intros Hl. symmetry. by apply sorted_unique. Qed.

Lemma mapM_res_ext {A B} (f g : A → Res B) (l : list A) :
  Forall (λ x, f x = g x) l → mapM_res f l = mapM_res g l.
Proof.
  induction 1 as [| x l Hx _ IH]; [done |]. cbn [mapM_res]. by rewrite Hx, IH.
Qed.

(** The file list of an application is sorted, and [Package.all_files_list]
    applied to the application returns it as it is. *)
Lemma Package_all_files_list_on_App (K : Enums) (cookbook : CookBook)
    (store : Store Descriptor) (depth : nat) (a : App.t) :
  MetaPackage.Package_all_files_list (files_list cookbook store depth)
    (devel_files_list K cookbook store) (IsApp a)
  = files_list cookbook store depth (IsApp a).
Proof.
  unfold MetaPackage.Package_all_files_list. cbn [devel_files_list App.devel_files_list].
  destruct (files_list cookbook store depth (IsApp a)) as [files |] eqn:Hfiles; [| done].
  cbn [mbind Res_bind]. rewrite app_nil_r. f_equal. apply sorted_fixes_sorted.
  destruct depth as [| depth']; [done |]. cbn [files_list] in Hfiles.
  unfold App.files_list in Hfiles.
  inv_bind Hfiles as embedded He. inv_bind Hfiles as app Ha. injection Hfiles as <-.
  apply sorted_Sorted.
Qed.

(** X13.  The file lists of a meta-package.  [files_list] and
    [devel_files_list] apply the bodies of the methods of class [Package] to
    every child, and those read the dictionaries of [_parse_files]: with no
    child the two return the empty list, and with a child of any class they
    raise [AttributeError].  [all_files_list] applies
    [Package.all_files_list], whose body calls the methods of the child
    itself: for a meta-package of applications it returns the sorted file
    lists of the applications. *)
Theorem metapackage_file_lists (K : Enums) (cookbook : CookBook)
    (store : Store Descriptor) (depth : nat) (m : MetaPackage.t) :
  let children :=
    get_package_deps store (PackageBase.getattribute_name (MetaPackage.base m)) false in
  let outcome : Res (list string) :=
    match children with
    | [] => Ok []
    | _ => Err AttributeError
    end in
  files_list cookbook store depth (IsMetaPackage m) = outcome
  ∧ devel_files_list K cookbook store (IsMetaPackage m) = outcome
  ∧ (Forall (λ child, ∃ a, child = IsApp a) children →
     all_files_list K cookbook store depth (IsMetaPackage m)
     = files ← mapM_res (files_list cookbook store depth) children;
       Ok (Py.sorted (concat files))).
Proof.
  intros children outcome.
  assert (files_list cookbook store depth (IsMetaPackage m)
          = MetaPackage.files_list cookbook store as_package m) as -> by by destruct depth.
  cbn [devel_files_list all_files_list].
  unfold MetaPackage.files_list, MetaPackage.devel_files_list, MetaPackage.all_files_list,
    MetaPackage._list_files.
  fold children. split; [| split].
  - destruct children as [| child children']; [done |]. cbn [mapM_res].
    unfold MetaPackage.Package_files_list.
    destruct (as_package child) as [p |]; [| done]. cbn [attr mbind Res_bind].
    by rewrite Package_files_list_raises.
  - destruct children as [| child children']; [done |]. cbn [mapM_res].
    unfold MetaPackage.Package_devel_files_list.
    destruct (as_package child) as [p |]; [| done]. cbn [attr mbind Res_bind].
    by rewrite Package_devel_files_list_raises.
  - intros Hchildren. f_equal. apply mapM_res_ext.
    eapply Forall_impl; [exact Hchildren |].
    intros child [a ->]. apply Package_all_files_list_on_App.
Qed.

Lemma metapackage_file_lists_witness :
  files_list gst_cookbook suite_store 3 (IsMetaPackage suite_metapackage)
  = Err AttributeError
  ∧ devel_files_list cerbero_enums gst_cookbook suite_store (IsMetaPackage suite_metapackage)
    = Err AttributeError
  ∧ all_files_list cerbero_enums gst_cookbook suite_store 3 (IsMetaPackage suite_metapackage)
    = Ok ["bin/player"; "lib/libplayer.so"].
Proof.
  destruct (metapackage_file_lists cerbero_enums gst_cookbook suite_store 3 suite_metapackage)
    as (Hfiles & Hdevel & Hall).
  split; [exact Hfiles |]. split; [exact Hdevel |].
  rewrite Hall; [vm_compute; reflexivity |].
  repeat constructor. by eexists.
Defined.

(** ** Packages that depend on each other *)

Lemma mapM_res_Ok_elem {A B} (f : A → Res B) (l : list A) (ys : list B) (x : A) :
  mapM_res f l = Ok ys → x ∈ l → ∃ y, f x = Ok y.
Proof.
  revert ys. induction l as [| a l IH]; intros ys H Hx; [by apply elem_of_nil in Hx |].
  simpl in H. inv_bind H as y Hy. inv_bind H as ys' Hys.
  apply elem_of_cons in Hx as [-> | Hx]; eauto.
Qed.

(** X14.  [recipes_dependencies] has no guard against packages that depend
    on each other: when every package of a set names, among its [deps], a
    package of the set, the call on a package of the set returns at no
    depth of calls. *)
Theorem recipes_dependencies_cycle (store : Store Descriptor) (cyclic : Package.t → Prop) :
  (∀ p, cyclic p →
     ∃ name q, name ∈ Package.deps p
               ∧ get_package store name = Some (IsPackage q) ∧ cyclic q) →
  ∀ p depth, cyclic p →
    ∃ e, recipes_dependencies store depth (IsPackage p) = Err e.
Proof.
  intros Hcyc p depth. revert p.
  induction depth as [| depth IH]; intros p Hp; [by eexists |].
  destruct (recipes_dependencies store (S depth) (IsPackage p)) as [deps |] eqn:H;
    [exfalso | by eexists].
  simpl in H. unfold Package.recipes_dependencies in H.
  inv_bind H as fs Hfs. inv_bind H as fds Hfds. inv_bind H as more Hmore.
  destruct (Hcyc p Hp) as (name & q & Hname & Hq & Hcq).
  destruct (mapM_res_Ok_elem _ _ _ name Hmore Hname) as [y Hy].
  rewrite Hq in Hy. simpl in Hy.
  destruct (IH q Hcq) as [e He]. congruence.
Qed.

Lemma recipes_dependencies_cycle_witness :
  ∃ e, recipes_dependencies looping_store 40 (IsPackage looping_core) = Err e.
Proof.
  apply (recipes_dependencies_cycle looping_store
           (λ p, p = looping_core ∨ p = looping_plugins)); [| by left].
  intros p [-> | ->].
  - exists "gst-plugins", looping_plugins.
    split; [by apply list_elem_of_singleton |]. split; [reflexivity | by right].
  - exists "gstreamer-core", looping_core.
    split; [by apply list_elem_of_singleton |]. split; [reflexivity | by left].
Defined.

Lemma extend_while_iterating_invariant {D} (steps : nat) (f : D → list D)
    (visited pending l : list D) :
  App.extend_while_iterating steps f visited pending = Ok l →
  (∀ x, x ∈ visited → x ∈ l)
  ∧ (∀ x, x ∈ pending → x ∈ l)
  ∧ (∀ x, x ∈ l → x ∈ visited ∨ ∀ y, y ∈ f x → y ∈ l).
Proof.
  revert visited pending. induction steps as [| steps IH]; intros visited pending H.
  - destruct pending as [| package pending']; [| done].
    injection H as <-. split; [done |]. split; [by intros x Hx%elem_of_nil | auto].
  - destruct pending as [| package pending'].
    + injection H as <-. split; [done |]. split; [by intros x Hx%elem_of_nil | auto].
    + simpl in H. apply IH in H as (Hv & Hp & Hc).
      split; [| split].
      * intros x Hx. apply Hv, elem_of_app. by left.
      * intros x [-> | Hx]%elem_of_cons.
        -- apply Hv, elem_of_app. right. by apply list_elem_of_singleton.
        -- apply Hp, elem_of_app. by left.
      * intros x Hx. destruct (Hc x Hx) as [[Hxv | ->%list_elem_of_singleton]%elem_of_app | Hxc];
          [by left | right | by right].
        intros y Hy. apply Hp, elem_of_app. by right.
Qed.

(** X15.  When the loop that gathers the packages an application embeds
    comes to an end, its result holds every package it started from and,
    with a package, every package the store gives as its dependencies. *)
Theorem extend_while_iterating_closed {D} (steps : nat) (f : D → list D)
    (pending l : list D) :
  App.extend_while_iterating steps f [] pending = Ok l →
  (∀ x, x ∈ pending → x ∈ l) ∧ (∀ x y, x ∈ l → y ∈ f x → y ∈ l).
Proof.
  intros (_ & Hp & Hc)%extend_while_iterating_invariant.
  split; [done |]. intros x y Hx Hy.
  destruct (Hc x Hx) as [Hnil%elem_of_nil | Hfx]; [done | by apply Hfx].
Qed.

Lemma extend_while_iterating_closed_witness :
  let f (n : nat) := if bool_decide (n = 0) then [1; 2] else if bool_decide (n = 1) then [2] else [] in
  (∀ x, x ∈ [0] → x ∈ [0; 1; 2; 2]) ∧ (∀ x y, x ∈ [0; 1; 2; 2] → y ∈ f x → y ∈ [0; 1; 2; 2]).
Proof.
  intros f. apply (extend_while_iterating_closed 10 f [0] [0; 1; 2; 2]). reflexivity.
Defined.

Lemma extend_while_iterating_stuck {D} (f : D → list D) (cyclic : D → Prop) :
  (∀ d, cyclic d → ∃ d', d' ∈ f d ∧ cyclic d') →
  ∀ steps visited pending,
    (∃ d, d ∈ pending ∧ cyclic d) →
    App.extend_while_iterating steps f visited pending = Err OutOfSteps.
Proof.
  intros Hcyc steps. induction steps as [| steps IH]; intros visited pending (d & Hd & Hcd).
  - destruct pending; [by apply elem_of_nil in Hd | done].
  - destruct pending as [| package pending']; [by apply elem_of_nil in Hd |].
    simpl. apply IH.
    apply elem_of_cons in Hd as [-> | Hd].
    + destruct (Hcyc _ Hcd) as (d' & Hd' & Hcd'). exists d'.
      split; [| done]. apply elem_of_app. by right.
    + exists d. split; [| done]. apply elem_of_app. by left.
Qed.

(** X16.  [App.files_list] with [embed_deps] has no guard against packages
    that depend on each other: when a dependency of the application is in
    a set of packages each of which has, in the store, a dependency in the
    set, the loop that extends the list it runs over comes to no end,
    whatever the number of iterations allowed. *)
Theorem app_files_list_cycle (cookbook : CookBook) (store : Store Descriptor)
    (dispatch_files_list : Descriptor → Res (list string)) (a : App.t)
    (cyclic : Descriptor → Prop) (packages_deps : list Descriptor) :
  App.embed_deps a = true →
  mapM_res (λ x, attr (get_package store x)) (App.getattribute_deps a) = Ok packages_deps →
  (∃ d, d ∈ packages_deps ∧ cyclic d) →
  (∀ d, cyclic d → ∃ d', d' ∈ get_package_deps_of store d ∧ cyclic d') →
  ∀ steps, App.files_list cookbook store dispatch_files_list steps a = Err OutOfSteps.
Proof.
  intros Hembed Hdeps Hin Hcyc steps.
  unfold App.files_list. rewrite Hembed, Hdeps. simpl.
  by rewrite (extend_while_iterating_stuck _ cyclic Hcyc steps [] packages_deps Hin).
Qed.

Lemma app_files_list_cycle_witness :
  App.files_list gst_cookbook looping_store (files_list gst_cookbook looping_store 100)
    100 (player_app true)
  = Err OutOfSteps.
Proof.
  apply (app_files_list_cycle gst_cookbook looping_store _ (player_app true)
           (λ d, d = IsPackage looping_core ∨ d = IsPackage looping_plugins)
           [IsPackage looping_core]).
  - reflexivity.
  - reflexivity.
  - exists (IsPackage looping_core). split; [by apply list_elem_of_singleton | by left].
  - intros d [-> | ->].
    + exists (IsPackage looping_plugins). split; [| by right].
      vm_compute. by apply list_elem_of_singleton.
    + exists (IsPackage looping_core). split; [| by left].
      vm_compute. by apply list_elem_of_singleton.
Defined.

(** ** The source stage, again *)

Lemma commonprefix_prefix (a b : string) :
  PosixPath.commonprefix a b = a ↔ String.prefix a b = true.
Proof.
  revert b. induction a as [| c a IH]; intros b.
  - rewrite prefix_nil. by destruct b.
  - destruct b as [| d b]; [done |]. cbn [PosixPath.commonprefix String.prefix].
    destruct (ascii_dec c d) as [<- | Hcd].
    + rewrite Ascii.eqb_refl, <- IH. split; [by intros [= ->] | by intros ->].
    + apply Ascii.eqb_neq in Hcd. by rewrite Hcd.
Qed.

(** X17.  The test of [setup_source] on a member of the archive holds
    exactly when the absolute path of the member starts, as text, with the
    absolute path of the directory. *)
Theorem is_within_directory_textual (cwd directory target : string) :
  RPMPackager.is_within_directory cwd directory target = true
  ↔ Py.startswith (PosixPath.abspath cwd target) (PosixPath.abspath cwd directory) = true.
Proof.
  unfold RPMPackager.is_within_directory, Py.startswith.
  by rewrite bool_decide_eq_true, commonprefix_prefix.
Qed.

Lemma check_members_Err (cwd path : string) (members : list string) (m : string) :
  m ∈ members →
  RPMPackager.is_within_directory cwd path (PosixPath.join path m) = false →
  RPMPackager.check_members cwd path members
  = Err (PyException "Attempted Path Traversal in Tar File").
Proof.
  intros Hm Hout. induction members as [| m' members IH]; [by apply elem_of_nil in Hm |].
  cbn [RPMPackager.check_members].
  destruct (RPMPackager.is_within_directory cwd path (PosixPath.join path m')) eqn:Hm';
    [| done].
  apply elem_of_cons in Hm as [-> | Hm]; [congruence | by apply IH].
Qed.

(** X18.  In any environment, when one member of the archive fails the test,
    [setup_source] ends with the path-traversal exception after it has
    opened the archive and read its members, and performs nothing else:
    nothing is extracted, and the tarball is not removed. *)
Theorem setup_source_refusal {W : Type} (answer : ∀ X, Op X → W → Res X * W)
    (cwd : string) (self : RPMPackager.t) (tarball tmpdir packagedir srcdir : string)
    (w w1 w2 : W) (members : list string) (m : string) :
  answer _ (TarOpen tarball "r:bz2") w = (Ok (), w1) →
  answer _ (TarGetMembers tarball) w1 = (Ok members, w2) →
  m ∈ members →
  RPMPackager.is_within_directory cwd srcdir (PosixPath.join srcdir m) = false →
  let p := RPMPackager.setup_source cwd self tarball tmpdir packagedir srcdir in
  run answer p w = (Err (PyException "Attempted Path Traversal in Tar File"), w2)
  ∧ trace answer p w
    = [Performed (TarOpen tarball "r:bz2"); Performed (TarGetMembers tarball)].
Proof.
  intros Hopen Hmembers Hm Hout p. subst p.
  pose proof (check_members_Err cwd srcdir members m Hm Hout) as Hcheck.
  unfold RPMPackager.setup_source, RPMPackager.safe_extract.
  cbn. rewrite Hopen. cbn. rewrite Hmembers. cbn. rewrite Hcheck. by cbn.
Qed.

Lemma setup_source_refusal_witness :
  let p := RPMPackager.setup_source "/" (gst_packager fedora_config (IsPackage gst_package))
             "/tmp/out/gstreamer-core-1.0.tar.bz2" "/tmp/build" "/tmp/build/RPMS"
             "/tmp/build/SOURCES" in
  run answer p escaping_world
  = (Err (PyException "Attempted Path Traversal in Tar File"), escaping_world)
  ∧ trace answer p escaping_world
    = [Performed (TarOpen "/tmp/out/gstreamer-core-1.0.tar.bz2" "r:bz2");
       Performed (TarGetMembers "/tmp/out/gstreamer-core-1.0.tar.bz2")].
Proof.
  apply (setup_source_refusal answer "/" _ _ _ _ _ escaping_world escaping_world
           escaping_world
           ["gstreamer-core-1.0/bin/gst-launch-1.0"; "../../etc/passwd"]
           "../../etc/passwd").
  - reflexivity.
  - reflexivity.
  - apply elem_of_cons. right. by apply list_elem_of_singleton.
  - vm_compute. reflexivity.
Defined.

Lemma split_no_sep_inside (sep : ascii) (s w : string) :
  w ∈ Py.split sep s → has_char sep w = false.
Proof.
  revert w. induction s as [| c s IH]; intros w; cbn [Py.split].
  - by intros ->%list_elem_of_singleton.
  - destruct (Ascii.eqb c sep) eqn:Hc.
    + intros [-> | Hw]%elem_of_cons; [done | by apply IH].
    + destruct (Py.split sep s) as [| w0 ws].
      * intros ->%list_elem_of_singleton. cbn [has_char].
        by rewrite Ascii.eqb_sym, Hc.
      * intros [-> | Hw]%elem_of_cons.
        -- cbn [has_char]. rewrite Ascii.eqb_sym, Hc. apply IH. by left.
        -- apply IH. by right.
Qed.

Lemma split_tail_no_slash (p : string) : has_char "/" (PosixPath.split_tail p) = false.
Proof.
  unfold PosixPath.split_tail.
  destruct (last (Py.split "/" p)) as [w |] eqn:Hlast; [| done].
  apply (split_no_sep_inside "/" p). by apply last_Some_elem_of.
Qed.

Lemma substring_no_char (c : ascii) (n : nat) (s : string) :
  has_char c s = false → has_char c (String.substring 0 n s) = false.
Proof.
  revert n. induction s as [| d s IH]; intros n H; [by destruct n |].
  destruct n as [| n]; [done |]. cbn [String.substring has_char] in *.
  apply orb_false_iff in H as [-> H]. by apply IH.
Qed.



(** ** The listing of files, again *)

Lemma append_if_missing (x : string) (l : list string) :
  let l' := if Py.mem x l then l else l ++ [x] in
  l `prefix_of` l'
  ∧ x ∈ l'
  ∧ (∀ y, y ∈ l' → y ∈ l ∨ y = x)
  ∧ (NoDup l → NoDup l').
Proof.
  unfold Py.mem. case_bool_decide as Hx; cbn zeta.
  - split; [done |]. split; [done |]. split; [by left | done].
  - split; [by apply prefix_app_r |].
    split; [apply elem_of_app; right; by apply list_elem_of_singleton |].
    split.
    + intros y [Hy | ->%list_elem_of_singleton]%elem_of_app; auto.
    + intros Hl. apply NoDup_app. split; [done |].
      split; [| apply NoDup_singleton].
      by intros y Hy ->%list_elem_of_singleton.
Qed.

Lemma py_companions_fold (pys acc : list string) :
  let step files f :=
    let files := if Py.mem (f +:+ "c") files then files else files ++ [f +:+ "c"] in
    if Py.mem (f +:+ "o") files then files else files ++ [f +:+ "o"] in
  let listed := fold_left step pys acc in
  acc `prefix_of` listed
  ∧ (∀ f, f ∈ pys → f +:+ "c" ∈ listed ∧ f +:+ "o" ∈ listed)
  ∧ (∀ x, x ∈ listed → x ∈ acc ∨ ∃ f, f ∈ pys ∧ (x = f +:+ "c" ∨ x = f +:+ "o"))
  ∧ (NoDup acc → NoDup listed).
Proof.
  intros step. revert acc. induction pys as [| f pys IH]; intros acc; cbn [fold_left].
  - split; [done |]. split; [by intros f Hf%elem_of_nil |]. split; [by left | done].
  - destruct (IH (step acc f)) as (Hpre & Hin & Hfrom & Hnd).
    assert (acc `prefix_of` step acc f
            ∧ f +:+ "c" ∈ step acc f ∧ f +:+ "o" ∈ step acc f
            ∧ (∀ x, x ∈ step acc f → x ∈ acc ∨ x = f +:+ "c" ∨ x = f +:+ "o")
            ∧ (NoDup acc → NoDup (step acc f))) as (Spre & Sc & So & Sfrom & Snd).
    { pose proof (append_if_missing (f +:+ "c") acc) as (Cpre & Cin & Cfrom & Cnd).
      cbn zeta in *. set (with_c := if Py.mem (f +:+ "c") acc then acc else acc ++ [f +:+ "c"]) in *.
      pose proof (append_if_missing (f +:+ "o") with_c) as (Opre & Oin & Ofrom & Ond).
      cbn zeta in *. change (step acc f)
        with (if Py.mem (f +:+ "o") with_c then with_c else with_c ++ [f +:+ "o"]).
      split; [by etrans |].
      split; [by eapply elem_of_prefix |].
      split; [done |].
      split; [| auto].
      intros x Hx. destruct (Ofrom x Hx) as [Hw | ->]; [| auto].
      destruct (Cfrom x Hw); auto. }
    split; [by etrans |].
    split; [| split].
    + intros g [-> | Hg]%elem_of_cons; [| by apply Hin].
      split; eapply elem_of_prefix; eauto.
    + intros x Hx. destruct (Hfrom x Hx) as [Hs | (g & Hg & Hxg)].
      * destruct (Sfrom x Hs) as [Ha | Hxf]; [by left |].
        right. exists f. split; [by left | done].
      * right. exists g. split; [by right | done].
    + auto.
Qed.

(** X20.  The listing of a package that is not a meta-package names the
    resolved files in their order, then, for every resolved file that ends
    in [.py], the two compiled files with [c] and [o] added to its name,
    which are added only when they are not listed yet; nothing else is
    listed, and no file is listed twice when no resolved file is. *)
Theorem files_string_list_python_companions (K : Enums) (cookbook : CookBook)
    (store : Store Descriptor) (depth : nat) (self : RPMPackager.t)
    (package_type : string) (files : list string) :
  RPMPackager.build_meta_package self = false →
  RPMPackager.PackagerBase_files_list K cookbook store depth self package_type = Ok files →
  ∃ listed,
    RPMPackager._files_string_list K cookbook store depth self package_type
    = Ok (Py.join Py.newline (PosixPath.join "%{prefix}" <$> listed))
    ∧ files `prefix_of` listed
    ∧ (∀ f, f ∈ files → Py.endswith f ".py" = true →
         f +:+ "c" ∈ listed ∧ f +:+ "o" ∈ listed)
    ∧ (∀ x, x ∈ listed →
         x ∈ files
         ∨ ∃ f, f ∈ files ∧ Py.endswith f ".py" = true ∧ (x = f +:+ "c" ∨ x = f +:+ "o"))
    ∧ (NoDup files → NoDup listed).
Proof.
  intros Hmeta Hfiles. unfold RPMPackager._files_string_list.
  rewrite Hmeta, Hfiles. cbn [mbind Res_bind].
  eexists. split; [reflexivity |].
  destruct (py_companions_fold (filter (λ x, Py.endswith x ".py" = true) files) files)
    as (Hpre & Hin & Hfrom & Hnd).
  split; [exact Hpre |]. split; [| split; [| exact Hnd]].
  - intros f Hf Hpy. apply Hin. by apply list_elem_of_filter.
  - intros x Hx. destruct (Hfrom x Hx) as [Ha | (f & [Hpy Hf]%list_elem_of_filter & Hxf)];
      [by left | right; eauto].
Qed.

Lemma files_string_list_python_companions_witness :
  let files := ["bin/gi"; "lib/python/gi.py"; "lib/python/gi.pyc"] in
  ∃ listed,
    RPMPackager._files_string_list cerbero_enums python_cookbook gst_store 3
      (gst_packager fedora_config (IsApp python_app)) ""
    = Ok (Py.join Py.newline (PosixPath.join "%{prefix}" <$> listed))
    ∧ files `prefix_of` listed
    ∧ (∀ f, f ∈ files → Py.endswith f ".py" = true →
         f +:+ "c" ∈ listed ∧ f +:+ "o" ∈ listed)
    ∧ (∀ x, x ∈ listed →
         x ∈ files
         ∨ ∃ f, f ∈ files ∧ Py.endswith f ".py" = true ∧ (x = f +:+ "c" ∨ x = f +:+ "o"))
    ∧ (NoDup files → NoDup listed).
Proof.
  apply (files_string_list_python_companions cerbero_enums python_cookbook gst_store 3
           (gst_packager fedora_config (IsApp python_app)) "");
    [reflexivity | vm_compute; reflexivity].
Defined.

Example files_string_list_python_listing :
  RPMPackager._files_string_list cerbero_enums python_cookbook gst_store 3
    (gst_packager fedora_config (IsApp python_app)) ""
  = Ok (Py.join Py.newline
          ["%{prefix}/bin/gi"; "%{prefix}/lib/python/gi.py"; "%{prefix}/lib/python/gi.pyc";
           "%{prefix}/lib/python/gi.pyo"]).
Proof. vm_compute. reflexivity. Qed.

(** ** The requirement lines *)

Lemma format1_REQUIRE_TPL (name : string) :
  PyFormat.format1 RPMPackager.REQUIRE_TPL name = "Requires: " +:+ name +:+ Py.newline.
Proof. reflexivity. Qed.

Lemma concat_empty_sep (l : list string) :
  String.concat "" l = fold_right String.append "" l.
Proof.
  induction l as [| a [| b l] IH]; [done | by cbn; rewrite append_nil_r |].
  change (String.concat "" (a :: b :: l)) with (a +:+ "" +:+ String.concat "" (b :: l)).
  by rewrite IH.
Qed.

Lemma fold_left_append (g : string → string) (l : list string) (acc : string) :
  fold_left (λ x y, x +:+ g y) l acc = acc +:+ String.concat "" (g <$> l).
Proof.
  rewrite concat_empty_sep. revert acc.
  induction l as [| a l IH]; intros acc; cbn [fold_left fmap list_fmap fold_right].
  - by rewrite append_nil_r.
  - by rewrite IH, append_assoc.
Qed.

(** X21.  [_get_requires] and [_get_meta_requires] render one line
    [Requires: name] for each name, in order and with nothing between the
    lines: the first for the names of [get_requires], the second for the
    required and the recommended packages of [get_meta_requires], whose
    suggested packages it leaves out; an exception of the inherited method
    goes through. *)
Theorem requires_lines (K : Enums) (linux : RPMPackager.LinuxPackager)
    (self : RPMPackager.t) (package_type : string) :
  let devel_suffix := if bool_decide (package_type = DEVEL K) then "-devel" else "" in
  let line name := "Requires: " +:+ name +:+ Py.newline in
  match RPMPackager.get_requires linux package_type devel_suffix with
  | Ok deps =>
      RPMPackager._get_requires K linux self package_type
      = Ok (String.concat "" (line <$> deps))
  | Err e => RPMPackager._get_requires K linux self package_type = Err e
  end
  ∧ match RPMPackager.get_meta_requires linux package_type devel_suffix with
    | Ok (requires, recommends, suggests) =>
        RPMPackager._get_meta_requires K linux self package_type
        = Ok (String.concat "" (line <$> requires ++ recommends))
    | Err e => RPMPackager._get_meta_requires K linux self package_type = Err e
    end.
Proof.
  intros devel_suffix line.
  unfold RPMPackager._get_requires, RPMPackager._get_meta_requires. fold devel_suffix.
  split.
  - destruct (RPMPackager.get_requires linux package_type devel_suffix) as [deps |];
      [| done].
    cbn [mbind Res_bind]. by rewrite fold_left_append.
  - destruct (RPMPackager.get_meta_requires linux package_type devel_suffix)
      as [[[requires recommends] suggests] |]; done.
Qed.

(** ** The prepare stage, again *)

Lemma truthy_app_r (a b : string) : Py.truthy b = true → Py.truthy (a +:+ b) = true.
Proof. destruct a; [done |]. by rewrite append_cons. Qed.

(** What a call of [prepare] that returns has computed. *)
Lemma prepare_Ok_inv (K : Enums) (cookbook : CookBook) (store : Store Descriptor)
    (depth : nat) (linux : RPMPackager.LinuxPackager) (cwd : string)
    (fs fs' : gmap string string) (self self' : RPMPackager.t)
    (tarname tmpdir packagedir srcdir : string) :
  RPMPackager.prepare K cookbook store depth linux cwd fs self tarname tmpdir packagedir srcdir
  = Ok (self', fs') →
  ∃ runtime_files devel_package devel_files has_devel_package doc,
    match RPMPackager._files_string_list K cookbook store depth self (RUNTIME K) with
    | Err EmptyPackageError => Ok ""
    | r => r
    end = Ok runtime_files
    ∧ (if RPMPackager.devel self
       then RPMPackager._devel_package_and_files K cookbook store depth linux self
       else Ok ("", ""))
      = Ok (devel_package, devel_files)
    ∧ has_devel_package
      = (if RPMPackager.build_meta_package self then true else Py.truthy devel_files)
    ∧ self'
      = RPMPackager.prepared self
          (Py.truthy
             (if Py.mem (RPMPackager.install_dir self) ["/usr"; "/usr/local"]
              then runtime_files
              else runtime_files +:+ Py.newline
                   +:+ PosixPath.join (RPMPackager.install_dir self) "")
           || RPMPackager.build_meta_package self)
          has_devel_package doc
          (PosixPath.join tmpdir
             (PackageBase.getattribute_name (RPMPackager.base_of (RPMPackager.package self))
              +:+ ".spec"))
    ∧ fs'
      = <[PosixPath.join tmpdir
            (PackageBase.getattribute_name (RPMPackager.base_of (RPMPackager.package self))
             +:+ ".spec") := doc]> fs.
Proof.
  intros Hprep. unfold RPMPackager.prepare in Hprep.
  inv_bind Hprep as runtime_files Hruntime.
  inv_bind Hprep as dd Hdd. destruct dd as [devel_package devel_files].
  inv_bind Hprep as chosen Hchosen. destruct chosen as [[template requires] has_devel].
  inv_bind Hprep as licenses _H. clear _H.
  inv_bind Hprep as provides _H. clear _H.
  inv_bind Hprep as conflicts _H. clear _H.
  inv_bind Hprep as obsoletes _H. clear _H.
  inv_bind Hprep as scripts1 _H. clear _H.
  inv_bind Hprep as scripts2 _H. clear _H.
  inv_bind Hprep as scripts3 _H. clear _H.
  inv_bind Hprep as scripts _H. clear _H.
  inv_bind Hprep as spec_str _H. clear _H.
  injection Hprep as <- <-.
  exists runtime_files, devel_package, devel_files, has_devel, spec_str.
  split; [exact Hruntime |]. split; [exact Hdd |]. split; [| split; reflexivity].
  destruct (RPMPackager.build_meta_package self).
  - inv_bind Hchosen as r _H. by injection Hchosen as _ _ <-.
  - inv_bind Hchosen as r _H. by injection Hchosen as _ _ <-.
Qed.

(** X22.  A call of [prepare] that returns has written one file, the spec
    file named after the package in the top directory, with the document it
    keeps in [_spec_str], and left every other file as it was; on the
    packager it has set the document, the path of the spec file and the two
    package flags, and nothing else. *)
Theorem prepare_writes_the_spec_file (K : Enums) (cookbook : CookBook)
    (store : Store Descriptor) (depth : nat) (linux : RPMPackager.LinuxPackager)
    (cwd : string) (fs fs' : gmap string string) (self self' : RPMPackager.t)
    (tarname tmpdir packagedir srcdir : string) :
  RPMPackager.prepare K cookbook store depth linux cwd fs self tarname tmpdir packagedir srcdir
  = Ok (self', fs') →
  let path :=
    PosixPath.join tmpdir
      (PackageBase.getattribute_name (RPMPackager.base_of (RPMPackager.package self))
       +:+ ".spec") in
  ∃ has_runtime_package has_devel_package doc,
    self' = RPMPackager.prepared self has_runtime_package has_devel_package doc path
    ∧ fs' !! path = Some doc
    ∧ ∀ other, other ≠ path → fs' !! other = fs !! other.
Proof.
  intros (rf & dp & df & hd & doc & _ & _ & _ & -> & ->)%prepare_Ok_inv path.
  eexists _, hd, doc. split; [reflexivity |].
  split; [apply lookup_insert_eq |].
  intros other Hother. by apply lookup_insert_ne.
Qed.

Lemma prepare_writes_the_spec_file_witness :
  ∃ has_runtime_package has_devel_package doc,
    prepared_player.1
    = RPMPackager.prepared player_packager has_runtime_package has_devel_package doc
        "/tmp/build/gstreamer-core.spec"
    ∧ prepared_player.2 !! "/tmp/build/gstreamer-core.spec" = Some doc
    ∧ ∀ other, other ≠ "/tmp/build/gstreamer-core.spec" →
        prepared_player.2 !! other = (∅ : gmap string string) !! other.
Proof.
  apply (prepare_writes_the_spec_file cerbero_enums gst_cookbook gst_store 3 gst_linux "/" ∅
           prepared_player.2 player_packager prepared_player.1 "player-1.0.tar" "/tmp/build"
           "/tmp/build/RPMS" "/tmp/build/SOURCES").
  vm_compute. reflexivity.
Defined.

(** X23.  The flags [prepare] leaves on the package.  The package has a
    runtime package when it is built as a meta-package, or is installed
    outside [/usr] and [/usr/local] (the installation directory is then one
    more line of the listing), or has a runtime file to list.  It has a devel
    package when it is built as a meta-package, or is prepared with [devel]
    and the listing of its devel files returns: the block that opens with
    [%files devel] is never empty. *)
Theorem prepare_package_flags (K : Enums) (cookbook : CookBook)
    (store : Store Descriptor) (depth : nat) (linux : RPMPackager.LinuxPackager)
    (cwd : string) (fs fs' : gmap string string) (self self' : RPMPackager.t)
    (tarname tmpdir packagedir srcdir : string) :
  RPMPackager.prepare K cookbook store depth linux cwd fs self tarname tmpdir packagedir srcdir
  = Ok (self', fs') →
  RPMPackager.has_runtime_package self'
  = Some (RPMPackager.build_meta_package self
          || negb (Py.mem (RPMPackager.install_dir self) ["/usr"; "/usr/local"])
          || match RPMPackager._files_string_list K cookbook store depth self (RUNTIME K) with
             | Ok listing => Py.truthy listing
             | Err _ => false
             end)
  ∧ RPMPackager.has_devel_package self'
    = Some (RPMPackager.build_meta_package self
            || RPMPackager.devel self
               && match RPMPackager._files_string_list K cookbook store depth self (DEVEL K)
                  with
                  | Ok _ => true
                  | Err _ => false
                  end).
Proof.
  intros (rf & dp & df & hd & doc & Hruntime & Hdd & -> & -> & ->)%prepare_Ok_inv.
  cbn [RPMPackager.prepared RPMPackager.has_runtime_package RPMPackager.has_devel_package].
  split; f_equal.
  - destruct (RPMPackager.build_meta_package self); [by rewrite orb_true_r |].
    rewrite orb_false_r, orb_false_l.
    destruct (Py.mem (RPMPackager.install_dir self) ["/usr"; "/usr/local"]).
    + cbn [negb orb].
      destruct (RPMPackager._files_string_list K cookbook store depth self (RUNTIME K))
        as [listing | e]; [by injection Hruntime as -> |].
      destruct e; try discriminate. by injection Hruntime as <-.
    + cbn [negb orb]. by rewrite truthy_app_r.
  - destruct (RPMPackager.build_meta_package self); [done |]. rewrite orb_false_l.
    destruct (RPMPackager.devel self); [| by injection Hdd as _ <-].
    apply devel_package_and_files_slot in Hdd. rewrite andb_true_l.
    destruct (RPMPackager._files_string_list K cookbook store depth self (DEVEL K))
      as [listing | e]; [by rewrite Hdd | by destruct Hdd as [_ ->]].
Qed.

Lemma prepare_package_flags_witness :
  (RPMPackager.has_runtime_package prepared_player.1 = Some true
   ∧ RPMPackager.has_devel_package prepared_player.1 = Some false)
  ∧ (RPMPackager.has_runtime_package prepared_sdk.1 = Some true
     ∧ RPMPackager.has_devel_package prepared_sdk.1 = Some true).
Proof.
  split.
  - destruct (prepare_package_flags cerbero_enums gst_cookbook gst_store 3 gst_linux "/" ∅
                prepared_player.2 player_packager prepared_player.1 "player-1.0.tar"
                "/tmp/build" "/tmp/build/RPMS" "/tmp/build/SOURCES")
      as [Hruntime Hdevel]; [vm_compute; reflexivity |].
    split; [rewrite Hruntime | rewrite Hdevel]; vm_compute; reflexivity.
  - destruct (prepare_package_flags cerbero_enums gst_cookbook gst_store 3 gst_linux "/" ∅
                prepared_sdk.2 sdk_packager prepared_sdk.1 "sdk-1.0.tar"
                "/tmp/build" "/tmp/build/RPMS" "/tmp/build/SOURCES")
      as [Hruntime Hdevel]; [vm_compute; reflexivity |].
    split; [rewrite Hruntime | rewrite Hdevel]; vm_compute; reflexivity.
Defined.

(** ** The build stage, again *)

Lemma run_bind {W A B} (answer : ∀ X, Op X → W → Res X * W) (p : Prog A)
    (f : A → Prog B) (w : W) :
  run answer (p ≫= f) w
  = match run answer p w with
    | (Ok a, w') => run answer (f a) w'
    | (Err e, w') => (Err e, w')
    end.
Proof.
  revert w. induction p as [a | e | X op k IH]; intros w; [done.. |].
  change (run answer (Do op k ≫= f) w)
    with (match answer _ op w with
          | (Ok x, w') => run answer (k x ≫= f) w'
          | (Err e, w') => (Err e, w')
          end).
  cbn [run]. destruct (answer X op w) as [[x | e] w']; [apply IH | done].
Qed.

Lemma listings_bind {W A B} (answer : ∀ X, Op X → W → Res X * W) (p : Prog A)
    (f : A → Prog B) (w : W) :
  listings answer (p ≫= f) w
  = listings answer p w
    ++ match run answer p w with
       | (Ok a, w') => listings answer (f a) w'
       | (Err _, _) => []
       end.
Proof.
  revert w. induction p as [a | e | X op k IH]; intros w; [done.. |].
  change (listings answer (Do op k ≫= f) w)
    with (match answer _ op w with
          | (Ok x, w') => listing_of op x ++ listings answer (k x ≫= f) w'
          | (Err _, _) => []
          end).
  cbn [run listings]. destruct (answer X op w) as [[x | e] w']; [| done].
  by rewrite IH, app_assoc.
Qed.

Lemma run_for_each_cons {W A S} (answer : ∀ X, Op X → W → Res X * W) (x : A)
    (l : list A) (body : A → S → Prog S) (s : S) (w : W) :
  run answer (for_each (x :: l) body s) w
  = match run answer (body x s) w with
    | (Ok s', w') => run answer (for_each l body s') w'
    | (Err e, w') => (Err e, w')
    end.
Proof. apply run_bind. Qed.

Lemma listings_for_each_cons {W A S} (answer : ∀ X, Op X → W → Res X * W) (x : A)
    (l : list A) (body : A → S → Prog S) (s : S) (w : W) :
  listings answer (for_each (x :: l) body s) w
  = listings answer (body x s) w
    ++ match run answer (body x s) w with
       | (Ok s', w') => listings answer (for_each l body s') w'
       | (Err _, _) => []
       end.
Proof. apply listings_bind. Qed.

(** The loop of [build] over the files of one directory: it lists no
    directory, and when it ends it has added the files, joined to the output
    directory, to the paths. *)
Lemma build_moves_files {W : Type} (answer : ∀ X, Op X → W → Res X * W)
    (output_dir dir : string) (fs paths : list string) (w : W) :
  let loop :=
    for_each fs
      (λ f paths,
         let out_path := PosixPath.join output_dir f in
         e ← call (PathExists out_path);
         _ ← (if e : bool then call (OsRemove out_path) else Ret ());
         _ ← call (Move (PosixPath.join dir f) output_dir);
         Ret (paths ++ [out_path]))
      paths in
  listings answer loop w = []
  ∧ ∀ paths' w', run answer loop w = (Ok paths', w') →
      paths' = paths ++ (PosixPath.join output_dir <$> fs).
Proof.
  cbv zeta. revert paths w. induction fs as [| f fs IH]; intros paths w.
  - split; [done |]. intros paths' w' [= <- _]. by rewrite app_nil_r.
  - rewrite listings_for_each_cons, run_for_each_cons.
    cbn [call mbind Prog_bind Prog_bind_def run listings listing_of app].
    destruct (answer bool (PathExists (PosixPath.join output_dir f)) w)
      as [[exists_ | ?] w0]; [| by split].
    assert (∀ w1, listings answer (if exists_ then call (OsRemove (PosixPath.join output_dir f))
                                    else Ret ()) w1 = []) as Hremove.
    { intros w1. destruct exists_; cbn; [| done]. by destruct (answer _ _ w1) as [[[] | ?] ?]. }
    destruct exists_.
    + cbn [call mbind Prog_bind Prog_bind_def run listings listing_of app].
      destruct (answer unit (OsRemove (PosixPath.join output_dir f)) w0)
        as [[[] | ?] w1]; [| by split].
      cbn [call mbind Prog_bind Prog_bind_def run listings listing_of app].
      destruct (answer unit (Move (PosixPath.join dir f) output_dir) w1)
        as [[[] | ?] w2]; [| by split].
      cbn [call mbind Prog_bind Prog_bind_def run listings listing_of app].
      destruct (IH (paths ++ [PosixPath.join output_dir f]) w2) as [IHnone IHrun].
      split; [exact IHnone |].
      intros paths' w' Hloop. rewrite (IHrun paths' w' Hloop). by rewrite <- app_assoc.
    + cbn [call mbind Prog_bind Prog_bind_def run listings listing_of app].
      destruct (answer unit (Move (PosixPath.join dir f) output_dir) w0)
        as [[[] | ?] w2]; [| by split].
      cbn [call mbind Prog_bind Prog_bind_def run listings listing_of app].
      destruct (IH (paths ++ [PosixPath.join output_dir f]) w2) as [IHnone IHrun].
      split; [exact IHnone |].
      intros paths' w' Hloop. rewrite (IHrun paths' w' Hloop). by rewrite <- app_assoc.
Qed.

(** The loop of [build] over the directories of the packages. *)
Lemma build_lists_directories {W : Type} (answer : ∀ X, Op X → W → Res X * W)
    (output_dir packagedir : string) (ds paths paths' : list string) (w w' : W) :
  let loop :=
    for_each ds
      (λ d paths,
         fs ← call (ListDir (PosixPath.join packagedir d));
         for_each fs
           (λ f paths,
              let out_path := PosixPath.join output_dir f in
              e ← call (PathExists out_path);
              _ ← (if e : bool then call (OsRemove out_path) else Ret ());
              _ ← call (Move (PosixPath.join (PosixPath.join packagedir d) f) output_dir);
              Ret (paths ++ [out_path]))
           paths)
      paths in
  run answer loop w = (Ok paths', w') →
  ∃ fss,
    length fss = length ds
    ∧ listings answer loop w = zip (PosixPath.join packagedir <$> ds) fss
    ∧ paths' = paths ++ (PosixPath.join output_dir <$> concat fss).
Proof.
  cbv zeta. revert paths w. induction ds as [| d ds IH]; intros paths w.
  - intros [= <- _]. exists []. by rewrite app_nil_r.
  - rewrite listings_for_each_cons, run_for_each_cons.
    rewrite listings_bind, run_bind. cbn [call run listings listing_of].
    destruct (answer _ (ListDir (PosixPath.join packagedir d)) w) as [[fs | e] w0];
      [| done].
    destruct (build_moves_files answer output_dir (PosixPath.join packagedir d) fs paths w0)
      as [Hnone Hmoved]. cbv zeta in Hnone, Hmoved.
    cbn [app]. rewrite Hnone. cbn [app].
    match goal with
    | |- context [run answer ?loop w0] =>
        destruct (run answer loop w0) as [[s | e] w1] eqn:Hrun; [| done]
    end.
    rewrite (Hmoved s w1 eq_refl). intros Hloop.
    destruct (IH _ w1 Hloop) as (fss & Hlen & Hlist & ->).
    exists (fs :: fss). split; [cbn [length]; by rewrite Hlen |].
    split; [by rewrite Hlist |].
    cbn [concat]. by rewrite fmap_app, app_assoc.
Qed.



Example build_lists_the_architecture_directory :
  listings answer_after_rpmbuild
    (RPMPackager.build cerbero_enums player_packager "/out" "t.tar" "/tmp/build"
       "/tmp/build/RPMS" "/tmp/build/SOURCES")
    {| archives := ∅; written := []; commands := [] |}
  = [("/tmp/build/RPMS", ["x86_64"]);
     ("/tmp/build/RPMS/x86_64",
      ["gstreamer-core-1.0-1.x86_64.rpm"; "gstreamer-core-devel-1.0-1.x86_64.rpm"])].
Proof. vm_compute. reflexivity. Qed.

(** ** Templates and their substitution contexts *)

(** On a template of literal text, doubled percent signs and [%(key)s]
    fields, the operator [%] does what [PyFormat.render] does with the
    pieces of the template. *)
Lemma format_from_segments (d : PyFormat.Dict) (s : string) :
  (∀ segs args avail,
     PyFormat.segments_from PyFormat.PText s = Some segs →
     PyFormat.format_from d PyFormat.Text args avail s = PyFormat.render d segs)
  ∧ (∀ segs args avail,
       PyFormat.segments_from PyFormat.PPercent s = Some segs →
       PyFormat.format_from d PyFormat.Percent args avail s = PyFormat.render d segs)
  ∧ (∀ acc segs args avail,
       PyFormat.segments_from (PyFormat.PKey acc) s = Some segs →
       PyFormat.format_from d (PyFormat.Key 0 acc) args avail s = PyFormat.render d segs)
  ∧ (∀ key segs,
       PyFormat.segments_from (PyFormat.PConv key) s = Some segs →
       match PyFormat.dict_get d key with
       | Some v =>
           PyFormat.format_from d (PyFormat.Flags PyFormat.conv0) (PyFormat.Value v) true s
           = PyFormat.render d segs
       | None => PyFormat.render d segs = Err (KeyError key)
       end).
Proof.
  induction s as [| c s (IHtext & IHpercent & IHkey & IHconv)].
  - repeat split; intros; simplify_eq/=; try done.
  - repeat split.
    + intros segs args avail H. cbn [PyFormat.segments_from] in H.
      cbn [PyFormat.format_from PyFormat.step].
      destruct (Ascii.eqb c "%"); [by apply IHpercent |].
      destruct (PyFormat.segments_from PyFormat.PText s) as [segs' |] eqn:Hs;
        simplify_eq/=.
      by rewrite (IHtext segs').
    + intros segs args avail H. cbn [PyFormat.segments_from] in H.
      cbn [PyFormat.format_from PyFormat.step].
      destruct (Ascii.eqb_spec c "%") as [-> | Hc].
      * destruct (PyFormat.segments_from PyFormat.PText s) as [segs' |] eqn:Hs;
          simplify_eq/=.
        by rewrite (IHtext segs').
      * destruct (Ascii.eqb_spec c "(") as [-> | Hc']; [| done].
        by apply IHkey.
    + intros acc segs args avail H. cbn [PyFormat.segments_from] in H.
      cbn [PyFormat.format_from PyFormat.step].
      destruct (Ascii.eqb c ")").
      * specialize (IHconv acc segs H).
        destruct (PyFormat.dict_get d acc) as [v |]; [done |].
        by rewrite IHconv.
      * destruct (Ascii.eqb c "("); [done |]. by apply IHkey.
    + intros key segs H. cbn [PyFormat.segments_from] in H.
      destruct (Ascii.eqb_spec c "s") as [-> | Hc]; [| done].
      destruct (PyFormat.segments_from PyFormat.PText s) as [segs' |] eqn:Hs;
        simplify_eq/=.
      destruct (PyFormat.dict_get d key) as [v |]; [| done].
      by rewrite (IHtext segs').
Qed.

Lemma format_segments (template : string) (segs : list PyFormat.Segment) (d : PyFormat.Dict) :
  PyFormat.segments template = Some segs →
  PyFormat.format template d = PyFormat.render d segs.
Proof. intros H. by apply format_from_segments. Qed.

Lemma render_returns (d : PyFormat.Dict) (segs : list PyFormat.Segment) :
  (∃ s, PyFormat.render d segs = Ok s)
  ↔ Forall (λ key, is_Some (PyFormat.dict_get d key)) (PyFormatKeys.fields segs).
Proof.
  induction segs as [| seg segs IH]; cbn [PyFormat.render PyFormatKeys.fields].
  - split; [constructor | by eexists].
  - destruct seg as [c | key]; cbn [PyFormat.render_segment mbind Res_bind].
    + rewrite <- IH. split.
      * intros [s Hs]. destruct (PyFormat.render d segs); [by eexists | done].
      * intros [s ->]. by eexists.
    + rewrite Forall_cons, <- IH. split.
      * intros [s Hs]. destruct (PyFormat.dict_get d key); [| done]. split; [by eexists |].
        destruct (PyFormat.render d segs); [by eexists | done].
      * intros [[v ->] [s ->]]. by eexists.
Qed.

Lemma format_returns (template : string) (keys : list string) (d : PyFormat.Dict) :
  PyFormatKeys.placeholders template = Some keys →
  (∃ s, PyFormat.format template d = Ok s)
  ↔ Forall (λ key, is_Some (PyFormat.dict_get d key)) keys.
Proof.
  unfold PyFormatKeys.placeholders.
  destruct (PyFormat.segments template) as [segs |] eqn:Hsegs; [| done].
  intros [= <-]. rewrite (format_segments template segs d Hsegs). apply render_returns.
Qed.

Lemma SPEC_TPL_placeholders :
  PyFormatKeys.placeholders RPMPackager.SPEC_TPL
  = Some ["topdir"; "package_name"; "p_prefix"; "name"; "version"; "summary"; "source";
        "licenses"; "prefix"; "packager"; "vendor"; "url"; "requires";
        "provides_conflicts_obsoletes"; "description"; "devel_package"; "sources_dir";
        "scripts"; "files"; "devel_files"].
Proof. vm_compute. reflexivity. Qed.

Lemma META_SPEC_TPL_placeholders :
  PyFormatKeys.placeholders RPMPackager.META_SPEC_TPL
  = Some ["topdir"; "package_name"; "p_prefix"; "name"; "version"; "summary";
        "licenses"; "packager"; "vendor"; "url"; "requires"; "description";
        "devel_package"; "devel_files"].
Proof. vm_compute. reflexivity. Qed.

Lemma DEVEL_PACKAGE_TPL_placeholders :
  PyFormatKeys.placeholders RPMPackager.DEVEL_PACKAGE_TPL
  = Some ["requires"; "summary"; "provides_conflicts_obsoletes"; "description"].
Proof. vm_compute. reflexivity. Qed.

Lemma bind_Ok {A B} (r : Res A) (f : A → Res B) (a : A) : r = Ok a → r ≫= f = f a.
Proof. by intros ->. Qed.

(** X27.  [_devel_package_and_files] returns whenever the requirement
    lines and the three relations of the package for the devel package on
    Red Hat resolve and the listing of the devel files returns or signals an
    empty package: the context it builds defines every placeholder of
    [DEVEL_PACKAGE_TPL], so the rendering of the template cannot fail. *)
Theorem devel_package_and_files_returns (K : Enums) (cookbook : CookBook)
    (store : Store Descriptor) (depth : nat) (linux : RPMPackager.LinuxPackager)
    (self : RPMPackager.t) (requires : string) (provides conflicts obsoletes : list string) :
  (if RPMPackager.build_meta_package self
   then RPMPackager._get_meta_requires K linux self (DEVEL K)
   else RPMPackager._get_requires K linux self (DEVEL K)) = Ok requires →
  RPMPackager.lookup2 (RPMPackager.provides self) (REDHAT K) (DEVEL K) = Ok provides →
  RPMPackager.lookup2 (RPMPackager.conflicts self) (REDHAT K) (DEVEL K) = Ok conflicts →
  RPMPackager.lookup2 (RPMPackager.replaces_obsoletes self) (REDHAT K) (DEVEL K)
  = Ok obsoletes →
  (∀ e, RPMPackager._files_string_list K cookbook store depth self (DEVEL K) = Err e →
        e = EmptyPackageError) →
  ∃ devel_package devel_files,
    RPMPackager._devel_package_and_files K cookbook store depth linux self
    = Ok (devel_package, devel_files).
Proof.
  intros Hrequires Hprovides Hconflicts Hobsoletes Hfiles.
  unfold RPMPackager._devel_package_and_files.
  rewrite Hrequires, Hprovides, Hconflicts, Hobsoletes. cbn [mbind Res_bind].
  destruct (RPMPackager._files_string_list K cookbook store depth self (DEVEL K))
    as [listing | e]; [| rewrite (Hfiles e eq_refl)]; cbn [mbind Res_bind].
  all: match goal with
       | |- context [PyFormat.format RPMPackager.DEVEL_PACKAGE_TPL ?d] =>
           destruct (proj2 (format_returns _ _ d DEVEL_PACKAGE_TPL_placeholders))
             as [text ->];
           [repeat constructor; by eexists | by eexists _, _]
       end.
Qed.

Lemma devel_package_and_files_returns_witness :
  ∃ devel_package devel_files,
    RPMPackager._devel_package_and_files cerbero_enums gst_cookbook gst_store 3 gst_linux
      player_packager
    = Ok (devel_package, devel_files).
Proof.
  apply (devel_package_and_files_returns cerbero_enums gst_cookbook gst_store 3 gst_linux
           player_packager
           ("Requires: glib2-devel" +:+ Py.newline) [] [] []).
  - vm_compute. reflexivity.
  - reflexivity.
  - reflexivity.
  - reflexivity.
  - intros e H. vm_compute in H. by injection H as <-.
Defined.

(** X28.  [prepare] returns whenever its inputs resolve: the listing of
    the runtime files returns or signals an empty package, the devel part
    (when asked for), the requirement lines, the licenses of the recipes
    (for a package that is not a meta-package) and the three relations of
    the package for the runtime package on Red Hat resolve, and the three
    script resources are set and name no existing file.  The context it
    builds defines every placeholder of [SPEC_TPL] and of [META_SPEC_TPL],
    so the rendering of the spec cannot fail. *)
Theorem prepare_returns (K : Enums) (cookbook : CookBook) (store : Store Descriptor)
    (depth : nat) (linux : RPMPackager.LinuxPackager) (cwd : string)
    (fs : gmap string string) (self : RPMPackager.t)
    (tarname tmpdir packagedir srcdir : string)
    (devel_part : string * string) (requires : string)
    (provides conflicts obsoletes : list string) :
  let pkg := RPMPackager.base_of (RPMPackager.package self) in
  let no_script (resource : option string) :=
    ∃ name, resource = Some name ∧ fs !! PackageBase.relative_path cwd pkg name = None in
  (∀ e, RPMPackager._files_string_list K cookbook store depth self (RUNTIME K) = Err e →
        e = EmptyPackageError) →
  (if RPMPackager.devel self
   then RPMPackager._devel_package_and_files K cookbook store depth linux self
   else Ok ("", "")) = Ok devel_part →
  (if RPMPackager.build_meta_package self
   then RPMPackager._get_meta_requires K linux self (RUNTIME K)
   else RPMPackager._get_requires K linux self (RUNTIME K)) = Ok requires →
  (RPMPackager.build_meta_package self = false →
     ∃ licenses, RPMPackager.recipes_licenses linux = Ok licenses) →
  RPMPackager.lookup2 (RPMPackager.provides self) (REDHAT K) (RUNTIME K) = Ok provides →
  RPMPackager.lookup2 (RPMPackager.conflicts self) (REDHAT K) (RUNTIME K) = Ok conflicts →
  RPMPackager.lookup2 (RPMPackager.replaces_obsoletes self) (REDHAT K) (RUNTIME K)
  = Ok obsoletes →
  no_script (PackageBase.resources_preinstall pkg) →
  no_script (PackageBase.resources_postinstall pkg) →
  no_script (PackageBase.resources_postremove pkg) →
  ∃ self' fs',
    RPMPackager.prepare K cookbook store depth linux cwd fs self
      tarname tmpdir packagedir srcdir
    = Ok (self', fs').
Proof.
  intros pkg no_script Hfiles Hdevel Hrequires Hlicenses Hprovides Hconflicts Hobsoletes
    (pre & Hpre & Hnopre) (post & Hpost & Hnopost) (postun & Hpostun & Hnopostun).
  unfold RPMPackager.prepare. fold pkg.
  rewrite Hdevel, Hprovides, Hconflicts, Hobsoletes, Hpre, Hpost, Hpostun.
  unfold PackageBase.getattribute_resources. cbn [fmap option_fmap option_map].
  rewrite Hnopre, Hnopost, Hnopostun.
  destruct devel_part as [devel_package devel_files].
  destruct (RPMPackager._files_string_list K cookbook store depth self (RUNTIME K))
    as [listing | e]; [| rewrite (Hfiles e eq_refl)]; cbn [mbind Res_bind].
  all: destruct (RPMPackager.build_meta_package self).
  all: rewrite Hrequires; cbn [mbind Res_bind].
  all: try (destruct (Hlicenses eq_refl) as [licenses ->]; cbn [mbind Res_bind]).
  all: change (PyFormat.format "" ?d) with (@Ok string ""); cbn [mbind Res_bind].
  all: match goal with
       | |- context [PyFormat.format RPMPackager.SPEC_TPL ?d] =>
           destruct (proj2 (format_returns _ _ d SPEC_TPL_placeholders)) as [text ->]
       | |- context [PyFormat.format RPMPackager.META_SPEC_TPL ?d] =>
           destruct (proj2 (format_returns _ _ d META_SPEC_TPL_placeholders)) as [text ->]
       end.
  all: try by eexists _, _.
  all: repeat constructor; by eexists.
Qed.

Lemma prepare_returns_witness :
  ∃ self' fs',
    RPMPackager.prepare cerbero_enums gst_cookbook gst_store 3 gst_linux "/" ∅
      player_packager
      "player-1.0.tar" "/tmp/build" "/tmp/build/RPMS" "/tmp/build/SOURCES"
    = Ok (self', fs').
Proof.
  apply (prepare_returns cerbero_enums gst_cookbook gst_store 3 gst_linux "/" ∅
           player_packager
           "player-1.0.tar" "/tmp/build" "/tmp/build/RPMS" "/tmp/build/SOURCES"
           (match RPMPackager._devel_package_and_files cerbero_enums gst_cookbook gst_store 3
                    gst_linux player_packager
            with Ok dd => dd | Err _ => ("", "") end)
           ("Requires: glib2" +:+ Py.newline) [] [] []).
  - intros e. vm_compute. discriminate.
  - vm_compute. reflexivity.
  - vm_compute. reflexivity.
  - intros _. by eexists.
  - reflexivity.
  - reflexivity.
  - reflexivity.
  - exists "preinstall". split; reflexivity.
  - exists "postinstall". split; reflexivity.
  - exists "postremove". split; reflexivity.
Defined.

(** ** The depth of calls *)

Lemma mapM_res_Ok_mono {A B} (f g : A → Res B) (l : list A) (ys : list B) :
  (∀ x y, f x = Ok y → g x = Ok y) → mapM_res f l = Ok ys → mapM_res g l = Ok ys.
Proof.
  intros Hfg. revert ys. induction l as [| a l IH]; intros ys H; [done |].
  cbn [mapM_res] in *. inv_bind H as y Hy. inv_bind H as ys' Hys. injection H as <-.
  by rewrite (Hfg _ _ Hy), (IH _ Hys).
Qed.

Lemma recipes_dependencies_S (store : Store Descriptor) (depth : nat) (d : Descriptor)
    (deps : list string) :
  recipes_dependencies store depth d = Ok deps →
  recipes_dependencies store (S depth) d = Ok deps.
Proof.
  revert d deps. induction depth as [| depth IH]; intros d deps H; [done |].
  assert (∀ name ds,
            (p ← attr (get_package store name); recipes_dependencies store depth p) = Ok ds →
            (p ← attr (get_package store name); recipes_dependencies store (S depth) p)
            = Ok ds) as Hnamed.
  { intros name ds Hn. destruct (get_package store name) as [p |]; [| done]. by apply IH. }
  destruct d as [p | p app | m | a].
  - change (Package.recipes_dependencies store (recipes_dependencies store depth) p
            = Ok deps) in H.
    change (Package.recipes_dependencies store (recipes_dependencies store (S depth)) p
            = Ok deps).
    unfold Package.recipes_dependencies in *.
    inv_bind H as fs Hfs. inv_bind H as fds Hfds. inv_bind H as more Hmore.
    rewrite Hfs, Hfds. cbn [mbind Res_bind].
    by rewrite (mapM_res_Ok_mono _ _ _ _ Hnamed Hmore).
  - exact H.
  - change (MetaPackage.recipes_dependencies store (recipes_dependencies store depth) m
            = Ok deps) in H.
    change (MetaPackage.recipes_dependencies store (recipes_dependencies store (S depth)) m
            = Ok deps).
    unfold MetaPackage.recipes_dependencies in *.
    inv_bind H as children Hchildren.
    by rewrite (mapM_res_Ok_mono _ _ _ _ IH Hchildren).
  - change (App.recipes_dependencies store (recipes_dependencies store depth) a
            = Ok deps) in H.
    change (App.recipes_dependencies store (recipes_dependencies store (S depth)) a
            = Ok deps).
    unfold App.recipes_dependencies in *.
    inv_bind H as children Hchildren.
    by rewrite (mapM_res_Ok_mono _ _ _ _ Hnamed Hchildren).
Qed.

(** X25.  The depth of calls allowed bounds [recipes_dependencies] and
    changes nothing else: a result returned within some depth is the result
    at every greater depth. *)
Theorem recipes_dependencies_depth (store : Store Descriptor) (depth depth' : nat)
    (d : Descriptor) (deps : list string) :
  depth ≤ depth' →
  recipes_dependencies store depth d = Ok deps →
  recipes_dependencies store depth' d = Ok deps.
Proof.
  intros Hle H. induction Hle as [| depth' _ IH]; [done |].
  by apply recipes_dependencies_S.
Qed.

Lemma recipes_dependencies_depth_witness :
  recipes_dependencies gst_store 1000 (IsMetaPackage sdk_metapackage)
  = Ok ["gstreamer"; "glib"; "gst-plugins-base"; "gst-plugins-good"].
Proof.
  apply (recipes_dependencies_depth gst_store 3 1000); [lia | vm_compute; reflexivity].
Defined.
